(** * NTC_Reader: fixed-point NTC thermistor pipeline

    A shallow embedding of the numeric core of the NTC_Reader firmware
    (Arduino Nano, ATmega328P) and the properties of its table lookup,
    interpolation, sampling, resistance conversion, filtering and
    orchestration code.

    Conventions of the embedding:
    - machine integers are [Z] with the wrap-around of their C++ type written
      out ([size_t] and [unsigned int] are 16 bits wide on the AVR target,
      [uint32_t] and [int64_t] are what their names say);
    - a C++ operation with undefined behaviour (an array read outside the
      array, an integer division by zero) is an explicit [outcome];
    - the [while] loop of the search carries a fuel argument, and results are
      stated for every sufficient amount of fuel;
    - the [LOG*] macros only print and are left out. *)

From Stdlib Require Import ZArith List Lia Bool QArith.
Import ListNotations.
Local Open Scope Z_scope.

(** * Part I: the embedding *)

(** ** Machine integers *)

Module Machine.

(** Unsigned wrap-around to [bits] bits. *)
Definition wrap_unsigned (bits x : Z) : Z := x mod 2 ^ bits.

(** Two's complement wrap-around to [bits] bits. *)
Definition wrap_signed (bits x : Z) : Z :=
  (x + 2 ^ (bits - 1)) mod 2 ^ bits - 2 ^ (bits - 1).

Definition to_uint16 : Z -> Z := wrap_unsigned 16.
Definition to_uint32 : Z -> Z := wrap_unsigned 32.
Definition to_int16 : Z -> Z := wrap_signed 16.
Definition to_int32 : Z -> Z := wrap_signed 32.
Definition to_int64 : Z -> Z := wrap_signed 64.

(** [size_t] of avr-gcc is a 16-bit unsigned integer. *)
Definition SIZE_MAX : Z := 65535.
Definition to_size_t : Z -> Z := wrap_unsigned 16.

Definition is_uint8 (x : Z) : Prop := 0 <= x <= 255.
Definition is_uint16 (x : Z) : Prop := 0 <= x <= 65535.
Definition is_uint32 (x : Z) : Prop := 0 <= x <= 4294967295.
Definition is_int16 (x : Z) : Prop := -32768 <= x <= 32767.
Definition is_int32 (x : Z) : Prop := -2147483648 <= x <= 2147483647.
Definition is_int64 (x : Z) : Prop :=
  -9223372036854775808 <= x <= 9223372036854775807.

End Machine.

Import Machine.

(** ** Outcomes of a call *)

(** What a call of the modelled C++ code does: it returns a value, or it
    leaves defined behaviour, or (for the search loop only) it is still
    running when the fuel is used up. *)
Inductive outcome (A : Type) : Type :=
| Done (a : A)
| OutOfBounds (idx : Z)
| DivisionByZero
| OutOfFuel.

Arguments Done {A} a.
Arguments OutOfBounds {A} idx.
Arguments DivisionByZero {A}.
Arguments OutOfFuel {A}.

Definition bind {A B : Type} (m : outcome A) (k : A -> outcome B) : outcome B :=
  match m with
  | Done a => k a
  | OutOfBounds i => OutOfBounds i
  | DivisionByZero => DivisionByZero
  | OutOfFuel => OutOfFuel
  end.

Notation "x <- m ;; k" := (bind m (fun x => k))
  (at level 61, m at next level, right associativity).

Definition returns {A : Type} (m : outcome A) : bool :=
  match m with Done _ => true | _ => false end.

(** [arr[i]] on a C++ array: a value inside the array, undefined outside. *)
Definition at_index {A : Type} (arr : list A) (i : Z) : outcome A :=
  if i <? 0 then OutOfBounds i
  else match nth_error arr (Z.to_nat i) with
       | Some e => Done e
       | None => OutOfBounds i
       end.

(** [N] of a [const Entry (&lut)[N]] parameter. *)
Definition array_size {A : Type} (arr : list A) : Z := Z.of_nat (length arr).

(** ** Configuration constants (config/Config.h) *)

Module Adc.
Definition BIT_RESOLUTION : Z := 10.
Definition MAX_VALUE : Z := Z.shiftl 1 BIT_RESOLUTION - 1.
End Adc.

Module Sensors.
Definition PULLUP_FIXED_RESISTOR_OHMS : Z := 12700.
Definition LUT_TEMPERATURE_MIN_C : Z := -40.
Definition LUT_TEMPERATURE_MAX_C : Z := 40.
End Sensors.

(** The error value of a temperature read. *)
Definition SENTINEL : Z := -32768.

(** ** math helpers (utils/helpers.h) *)

Module math.

Definition clamp (value min max : Z) : Z :=
  if value <? min then min else if value >? max then max else value.

(** [remap<int>]: [int] is 16 bits wide on the target and [long] 32 bits.
    The value is clamped to the source range with [clamp] as it is (lower
    bound first); the product and the quotient are computed in [long], the
    quotient is narrowed to [int] and added to [targetMin] in [int]. *)
Definition remap (value sourceMin sourceMax targetMin targetMax : Z) : outcome Z :=
  if sourceMin =? sourceMax then Done targetMin
  else
    let value' := clamp value sourceMin sourceMax in
    let run := to_int32 (to_int32 value' - to_int32 sourceMin) in
    let rise := to_int32 (to_int32 targetMax - to_int32 targetMin) in
    let span := to_int32 (to_int32 sourceMax - to_int32 sourceMin) in
    if span =? 0 then DivisionByZero
    else
      Done (to_int16 (targetMin + to_int16 (to_int32 (Z.quot (to_int32 (run * rise)) span)))).

End math.

(** ** Table lookup (data/lut_utils.h) *)

Module lut_utils.

Inductive LutOrder : Type := DECREASING | INCREASING | AUTO.

Record LutBracket : Type := mkLutBracket {
  lowerIdx : Z;
  upperIdx : Z;
  exactIdx : Z;
  foundExact : bool;
  outOfRange : bool;
  clamped : bool
}.

(** The default constructor [LutBracket()]. *)
Definition LutBracket_default : LutBracket :=
  {| lowerIdx := 0; upperIdx := 0; exactIdx := SIZE_MAX;
     foundExact := false; outOfRange := false; clamped := false |}.

Definition set_outOfRange (b : bool) (r : LutBracket) : LutBracket :=
  {| lowerIdx := lowerIdx r; upperIdx := upperIdx r; exactIdx := exactIdx r;
     foundExact := foundExact r; outOfRange := b; clamped := clamped r |}.

(** How the [while] loop of [binarySearchLut] is left: by its [return]
    on an exact match, or by its condition with the final bounds. *)
Inductive loop_exit : Type :=
| Return (result : LutBracket)
| Break (left right : Z).

Section BinarySearch.

Context {Entry : Type}.
Variable lut : list Entry.
Variable target : Z.
Variable proj : Entry -> Z.

Definition goLeft_of (order : LutOrder) (midKey : Z) : bool :=
  let isTargetLessThanMid := target <? midKey in
  match order with
  | INCREASING => isTargetLessThanMid
  | _ => negb isTargetLessThanMid
  end.

(** Step 2 of [binarySearchLut]: the loop, one iteration per unit of
    fuel; [left], [right] and [mid] are [size_t]. *)
Fixpoint search_loop (fuel : nat) (order : LutOrder) (left right : Z)
  : outcome loop_exit :=
  if left <=? right then
    match fuel with
    | O => OutOfFuel
    | S fuel' =>
        let mid := to_size_t (left + to_size_t (right - left) / 2) in
        midEntry <- at_index lut mid ;;
        let midKey := proj midEntry in
        if midKey =? target then
          Done (Return {| lowerIdx := mid; upperIdx := mid; exactIdx := mid;
                          foundExact := true; outOfRange := false;
                          clamped := false |})
        else if goLeft_of order midKey then
          search_loop fuel' order left (to_size_t (mid - 1))
        else
          search_loop fuel' order (to_size_t (mid + 1)) right
    end
  else Done (Break left right).

(** Step 1: the order to search in. *)
Definition resolve_order (order : LutOrder) : outcome LutOrder :=
  match order with
  | AUTO =>
      if array_size lut <? 2 then Done INCREASING
      else
        e0 <- at_index lut 0 ;;
        e1 <- at_index lut 1 ;;
        Done (if proj e0 <=? proj e1 then INCREASING else DECREASING)
  | _ => Done order
  end.

(** Step 3: the bracket when the loop ended without an exact match;
    [result] is the bracket as initialised in step 0. *)
Definition bracket_of_bounds (result : LutBracket) (left right : Z) : LutBracket :=
  let N := array_size lut in
  if left =? 0 then
    {| lowerIdx := 0; upperIdx := 1; exactIdx := exactIdx result;
       foundExact := false; outOfRange := outOfRange result; clamped := true |}
  else if right >=? to_size_t (N - 1) then
    {| lowerIdx := to_size_t (N - 2); upperIdx := to_size_t (N - 1);
       exactIdx := exactIdx result;
       foundExact := false; outOfRange := outOfRange result; clamped := true |}
  else
    {| lowerIdx := right; upperIdx := left; exactIdx := exactIdx result;
       foundExact := false; outOfRange := false; clamped := false |}.

Definition binarySearchLut (fuel : nat) (order : LutOrder) : outcome LutBracket :=
  let result := set_outOfRange true LutBracket_default in
  let left := 0 in
  let right := to_size_t (array_size lut - 1) in
  order' <- resolve_order order ;;
  exit <- search_loop fuel order' left right ;;
  match exit with
  | Return r => Done r
  | Break left' right' => Done (bracket_of_bounds result left' right')
  end.

End BinarySearch.

(** *** The calibration table

    An entry is the [ThermistorEntry] struct.  The table [NTC_LUT] of
    data/thermistor_lut.h is a parameter of everything that reads it. *)

Record ThermistorEntry : Type := mkThermistorEntry {
  resistance_x10 : Z;   (* uint32_t *)
  temperature_x10 : Z   (* int16_t *)
}.

Section Interpolation.

Variable NTC_LUT : list ThermistorEntry.

Definition NTC_LUT_SIZE : Z := array_size NTC_LUT.

(** [t_interpolated_x10] of [applyLinearInterpolation<uint32_t, int16_t>]
    before the clamp, for [r_cold_x10 <> r_hot_x10]: the deltas are computed
    in the argument types ([Res] is unsigned and wraps, [Temp] is narrowed
    back to 16 bits), the product and the quotient in [int64_t]. *)
Definition t_interpolated_x10 (r_measured_x10 r_cold_x10 r_hot_x10 t_cold_x10 t_hot_x10 : Z)
  : outcome Z :=
  let delta_r := to_uint32 (r_cold_x10 - r_hot_x10) in
  let delta_r_measured := to_uint32 (r_cold_x10 - r_measured_x10) in
  let delta_t := to_int16 (t_hot_x10 - t_cold_x10) in
  if to_int64 delta_r =? 0 then DivisionByZero
  else
    Done (to_int64 (to_int64 t_cold_x10 +
                    to_int64 (Z.quot (to_int64 (to_int64 delta_t * to_int64 delta_r_measured))
                                     (to_int64 delta_r)))).

(** The clamp of [applyLinearInterpolation]: guarded by the configured
    span, bounded by the table's last and first entries, in this order. *)
Definition clamp_to_lut (t : Z) : outcome Z :=
  if (t <? Sensors.LUT_TEMPERATURE_MIN_C * 10) || (t >? Sensors.LUT_TEMPERATURE_MAX_C * 10) then
    last <- at_index NTC_LUT (to_size_t (NTC_LUT_SIZE - 1)) ;;
    first <- at_index NTC_LUT 0 ;;
    Done (math.clamp t (to_int64 (temperature_x10 last)) (to_int64 (temperature_x10 first)))
  else Done t.

Definition applyLinearInterpolation
  (r_measured_x10 r_cold_x10 r_hot_x10 t_cold_x10 t_hot_x10 : Z) : outcome Z :=
  if r_cold_x10 =? r_hot_x10 then Done t_cold_x10
  else
    t <- t_interpolated_x10 r_measured_x10 r_cold_x10 r_hot_x10 t_cold_x10 t_hot_x10 ;;
    t' <- clamp_to_lut t ;;
    Done (to_int16 t').

End Interpolation.

End lut_utils.

Import lut_utils.

(** ** Resistance to temperature (Model/LutTemperatureConverter.cpp) *)

Module LutTemperatureConverter.

Section Converter.

Variable NTC_LUT : list ThermistorEntry.

Definition convertToTemperature_x10 (fuel : nat) (resistance_x10' : Z) : outcome Z :=
  if resistance_x10' =? 0 then Done SENTINEL
  else
    bracket <- binarySearchLut NTC_LUT resistance_x10' resistance_x10 fuel DECREASING ;;
    if outOfRange bracket then
      if clamped bracket then
        first <- at_index NTC_LUT 0 ;;
        if resistance_x10' >? resistance_x10 first then Done (temperature_x10 first)
        else
          last <- at_index NTC_LUT (to_size_t (NTC_LUT_SIZE NTC_LUT - 1)) ;;
          Done (temperature_x10 last)
      else Done SENTINEL
    else if foundExact bracket then
      e <- at_index NTC_LUT (exactIdx bracket) ;;
      Done (temperature_x10 e)
    else
      cold <- at_index NTC_LUT (lowerIdx bracket) ;;
      hot <- at_index NTC_LUT (upperIdx bracket) ;;
      applyLinearInterpolation NTC_LUT resistance_x10'
        (resistance_x10 cold) (resistance_x10 hot)
        (temperature_x10 cold) (temperature_x10 hot).

End Converter.

End LutTemperatureConverter.

(** ** Raw sample to resistance (Model/VoltageDividerResistanceConverter.cpp) *)

Module VoltageDividerResistanceConverter.

Record t : Type := mk { fixedResistor_ : Z (* uint16_t *) }.

(** The constructor. *)
Definition new (pullup_Ohms : Z) : t :=
  {| fixedResistor_ :=
       if pullup_Ohms =? 0 then Sensors.PULLUP_FIXED_RESISTOR_OHMS else pullup_Ohms |}.

(** The numerator is a [uint32_t] product; the divisor is computed in
    [unsigned int] (16 bits) and converted to [uint32_t]. *)
Definition convertToResistance_x10 (self : t) (adc_raw : Z) : outcome Z :=
  if (adc_raw =? 0) || (adc_raw >? Adc.MAX_VALUE) then Done 0
  else
    let numerator := to_uint32 (to_uint32 (to_uint32 adc_raw * fixedResistor_ self) * 10) in
    let divisor := to_uint32 (to_uint16 (Adc.MAX_VALUE - adc_raw)) in
    if divisor =? 0 then DivisionByZero
    else Done (numerator / divisor).

End VoltageDividerResistanceConverter.

(** ** Sampling (Model/AdcSampler.cpp) *)

Module avr_algorithms.

(** Modelled from the spec: [avr_algorithms::repeat], whose header
    utils/avr_algorithms.h is missing.  The averager "discards
    [samplesToDiscard] raw acquisitions" and "accumulates [samplesToAverage]
    further raw acquisitions": [repeat n f] runs the callable [f] [n] times,
    one after the other, on the state it captures by reference. *)
Fixpoint repeat {St : Type} (n : nat) (f : St -> St) (s : St) : St :=
  match n with
  | O => s
  | S n' => repeat n' f (f s)
  end.

End avr_algorithms.

Module AdcSampler.

(** The board as the sampler sees it: [analog_signal pin k] is what the
    [k]-th call of [analogRead] returns when made on [pin]; [reads] counts
    the calls made so far and [micros] the time spent in
    [delayMicroseconds]. *)
Record Board : Type := mkBoard {
  analog_signal : Z -> nat -> Z;
  reads : nat;
  micros : Z
}.

Definition analogRead (pin : Z) (b : Board) : Z * Board :=
  (analog_signal b pin (reads b),
   {| analog_signal := analog_signal b; reads := S (reads b); micros := micros b |}).

Definition delayMicroseconds (us : Z) (b : Board) : Board :=
  {| analog_signal := analog_signal b; reads := reads b; micros := micros b + us |}.

Record t : Type := mk {
  pin_ : Z;               (* uint8_t *)
  samples_per_read_ : Z;  (* uint8_t *)
  discard_N_first_ : Z;   (* uint8_t *)
  settleUs_ : Z           (* uint8_t *)
}.

(** The constructor. *)
Definition new (adc_pin samples_to_average samples_to_discard settle_us : Z) : t :=
  {| pin_ := adc_pin;
     samples_per_read_ := if samples_to_average >? 0 then samples_to_average else 1;
     discard_N_first_ := samples_to_discard;
     settleUs_ := if settle_us >? 0 then settle_us else 10 |}.

Definition settle (self : t) (b : Board) : Board :=
  if settleUs_ self >? 0 then delayMicroseconds (settleUs_ self) b else b.

(** The two callables of [sample], on the pair of [accumulated]
    ([uint32_t]) and the board. *)
Definition discard_one (self : t) (st : Z * Board) : Z * Board :=
  let '(accumulated, b) := st in
  let '(_, b1) := analogRead (pin_ self) b in
  (accumulated, settle self b1).

Definition accumulate_one (self : t) (st : Z * Board) : Z * Board :=
  let '(accumulated, b) := st in
  let '(v, b1) := analogRead (pin_ self) b in
  (to_uint32 (accumulated + to_uint32 v), settle self b1).

(** [samples_per_read_] divides in step 3; the constructor keeps it above
    zero. *)
Definition sample (self : t) (b : Board) : Z * Board :=
  let st0 := (0, b) in
  let st1 := avr_algorithms.repeat (Z.to_nat (discard_N_first_ self)) (discard_one self) st0 in
  let '(accumulated, b2) :=
    avr_algorithms.repeat (Z.to_nat (samples_per_read_ self)) (accumulate_one self) st1 in
  let avg :=
    if samples_per_read_ self =? 1 then to_uint16 accumulated
    else to_uint16 (to_uint32 (accumulated + Z.shiftr (samples_per_read_ self) 1)
                    / samples_per_read_ self) in
  (if avg >? Adc.MAX_VALUE then Adc.MAX_VALUE else avg, b2).

End AdcSampler.

(** ** Exponential filter (Filter/EmaFilter.h) *)

Module EmaFilter.

(** The values of a [float] as far as [begin] looks at them: a number, an
    infinity or a NaN.  Only comparisons with 0 and 1 and the constant 0.5
    are used, so no rounding is involved. *)
Inductive cfloat : Type :=
| FNum (q : Q)
| FPosInf
| FNegInf
| FNaN.

(** [a < b] and [a > b] of IEEE 754: false as soon as a NaN is involved. *)
Definition flt (a b : cfloat) : bool :=
  match a, b with
  | FNaN, _ | _, FNaN => false
  | FNegInf, FNegInf => false
  | FNegInf, _ => true
  | _, FNegInf => false
  | FPosInf, _ => false
  | _, FPosInf => true
  | FNum x, FNum y => negb (Qle_bool y x)
  end.

Definition fgt (a b : cfloat) : bool := flt b a.

Record t : Type := mk {
  alpha_ : cfloat;
  prev_value_ : Z;
  initialize_ : bool
}.

(** The constructor. *)
Definition new (alpha : cfloat) (initial_value : Z) : t :=
  {| alpha_ := alpha; prev_value_ := initial_value; initialize_ := false |}.

Definition begin (self : t) : t :=
  if flt (alpha_ self) (FNum 0) || fgt (alpha_ self) (FNum 1) then
    {| alpha_ := FNum (1 # 2); prev_value_ := prev_value_ self;
       initialize_ := initialize_ self |}
  else self.

(** [0 < alpha <= 1] and [0 <= alpha <= 1] on the modelled values. *)
Definition in_half_open_unit (a : cfloat) : Prop :=
  match a with FNum q => (0 < q /\ q <= 1)%Q | _ => False end.

Definition in_closed_unit (a : cfloat) : Prop :=
  match a with FNum q => (0 <= q /\ q <= 1)%Q | _ => False end.

End EmaFilter.

(** ** Orchestration (Model/TemperatureSensor.cpp) *)

Module TemperatureSensor.

Inductive TemperatureUnit : Type := Celsius | Fahrenheit | Kelvin.

Section Pipeline.

(** The states of the sampler and filter objects the sensor points to. *)
Variables SamplerState FilterState : Type.

(** The stage interfaces: [ISampler::sample], [IFilter<int16_t>::apply]
    act on their object; the two converters of the repository keep no
    state and are functions. *)
Definition ISampler : Type := SamplerState -> Z * SamplerState.
Definition IResistanceConverter : Type := Z -> Z.
Definition ITemperatureConverter : Type := Z -> Z.
Definition IFilter : Type := Z -> FilterState -> Z * FilterState.

(** The sensor: a null pointer is [None]. *)
Record t : Type := mk {
  sampler_ : option ISampler;
  resistanceConverter_ : option IResistanceConverter;
  temperatureConverter_ : option ITemperatureConverter;
  filter_ : option IFilter;
  unit_ : TemperatureUnit
}.

(** The objects behind the pointers, and how often each was called. *)
Record World : Type := mkWorld {
  sampler_object : SamplerState;
  filter_object : FilterState;
  sample_calls : nat;
  apply_calls : nat
}.

(** The constructor and the fluent setters. *)
Definition new : t :=
  {| sampler_ := None; resistanceConverter_ := None; temperatureConverter_ := None;
     filter_ := None; unit_ := Celsius |}.

Definition addSampler (sampler : option ISampler) (self : t) : t :=
  {| sampler_ := sampler; resistanceConverter_ := resistanceConverter_ self;
     temperatureConverter_ := temperatureConverter_ self;
     filter_ := filter_ self; unit_ := unit_ self |}.

Definition addResistanceConverter (converter : option IResistanceConverter) (self : t) : t :=
  {| sampler_ := sampler_ self; resistanceConverter_ := converter;
     temperatureConverter_ := temperatureConverter_ self;
     filter_ := filter_ self; unit_ := unit_ self |}.

Definition addTemperatureConverter (converter : option ITemperatureConverter) (self : t) : t :=
  {| sampler_ := sampler_ self; resistanceConverter_ := resistanceConverter_ self;
     temperatureConverter_ := converter;
     filter_ := filter_ self; unit_ := unit_ self |}.

Definition addFilter (filter : option IFilter) (self : t) : t :=
  {| sampler_ := sampler_ self; resistanceConverter_ := resistanceConverter_ self;
     temperatureConverter_ := temperatureConverter_ self;
     filter_ := filter; unit_ := unit_ self |}.

Definition build (self : t) : t := self.

Definition call_sampler (sampler : ISampler) (w : World) : Z * World :=
  let '(adc_raw, s') := sampler (sampler_object w) in
  (adc_raw, {| sampler_object := s'; filter_object := filter_object w;
               sample_calls := S (sample_calls w); apply_calls := apply_calls w |}).

Definition call_filter (filter : IFilter) (x : Z) (w : World) : Z * World :=
  let '(y, f') := filter x (filter_object w) in
  (y, {| sampler_object := sampler_object w; filter_object := f';
         sample_calls := sample_calls w; apply_calls := S (apply_calls w) |}).

Definition readTemperature_x10 (self : t) (w : World) : Z * World :=
  match sampler_ self, resistanceConverter_ self, temperatureConverter_ self with
  | Some sampler, Some resistanceConverter, Some temperatureConverter =>
      let '(adc_raw, w1) := call_sampler sampler w in
      let resistance := resistanceConverter adc_raw in
      if resistance =? 0 then (SENTINEL, w1)
      else
        let temperature := temperatureConverter resistance in
        if temperature =? SENTINEL then (SENTINEL, w1)
        else
          match filter_ self with
          | Some filter => call_filter filter temperature w1
          | None => (temperature, w1)
          end
  | _, _, _ => (SENTINEL, w)
  end.

(** Ready: the three required stages are attached. *)
Definition ready (self : t) : bool :=
  match sampler_ self, resistanceConverter_ self, temperatureConverter_ self with
  | Some _, Some _, Some _ => true
  | _, _, _ => false
  end.

End Pipeline.

End TemperatureSensor.

(** ** The wired pipeline (main.cpp) *)

Module Firmware.

Section Wired.

Variable FilterState : Type.
Variable NTC_LUT : list ThermistorEntry.

(** What [setup] attaches to a sensor: an [AdcSampler], the
    [VoltageDividerResistanceConverter], the [LutTemperatureConverter]
    (which has no data of its own) and a filter. *)
Record Stages : Type := mkStages {
  sampler : AdcSampler.t;
  resistanceConverter : VoltageDividerResistanceConverter.t;
  filter : option (TemperatureSensor.IFilter FilterState)
}.

(** [TemperatureSensor::readTemperature_x10] on these stages: the three
    required pointers are set, the calls are the concrete ones, and a call
    that leaves defined behaviour ends the read. *)
Definition readTemperature_x10 (fuel : nat) (st : Stages)
           (b : AdcSampler.Board) (f : FilterState)
  : outcome (Z * AdcSampler.Board * FilterState) :=
  let '(adc_raw, b1) := AdcSampler.sample (sampler st) b in
  resistance <-
    VoltageDividerResistanceConverter.convertToResistance_x10 (resistanceConverter st) adc_raw ;;
  if resistance =? 0 then Done (SENTINEL, b1, f)
  else
    temperature <- LutTemperatureConverter.convertToTemperature_x10 NTC_LUT fuel resistance ;;
    if temperature =? SENTINEL then Done (SENTINEL, b1, f)
    else
      match filter st with
      | Some apply =>
          let '(y, f') := apply temperature f in
          Done (y, b1, f')
      | None => Done (temperature, b1, f)
      end.

End Wired.

End Firmware.

(** The value a call returns, or [default] when it does not return. *)
Definition value_or {A : Type} (default : A) (m : outcome A) : A :=
  match m with Done a => a | _ => default end.

(** A board whose analog input reads [level] on every pin, every time. *)
Definition steady_board (level : Z) : AdcSampler.Board :=
  {| AdcSampler.analog_signal := fun _ _ => level;
     AdcSampler.reads := 0%nat;
     AdcSampler.micros := 0 |}.

(** ** Vocabulary of the statements *)

(** Adjacent keys strictly increase (decrease). *)
Fixpoint strictly_increasing (ks : list Z) : bool :=
  match ks with
  | a :: tl =>
      match tl with
      | b :: _ => (a <? b) && strictly_increasing tl
      | [] => true
      end
  | [] => true
  end.

Fixpoint strictly_decreasing (ks : list Z) : bool :=
  match ks with
  | a :: tl =>
      match tl with
      | b :: _ => (b <? a) && strictly_decreasing tl
      | [] => true
      end
  | [] => true
  end.

(** The keys are strictly monotonic in the order [o]. *)
Definition sorted_as (o : LutOrder) (ks : list Z) : bool :=
  match o with
  | INCREASING => strictly_increasing ks
  | DECREASING => strictly_decreasing ks
  | AUTO => false
  end.

(** [a] comes strictly before [b] in a table of order [o]. *)
Definition before (o : LutOrder) (a b : Z) : Prop :=
  match o with
  | INCREASING => a < b
  | _ => b < a
  end.

(** The bracket of an exact match at index [i]. *)
Definition exact_bracket (i : Z) : LutBracket :=
  {| lowerIdx := i; upperIdx := i; exactIdx := i;
     foundExact := true; outOfRange := false; clamped := false |}.

(** The bracket of a target beyond the last entry of a table of [N]
    entries. *)
Definition high_edge_bracket (N : Z) : LutBracket :=
  {| lowerIdx := N - 2; upperIdx := N - 1; exactIdx := SIZE_MAX;
     foundExact := false; outOfRange := true; clamped := true |}.

(** The three-point calibration table of the specification's end-to-end
    scenario: -40.0, 25.0 and +40.0 degrees, by decreasing resistance. *)
Definition sample_lut : list ThermistorEntry :=
  [ {| resistance_x10 := 1000000; temperature_x10 := -400 |};
    {| resistance_x10 := 50000; temperature_x10 := 250 |};
    {| resistance_x10 := 10000; temperature_x10 := 400 |} ].

(** [f start + f (start + 1) + ... + f (start + n - 1)]. *)
Fixpoint sum_of_reads (f : nat -> Z) (start n : nat) : Z :=
  match n with
  | O => 0
  | S n' => f start + sum_of_reads f (S start) n'
  end.

(** The mean of [count] acquisitions of sum [sum], as step 3 rounds it. *)
Definition rounded_mean (sum count : Z) : Z :=
  if count =? 1 then sum else (sum + count / 2) / count.

(** A board whose analog input yields 10, 10, 10, 10, 20, 20, 20, 20 (and
    0 from then on), whichever the pin. *)
Definition step_board : AdcSampler.Board :=
  {| AdcSampler.analog_signal := fun _ k => nth k [10; 10; 10; 10; 20; 20; 20; 20] 0;
     AdcSampler.reads := 0%nat;
     AdcSampler.micros := 0 |}.

(** A board whose [k]-th acquisition is [k * k], whichever the pin: 0, 1,
    4, 9, 16, 25, 36, 49, ... *)
Definition ramp_board : AdcSampler.Board :=
  {| AdcSampler.analog_signal := fun _ k => Z.of_nat (k * k);
     AdcSampler.reads := 0%nat;
     AdcSampler.micros := 0 |}.

(** A filter that returns the value it holds and keeps holding it: what
    the recurrence [(1 - alpha) * prev + alpha * new] of the exponential
    filter gives for [alpha = 0]. *)
Definition hold_filter : TemperatureSensor.IFilter Z :=
  fun (new_value prev_value : Z) => (prev_value, prev_value).

(** A sensor with every stage attached: the sampler returns its state as
    the raw value, the converters are constant. *)
Definition demo_sensor (filter : option (TemperatureSensor.IFilter Z))
  : TemperatureSensor.t Z Z :=
  TemperatureSensor.build Z Z
    (TemperatureSensor.addFilter Z Z filter
       (TemperatureSensor.addTemperatureConverter Z Z (Some (fun _ => 250))
          (TemperatureSensor.addResistanceConverter Z Z (Some (fun _ => 50000))
             (TemperatureSensor.addSampler Z Z (Some (fun s => (s, s)))
                (TemperatureSensor.new Z Z))))).

Definition demo_world (held : Z) : TemperatureSensor.World Z Z :=
  {| TemperatureSensor.sampler_object := 512;
     TemperatureSensor.filter_object := held;
     TemperatureSensor.sample_calls := 0;
     TemperatureSensor.apply_calls := 0 |}.

(** A calibration entry as the table declares it: a positive 32-bit
    resistance and a temperature within the configured span. *)
Definition well_formed_entry (e : ThermistorEntry) : bool :=
  (0 <? resistance_x10 e) && (resistance_x10 e <=? 4294967295) &&
  (Sensors.LUT_TEMPERATURE_MIN_C * 10 <=? temperature_x10 e) &&
  (temperature_x10 e <=? Sensors.LUT_TEMPERATURE_MAX_C * 10).

(** A calibration table as the converter expects it: such entries, by
    strictly decreasing resistance. *)
Definition well_formed_lut (l : list ThermistorEntry) : bool :=
  forallb well_formed_entry l && strictly_decreasing (map resistance_x10 l).

(** The temperatures do not decrease along the table. *)
Fixpoint warming (l : list ThermistorEntry) : bool :=
  match l with
  | a :: tl =>
      match tl with
      | b :: _ => (temperature_x10 a <=? temperature_x10 b) && warming tl
      | [] => true
      end
  | [] => true
  end.

(** * Part II: properties *)

Ltac Zify.zify_post_hook ::= Z.to_euclidean_division_equations.

(** ** Machine integers and arrays *)

Lemma to_size_t_small (x : Z) : 0 <= x <= SIZE_MAX -> to_size_t x = x.
Proof.
  unfold to_size_t, wrap_unsigned, SIZE_MAX. intros H.
  apply Z.mod_small. change (2 ^ 16) with 65536. lia.
Qed.

Lemma to_uint32_small (x : Z) : is_uint32 x -> to_uint32 x = x.
Proof.
  unfold to_uint32, wrap_unsigned, is_uint32. intros H.
  apply Z.mod_small. change (2 ^ 32) with 4294967296. lia.
Qed.

Lemma to_uint16_small (x : Z) : is_uint16 x -> to_uint16 x = x.
Proof.
  unfold to_uint16, wrap_unsigned, is_uint16. intros H.
  apply Z.mod_small. change (2 ^ 16) with 65536. lia.
Qed.

Lemma to_int16_small (x : Z) : is_int16 x -> to_int16 x = x.
Proof.
  unfold to_int16, wrap_signed, is_int16. intros H.
  change (2 ^ (16 - 1)) with 32768. change (2 ^ 16) with 65536.
  rewrite Z.mod_small by lia. lia.
Qed.

Lemma to_int64_small (x : Z) :
  -9223372036854775808 <= x <= 9223372036854775807 -> to_int64 x = x.
Proof.
  unfold to_int64, wrap_signed. intros H.
  change (2 ^ (64 - 1)) with 9223372036854775808.
  change (2 ^ 64) with 18446744073709551616.
  rewrite Z.mod_small by lia. lia.
Qed.

Lemma at_index_nth {A : Type} (arr : list A) (i : Z) (e : A) :
  0 <= i -> nth_error arr (Z.to_nat i) = Some e -> at_index arr i = Done e.
Proof.
  intros Hi He. unfold at_index.
  destruct (Z.ltb_spec i 0); [lia|]. now rewrite He.
Qed.

Lemma at_index_inside {A : Type} (arr : list A) (i : Z) :
  0 <= i < array_size arr ->
  exists e, nth_error arr (Z.to_nat i) = Some e /\ at_index arr i = Done e.
Proof.
  unfold array_size. intros Hi.
  destruct (nth_error arr (Z.to_nat i)) as [e|] eqn:He.
  - exists e. split; [reflexivity|]. now apply at_index_nth.
  - apply nth_error_None in He. lia.
Qed.

Lemma at_index_outside {A : Type} (arr : list A) (i : Z) :
  array_size arr <= i -> at_index arr i = OutOfBounds i.
Proof.
  unfold array_size, at_index. intros Hi.
  destruct (Z.ltb_spec i 0); [reflexivity|].
  assert (E : nth_error arr (Z.to_nat i) = None) by (apply nth_error_None; lia).
  now rewrite E.
Qed.

(** ** Sorted keys *)

Lemma strictly_increasing_tail (a : Z) (ks : list Z) :
  strictly_increasing (a :: ks) = true -> strictly_increasing ks = true.
Proof.
  simpl. destruct ks as [|b tl]; [reflexivity|].
  intros H. apply andb_true_iff in H. tauto.
Qed.

Lemma strictly_increasing_head (ks : list Z) :
  forall a b, strictly_increasing (a :: ks) = true -> In b ks -> a < b.
Proof.
  induction ks as [|c tl IH]; intros a b Hs Hin; [destruct Hin|].
  simpl in Hs. apply andb_true_iff in Hs. destruct Hs as [Hac Htl].
  apply Z.ltb_lt in Hac.
  destruct Hin as [<-|Hin]; [assumption|].
  specialize (IH c b Htl Hin). lia.
Qed.

Lemma strictly_increasing_nth (ks : list Z) :
  forall (i j : nat) (a b : Z),
    strictly_increasing ks = true -> (i < j)%nat ->
    nth_error ks i = Some a -> nth_error ks j = Some b -> a < b.
Proof.
  induction ks as [|c tl IH]; intros i j a b Hs Hij Ha Hb.
  - destruct i; discriminate.
  - destruct j as [|j]; [lia|]. simpl in Hb.
    destruct i as [|i].
    + simpl in Ha. injection Ha as <-.
      apply (strictly_increasing_head tl); [assumption|].
      eapply nth_error_In; eassumption.
    + simpl in Ha. apply (IH i j); try assumption; try lia.
      eapply strictly_increasing_tail; eassumption.
Qed.

Lemma strictly_decreasing_opp (ks : list Z) :
  strictly_decreasing ks = strictly_increasing (map Z.opp ks).
Proof.
  induction ks as [|a tl IH]; [reflexivity|].
  destruct tl as [|b tl']; [reflexivity|].
  change (strictly_decreasing (a :: b :: tl'))
    with ((b <? a) && strictly_decreasing (b :: tl')).
  change (strictly_increasing (map Z.opp (a :: b :: tl')))
    with ((- a <? - b) && strictly_increasing (map Z.opp (b :: tl'))).
  rewrite IH. f_equal.
  destruct (Z.ltb_spec b a), (Z.ltb_spec (- a) (- b)); try reflexivity; lia.
Qed.

Lemma strictly_decreasing_nth (ks : list Z) :
  forall (i j : nat) (a b : Z),
    strictly_decreasing ks = true -> (i < j)%nat ->
    nth_error ks i = Some a -> nth_error ks j = Some b -> b < a.
Proof.
  intros i j a b Hs Hij Ha Hb.
  rewrite strictly_decreasing_opp in Hs.
  assert (H : - a < - b).
  { apply (strictly_increasing_nth (map Z.opp ks) i j); try assumption.
    - now apply map_nth_error.
    - now apply map_nth_error. }
  lia.
Qed.

Lemma sorted_as_nth (o : LutOrder) (ks : list Z) (i j : nat) (a b : Z) :
  sorted_as o ks = true -> (i < j)%nat ->
  nth_error ks i = Some a -> nth_error ks j = Some b -> before o a b.
Proof.
  destruct o; simpl; intros Hs Hij Ha Hb.
  - eapply strictly_decreasing_nth; eassumption.
  - eapply strictly_increasing_nth; eassumption.
  - discriminate.
Qed.

Lemma before_irrefl (o : LutOrder) (a : Z) : ~ before o a a.
Proof. destruct o; simpl; lia. Qed.

Lemma before_trans (o : LutOrder) (a b c : Z) :
  before o a b -> before o b c -> before o a c.
Proof. destruct o; simpl; lia. Qed.

Lemma before_asym (o : LutOrder) (a b : Z) : before o a b -> ~ before o b a.
Proof. destruct o; simpl; lia. Qed.

(** ** The search loop *)

(** [Hb] orders the key just read and the target strictly: the loop's
    equality test fails. *)
Ltac key_differs Hb :=
  match goal with
  | |- context [?k =? ?t] =>
      let E := fresh "E" in
      destruct (Z.eqb_spec k t) as [E|_];
      [rewrite E in Hb; now apply before_irrefl in Hb|]
  end.


Section SearchFacts.

Context {Entry : Type}.
Variable lut : list Entry.
Variable proj : Entry -> Z.
Variable target : Z.
Variable o : LutOrder.

Hypothesis o_resolved : o <> AUTO.
Hypothesis lut_sorted : sorted_as o (map proj lut) = true.
Hypothesis lut_fits : array_size lut <= SIZE_MAX.

Lemma key_order (i j : Z) (ei ej : Entry) :
  0 <= i < j ->
  nth_error lut (Z.to_nat i) = Some ei ->
  nth_error lut (Z.to_nat j) = Some ej ->
  before o (proj ei) (proj ej).
Proof.
  intros Hij Hi Hj.
  apply (sorted_as_nth o (map proj lut) (Z.to_nat i) (Z.to_nat j)).
  - exact lut_sorted.
  - lia.
  - now apply map_nth_error.
  - now apply map_nth_error.
Qed.

Lemma goLeft_of_before (midKey : Z) :
  before o target midKey -> goLeft_of target o midKey = true.
Proof.
  unfold goLeft_of. destruct o; simpl; intros H.
  - destruct (Z.ltb_spec target midKey); [lia|reflexivity].
  - now apply Z.ltb_lt.
  - now elim o_resolved.
Qed.

Lemma goLeft_of_after (midKey : Z) :
  before o midKey target -> goLeft_of target o midKey = false.
Proof.
  unfold goLeft_of. destruct o; simpl; intros H.
  - destruct (Z.ltb_spec target midKey); [reflexivity|lia].
  - apply Z.ltb_ge. lia.
  - now elim o_resolved.
Qed.

(** One iteration on bounds inside the table reads inside the table. *)
Lemma mid_inside (left right : Z) :
  0 <= left <= right -> right < array_size lut ->
  let mid := left + (right - left) / 2 in
  to_size_t (left + to_size_t (right - left) / 2) = mid /\ left <= mid <= right.
Proof.
  intros H1 H2 mid. unfold SIZE_MAX in lut_fits.
  rewrite (to_size_t_small (right - left)) by (unfold SIZE_MAX; lia).
  rewrite to_size_t_small by (unfold SIZE_MAX; subst mid; lia).
  subst mid. lia.
Qed.

(** A key of the table is found at its index. *)
Lemma search_loop_finds (i : Z) (e : Entry) :
  nth_error lut (Z.to_nat i) = Some e -> proj e = target ->
  forall (fuel : nat) (left right : Z),
    0 <= left <= i -> i <= right < array_size lut ->
    right - left < Z.of_nat fuel ->
    search_loop lut target proj fuel o left right = Done (Return (exact_bracket i)).
Proof.
  intros He Hkey.
  induction fuel as [|fuel IH]; intros left right Hl Hr Hfuel; [lia|].
  cbn [search_loop].
  destruct (Z.leb_spec left right) as [_|Hlr]; [|lia].
  destruct (mid_inside left right) as [Emid Hmid]; [lia|lia|].
  rewrite Emid. set (mid := left + (right - left) / 2) in *.
  destruct (at_index_inside lut mid) as [em [Hem Eem]]; [lia|].
  rewrite Eem. cbn [bind].
  destruct (Z.lt_trichotomy mid i) as [Hlt|[Heq|Hgt]].
  - assert (Hb : before o (proj em) target).
    { rewrite <- Hkey. apply (key_order mid i); [lia|assumption|assumption]. }
    key_differs Hb.
    rewrite (goLeft_of_after _ Hb).
    rewrite to_size_t_small by (unfold SIZE_MAX in *; lia).
    apply IH; lia.
  - assert (em = e) by congruence. subst em.
    rewrite Hkey, Z.eqb_refl. unfold exact_bracket. now rewrite Heq.
  - assert (Hb : before o target (proj em)).
    { rewrite <- Hkey. apply (key_order i mid); [lia|assumption|assumption]. }
    key_differs Hb.
    rewrite (goLeft_of_before _ Hb).
    rewrite to_size_t_small by (unfold SIZE_MAX in *; lia).
    apply IH; lia.
Qed.

(** A target after every key drives [left] past the last index. *)
Lemma search_loop_beyond_last :
  (forall e, In e lut -> before o (proj e) target) ->
  forall (fuel : nat) (left : Z),
    0 <= left <= array_size lut ->
    array_size lut - left <= Z.of_nat fuel ->
    search_loop lut target proj fuel o left (array_size lut - 1)
    = Done (Break (array_size lut) (array_size lut - 1)).
Proof.
  intros Hall.
  induction fuel as [|fuel IH]; intros left Hl Hfuel.
  - assert (left = array_size lut) by lia. subst left.
    cbn [search_loop].
    destruct (Z.leb_spec (array_size lut) (array_size lut - 1)); [lia|reflexivity].
  - cbn [search_loop].
    destruct (Z.leb_spec left (array_size lut - 1)) as [Hlr|Hlr].
    + destruct (mid_inside left (array_size lut - 1)) as [Emid Hmid]; [lia|lia|].
      rewrite Emid. set (mid := left + (array_size lut - 1 - left) / 2) in *.
      destruct (at_index_inside lut mid) as [em [Hem Eem]]; [lia|].
      rewrite Eem. cbn [bind].
      assert (Hb : before o (proj em) target).
      { apply Hall. eapply nth_error_In; eassumption. }
      key_differs Hb.
      rewrite (goLeft_of_after _ Hb).
      rewrite to_size_t_small by (unfold SIZE_MAX in *; lia).
      apply IH; lia.
    + assert (left = array_size lut) by lia. subst left. reflexivity.
Qed.

(** A target before every key drives [right] below index 0, where the
    unsigned [mid - 1] wraps to [SIZE_MAX]; the next iteration reads at
    index [SIZE_MAX / 2]. *)
Lemma search_loop_beyond_first :
  (forall e, In e lut -> before o target (proj e)) ->
  array_size lut <= 32767 ->
  forall (fuel : nat) (right : Z),
    0 <= right < array_size lut ->
    (search_loop lut target proj fuel o 0 right = OutOfFuel \/
     search_loop lut target proj fuel o 0 right = OutOfBounds 32767) /\
    (right + 2 <= Z.of_nat fuel ->
     search_loop lut target proj fuel o 0 right = OutOfBounds 32767).
Proof.
  intros Hall Hsmall.
  induction fuel as [|fuel IH]; intros right Hr.
  - split; [left|lia].
    cbn [search_loop]. destruct (Z.leb_spec 0 right); [reflexivity|lia].
  - cbn [search_loop].
    destruct (Z.leb_spec 0 right) as [_|]; [|lia].
    destruct (mid_inside 0 right) as [Emid Hmid]; [lia|lia|].
    rewrite Emid. set (mid := 0 + (right - 0) / 2) in *.
    destruct (at_index_inside lut mid) as [em [Hem Eem]]; [lia|].
    rewrite Eem. cbn [bind].
    assert (Hb : before o target (proj em)).
    { apply Hall. eapply nth_error_In; eassumption. }
    key_differs Hb.
    rewrite (goLeft_of_before _ Hb).
    destruct (Z.eq_dec mid 0) as [E0|Hpos].
    + rewrite E0. change (to_size_t (0 - 1)) with 65535.
      destruct fuel as [|fuel'].
      * split; [left; reflexivity|lia].
      * cbn [search_loop]. change (0 <=? 65535) with true. cbv iota.
        change (to_size_t (0 + to_size_t (65535 - 0) / 2)) with 32767.
        rewrite at_index_outside by lia. split; [right|]; reflexivity.
    + rewrite to_size_t_small by (unfold SIZE_MAX in *; lia).
      destruct (IH (mid - 1)) as [IH1 IH2]; [lia|].
      split; [exact IH1|]. intros Hfuel. apply IH2. lia.
Qed.

(** A target strictly between two neighbouring keys ends the loop with
    [right] on the first and [left] on the second of them. *)
Lemma search_loop_between (i : Z) (ei ej : Entry) :
  0 <= i ->
  nth_error lut (Z.to_nat i) = Some ei ->
  nth_error lut (Z.to_nat (i + 1)) = Some ej ->
  before o (proj ei) target -> before o target (proj ej) ->
  forall (fuel : nat) (left right : Z),
    0 <= left <= i + 1 -> i <= right < array_size lut ->
    right - left < Z.of_nat fuel ->
    search_loop lut target proj fuel o left right = Done (Break (i + 1) i).
Proof.
  intros Hi Hei Hej Hlow Hhigh.
  induction fuel as [|fuel IH]; intros left right Hl Hr Hfuel.
  - assert (left = i + 1 /\ right = i) as [-> ->] by lia.
    cbn [search_loop]. destruct (Z.leb_spec (i + 1) i); [lia|reflexivity].
  - cbn [search_loop].
    destruct (Z.leb_spec left right) as [Hlr|Hlr].
    + destruct (mid_inside left right) as [Emid Hmid]; [lia|lia|].
      rewrite Emid. set (mid := left + (right - left) / 2) in *.
      destruct (at_index_inside lut mid) as [em [Hem Eem]]; [lia|].
      rewrite Eem. cbn [bind].
      destruct (Z_le_gt_dec mid i) as [Hle|Hgt].
      * assert (Hb : before o (proj em) target).
        { destruct (Z.eq_dec mid i) as [E|Hne].
          - rewrite E in Hem. assert (em = ei) by congruence. now subst.
          - apply (before_trans o _ (proj ei)); [|assumption].
            apply (key_order mid i); [lia|assumption|assumption]. }
        key_differs Hb.
        rewrite (goLeft_of_after _ Hb).
        rewrite to_size_t_small by (unfold SIZE_MAX in *; lia).
        apply IH; lia.
      * assert (Hb : before o target (proj em)).
        { destruct (Z.eq_dec mid (i + 1)) as [E|Hne].
          - rewrite E in Hem. assert (em = ej) by congruence. now subst.
          - apply (before_trans o _ (proj ej)); [assumption|].
            apply (key_order (i + 1) mid); [lia|assumption|assumption]. }
        key_differs Hb.
        rewrite (goLeft_of_before _ Hb).
        rewrite to_size_t_small by (unfold SIZE_MAX in *; lia).
        apply IH; lia.
    + assert (left = i + 1 /\ right = i) as [-> ->] by lia. reflexivity.
Qed.

End SearchFacts.

Lemma to_size_t_nonneg (x : Z) : 0 <= to_size_t x.
Proof.
  unfold to_size_t, wrap_unsigned. change (2 ^ 16) with 65536.
  pose proof (Z.mod_pos_bound x 65536). lia.
Qed.

(** The loop is left by its condition only with [left > right >= 0], on
    any table and for any target: the first branch of step 3
    ([left == 0]) is never taken. *)
Lemma search_loop_break_bounds {Entry : Type} (lut : list Entry) (target : Z)
      (proj : Entry -> Z) (o : LutOrder) :
  forall (fuel : nat) (left right l r : Z),
    0 <= right ->
    search_loop lut target proj fuel o left right = Done (Break l r) ->
    0 <= r < l.
Proof.
  induction fuel as [|fuel IH]; intros left right l r Hright; cbn [search_loop].
  - destruct (Z.leb_spec left right); [discriminate|].
    intros E. injection E as <- <-. lia.
  - destruct (Z.leb_spec left right) as [Hlr|Hlr].
    + destruct (at_index lut _) as [em| | |]; cbn [bind]; try discriminate.
      destruct (proj em =? target); [discriminate|].
      destruct (goLeft_of target o (proj em)).
      * apply IH. apply to_size_t_nonneg.
      * apply IH. assumption.
    + intros E. injection E as <- <-. lia.
Qed.

(** ** [binarySearchLut] *)

(** The order the search runs in is the order of the table, whether it is
    given or detected from the first two entries. *)
Lemma resolve_order_sorted {Entry : Type} (lut : list Entry) (proj : Entry -> Z)
      (o hint : LutOrder) :
  sorted_as o (map proj lut) = true ->
  hint = o \/ hint = AUTO ->
  exists o', resolve_order lut proj hint = Done o' /\ o' <> AUTO /\
             sorted_as o' (map proj lut) = true /\
             (2 <= array_size lut -> o' = o).
Proof.
  intros Hs Hhint.
  assert (Ho : o <> AUTO) by (intros ->; discriminate).
  destruct Hhint as [->| ->].
  { exists o. repeat split; try assumption. now destruct o. }
  unfold resolve_order, array_size.
  destruct lut as [|e0 [|e1 tl]].
  - exists INCREASING. repeat split; try discriminate. cbn. lia.
  - exists INCREASING. repeat split; try discriminate. cbn. lia.
  - destruct (Z.ltb_spec (Z.of_nat (length (e0 :: e1 :: tl))) 2) as [H|_].
    { cbn [length] in H. lia. }
    change (at_index (e0 :: e1 :: tl) 0) with (Done e0).
    change (at_index (e0 :: e1 :: tl) 1) with (Done e1).
    cbn [bind].
    exists o. split; [|repeat split; assumption].
    cbn in Hs. destruct o; [| |contradiction].
    + apply andb_true_iff in Hs. destruct Hs as [H01 _]. apply Z.ltb_lt in H01.
      destruct (Z.leb_spec (proj e0) (proj e1)); [lia|reflexivity].
    + apply andb_true_iff in Hs. destruct Hs as [H01 _]. apply Z.ltb_lt in H01.
      destruct (Z.leb_spec (proj e0) (proj e1)); [reflexivity|lia].
Qed.

Lemma in_at_some_index {A : Type} (l : list A) (e : A) :
  In e l -> exists i, 0 <= i < array_size l /\ nth_error l (Z.to_nat i) = Some e.
Proof.
  intros Hin. apply In_nth_error in Hin. destruct Hin as [n Hn].
  exists (Z.of_nat n). rewrite Nat2Z.id. split; [|assumption].
  assert (n < length l)%nat by (apply nth_error_Some; congruence).
  unfold array_size. lia.
Qed.

(** Every key precedes the last one, and follows the first one. *)
Lemma all_before_last {Entry : Type} (lut : list Entry) (proj : Entry -> Z)
      (o : LutOrder) (eN : Entry) (target : Z) :
  sorted_as o (map proj lut) = true ->
  nth_error lut (Z.to_nat (array_size lut - 1)) = Some eN ->
  before o (proj eN) target ->
  forall e, In e lut -> before o (proj e) target.
Proof.
  intros Hs HN Hb e Hin.
  destruct (in_at_some_index lut e Hin) as [i [Hi He]].
  destruct (Z.eq_dec i (array_size lut - 1)) as [->|Hne].
  - assert (e = eN) by congruence. now subst.
  - apply (before_trans o _ (proj eN)); [|assumption].
    apply (key_order lut proj o Hs i (array_size lut - 1)); [lia|assumption|assumption].
Qed.

Lemma all_after_first {Entry : Type} (lut : list Entry) (proj : Entry -> Z)
      (o : LutOrder) (e0 : Entry) (target : Z) :
  sorted_as o (map proj lut) = true ->
  nth_error lut 0 = Some e0 ->
  before o target (proj e0) ->
  forall e, In e lut -> before o target (proj e).
Proof.
  intros Hs H0 Hb e Hin.
  destruct (in_at_some_index lut e Hin) as [i [Hi He]].
  destruct (Z.eq_dec i 0) as [->|Hne].
  - change (Z.to_nat 0) with 0%nat in He. assert (e = e0) by congruence. now subst.
  - apply (before_trans o _ (proj e0)); [assumption|].
    apply (key_order lut proj o Hs 0 i); [lia|assumption|assumption].
Qed.

Lemma binarySearchLut_exact {Entry : Type} (lut : list Entry) (proj : Entry -> Z)
      (o hint : LutOrder) (i : Z) (e : Entry) (fuel : nat) :
  sorted_as o (map proj lut) = true ->
  hint = o \/ hint = AUTO ->
  array_size lut <= SIZE_MAX ->
  0 <= i ->
  nth_error lut (Z.to_nat i) = Some e ->
  array_size lut <= Z.of_nat fuel ->
  binarySearchLut lut (proj e) proj fuel hint = Done (exact_bracket i).
Proof.
  intros Hs Hhint Hfit Hi He Hfuel.
  destruct (resolve_order_sorted lut proj o hint Hs Hhint) as [o' [Eo [Ho' [Hs' _]]]].
  assert (HiN : i < array_size lut).
  { assert (Z.to_nat i < length lut)%nat by (apply nth_error_Some; congruence).
    unfold array_size. lia. }
  unfold binarySearchLut. rewrite Eo. cbn [bind].
  rewrite to_size_t_small by (unfold SIZE_MAX in *; lia).
  rewrite (search_loop_finds lut proj (proj e) o' Ho' Hs' Hfit i e He eq_refl);
    [reflexivity|lia|lia|lia].
Qed.

Lemma binarySearchLut_beyond_last {Entry : Type} (lut : list Entry) (proj : Entry -> Z)
      (o hint : LutOrder) (target : Z) (eN : Entry) (fuel : nat) :
  sorted_as o (map proj lut) = true ->
  hint = o \/ hint = AUTO ->
  2 <= array_size lut <= SIZE_MAX ->
  nth_error lut (Z.to_nat (array_size lut - 1)) = Some eN ->
  before o (proj eN) target ->
  array_size lut <= Z.of_nat fuel ->
  binarySearchLut lut target proj fuel hint = Done (high_edge_bracket (array_size lut)).
Proof.
  intros Hs Hhint Hfit HN Hb Hfuel.
  destruct (resolve_order_sorted lut proj o hint Hs Hhint) as [o' [Eo [Ho' [Hs' Esame]]]].
  rewrite Esame in * by lia. clear Esame.
  unfold binarySearchLut. rewrite Eo. cbn [bind].
  rewrite to_size_t_small by (unfold SIZE_MAX in *; lia).
  rewrite (search_loop_beyond_last lut proj target o Ho' Hs');
    [| lia | now apply (all_before_last lut proj o eN) | lia | lia ].
  cbn [bind]. unfold bracket_of_bounds, high_edge_bracket.
  destruct (Z.eqb_spec (array_size lut) 0); [lia|].
  rewrite !to_size_t_small by (unfold SIZE_MAX in *; lia).
  destruct (Z.geb_spec (array_size lut - 1) (array_size lut - 1)); [reflexivity|lia].
Qed.

Lemma binarySearchLut_between {Entry : Type} (lut : list Entry) (proj : Entry -> Z)
      (o hint : LutOrder) (target i : Z) (ei ej : Entry) (fuel : nat) :
  sorted_as o (map proj lut) = true ->
  hint = o \/ hint = AUTO ->
  array_size lut <= SIZE_MAX ->
  0 <= i ->
  nth_error lut (Z.to_nat i) = Some ei ->
  nth_error lut (Z.to_nat (i + 1)) = Some ej ->
  before o (proj ei) target -> before o target (proj ej) ->
  array_size lut <= Z.of_nat fuel ->
  binarySearchLut lut target proj fuel hint
  = Done {| lowerIdx := i; upperIdx := i + 1; exactIdx := SIZE_MAX;
            foundExact := false; outOfRange := false; clamped := false |}.
Proof.
  intros Hs Hhint Hfit Hi Hei Hej Hlow Hhigh Hfuel.
  assert (HiN : i + 1 < array_size lut).
  { assert (Z.to_nat (i + 1) < length lut)%nat by (apply nth_error_Some; congruence).
    unfold array_size. lia. }
  destruct (resolve_order_sorted lut proj o hint Hs Hhint) as [o' [Eo [Ho' [Hs' Esame]]]].
  rewrite Esame in * by lia. clear Esame.
  unfold binarySearchLut. rewrite Eo. cbn [bind].
  rewrite to_size_t_small by (unfold SIZE_MAX in *; lia).
  rewrite (search_loop_between lut proj target o Ho' Hs' Hfit i ei ej); try assumption;
    try lia.
  cbn [bind]. unfold bracket_of_bounds.
  destruct (Z.eqb_spec (i + 1) 0); [lia|].
  rewrite to_size_t_small by (unfold SIZE_MAX in *; lia).
  destruct (Z.geb_spec i (array_size lut - 1)); [lia|reflexivity].
Qed.

Lemma binarySearchLut_beyond_first {Entry : Type} (lut : list Entry) (proj : Entry -> Z)
      (o hint : LutOrder) (target : Z) (e0 : Entry) :
  sorted_as o (map proj lut) = true ->
  hint = o \/ hint = AUTO ->
  2 <= array_size lut <= 32767 ->
  nth_error lut 0 = Some e0 ->
  before o target (proj e0) ->
  forall fuel : nat,
    returns (binarySearchLut lut target proj fuel hint) = false /\
    (array_size lut + 1 <= Z.of_nat fuel ->
     binarySearchLut lut target proj fuel hint = OutOfBounds 32767).
Proof.
  intros Hs Hhint Hfit H0 Hb fuel.
  destruct (resolve_order_sorted lut proj o hint Hs Hhint) as [o' [Eo [Ho' [Hs' Esame]]]].
  rewrite Esame in * by lia. clear Esame.
  unfold binarySearchLut. rewrite Eo. cbn [bind].
  rewrite to_size_t_small by (unfold SIZE_MAX in *; lia).
  destruct (search_loop_beyond_first lut proj target o Ho' Hs') with
    (fuel := fuel) (right := array_size lut - 1) as [[E|E] Hfuel];
    try (unfold SIZE_MAX; lia).
  - now apply (all_after_first lut proj o e0).
  - rewrite E. split; [reflexivity|]. intros H. rewrite Hfuel in E by lia. discriminate.
  - rewrite E. split; reflexivity.
Qed.

Lemma before_total (o : LutOrder) (a b : Z) :
  before o a b \/ a = b \/ before o b a.
Proof. destruct o; simpl; lia. Qed.

(** Where a target that does not precede the first key sits in a table:
    on a key, after the last key, or strictly between two neighbours. *)
Lemma locate_target {Entry : Type} (proj : Entry -> Z) (o : LutOrder) (target : Z) :
  forall (tl : list Entry) (e0 : Entry),
    ~ before o target (proj e0) ->
    (exists i e, 0 <= i /\ nth_error (e0 :: tl) (Z.to_nat i) = Some e /\ proj e = target) \/
    (exists eN, nth_error (e0 :: tl) (Z.to_nat (array_size (e0 :: tl) - 1)) = Some eN /\
                before o (proj eN) target) \/
    (exists i ei ej, 0 <= i /\
                     nth_error (e0 :: tl) (Z.to_nat i) = Some ei /\
                     nth_error (e0 :: tl) (Z.to_nat (i + 1)) = Some ej /\
                     before o (proj ei) target /\ before o target (proj ej)).
Proof.
  induction tl as [|e1 tl IH]; intros e0 Hfirst.
  - destruct (before_total o target (proj e0)) as [H|[H|H]]; [contradiction| |].
    + left. exists 0, e0. split; [lia|]. split; [reflexivity|congruence].
    + right. left. exists e0. split; [reflexivity|assumption].
  - destruct (before_total o target (proj e0)) as [H0|[H0|H0]]; [contradiction| |].
    { left. exists 0, e0. split; [lia|]. split; [reflexivity|congruence]. }
    destruct (before_total o target (proj e1)) as [H1|H1].
    { right. right. exists 0, e0, e1.
      split; [lia|]. split; [reflexivity|]. split; [reflexivity|]. split; assumption. }
    assert (Hnot : ~ before o target (proj e1)).
    { destruct H1 as [->|H1]; [apply before_irrefl|now apply before_asym]. }
    assert (Hshift : forall i, 0 <= i ->
               nth_error (e0 :: e1 :: tl) (Z.to_nat (i + 1))
               = nth_error (e1 :: tl) (Z.to_nat i)).
    { intros i Hi. rewrite Z2Nat.inj_add by lia. rewrite Nat.add_comm. reflexivity. }
    destruct (IH e1 Hnot) as [[i [e [Hi [He Hk]]]]|[[eN [HN Hb]]|[i [ei [ej [Hi [Hei [Hej Hb]]]]]]]].
    + left. exists (i + 1), e. rewrite Hshift by lia.
      split; [lia|]. split; assumption.
    + right. left. exists eN. split; [|assumption].
      replace (array_size (e0 :: e1 :: tl) - 1) with (array_size (e1 :: tl) - 1 + 1)
        by (unfold array_size; cbn [length]; lia).
      rewrite Hshift; [assumption|unfold array_size; cbn [length]; lia].
    + right. right. exists (i + 1), ei, ej.
      rewrite !Hshift by lia.
      split; [lia|]. split; [assumption|]. split; [assumption|exact Hb].
Qed.

(** The search returns a bracket exactly for the targets that do not
    precede the first key. *)
Lemma binarySearchLut_returns_iff {Entry : Type} (lut : list Entry) (proj : Entry -> Z)
      (o hint : LutOrder) (target : Z) (e0 : Entry) (fuel : nat) :
  sorted_as o (map proj lut) = true ->
  hint = o \/ hint = AUTO ->
  2 <= array_size lut <= 32767 ->
  nth_error lut 0 = Some e0 ->
  array_size lut + 1 <= Z.of_nat fuel ->
  returns (binarySearchLut lut target proj fuel hint) = true <->
  ~ before o target (proj e0).
Proof.
  intros Hs Hhint Hfit H0 Hfuel. split.
  - intros Hret Hb.
    destruct (binarySearchLut_beyond_first lut proj o hint target e0 Hs Hhint Hfit H0 Hb fuel)
      as [Hfalse _].
    congruence.
  - intros Hnot.
    destruct lut as [|e0' tl]; [discriminate|].
    assert (e0' = e0) by (simpl in H0; congruence). subst e0'.
    assert (Hfit' : array_size (e0 :: tl) <= SIZE_MAX) by (unfold SIZE_MAX; lia).
    destruct (locate_target proj o target tl e0 Hnot)
      as [[i [e [Hi [He Hk]]]]|[[eN [HN Hb]]|[i [ei [ej [Hi [Hei [Hej [Hb1 Hb2]]]]]]]]].
    + rewrite <- Hk.
      rewrite (binarySearchLut_exact (e0 :: tl) proj o hint i e fuel);
        try assumption; [reflexivity|lia].
    + rewrite (binarySearchLut_beyond_last (e0 :: tl) proj o hint target eN fuel);
        try assumption; [reflexivity|lia|lia].
    + rewrite (binarySearchLut_between (e0 :: tl) proj o hint target i ei ej fuel);
        try assumption; [reflexivity|lia].
Qed.

(** ** [convertToTemperature_x10] *)

Import LutTemperatureConverter.

Lemma convertToTemperature_x10_zero (NTC_LUT : list ThermistorEntry) (fuel : nat) :
  convertToTemperature_x10 NTC_LUT fuel 0 = Done SENTINEL.
Proof. reflexivity. Qed.

Lemma convertToTemperature_x10_exact (NTC_LUT : list ThermistorEntry)
      (i : Z) (e : ThermistorEntry) (fuel : nat) :
  strictly_decreasing (map resistance_x10 NTC_LUT) = true ->
  array_size NTC_LUT <= SIZE_MAX ->
  0 <= i ->
  nth_error NTC_LUT (Z.to_nat i) = Some e ->
  resistance_x10 e <> 0 ->
  array_size NTC_LUT <= Z.of_nat fuel ->
  convertToTemperature_x10 NTC_LUT fuel (resistance_x10 e) = Done (temperature_x10 e).
Proof.
  intros Hs Hfit Hi He Hnz Hfuel.
  unfold convertToTemperature_x10.
  destruct (Z.eqb_spec (resistance_x10 e) 0) as [E|_]; [contradiction|].
  rewrite (binarySearchLut_exact NTC_LUT resistance_x10 DECREASING DECREASING i e fuel);
    try assumption; [|now left].
  cbn [bind exact_bracket outOfRange foundExact exactIdx].
  now rewrite (at_index_nth NTC_LUT i e).
Qed.

Lemma convertToTemperature_x10_below_minimum (NTC_LUT : list ThermistorEntry)
      (r : Z) (last : ThermistorEntry) (fuel : nat) :
  strictly_decreasing (map resistance_x10 NTC_LUT) = true ->
  2 <= array_size NTC_LUT <= SIZE_MAX ->
  nth_error NTC_LUT (Z.to_nat (array_size NTC_LUT - 1)) = Some last ->
  r <> 0 ->
  r < resistance_x10 last ->
  array_size NTC_LUT <= Z.of_nat fuel ->
  convertToTemperature_x10 NTC_LUT fuel r = Done (temperature_x10 last).
Proof.
  intros Hs Hfit Hlast Hnz Hlow Hfuel.
  unfold convertToTemperature_x10.
  destruct (Z.eqb_spec r 0) as [E|_]; [contradiction|].
  rewrite (binarySearchLut_beyond_last NTC_LUT resistance_x10 DECREASING DECREASING r last fuel);
    try assumption; [|now left].
  cbn [bind high_edge_bracket outOfRange clamped].
  destruct (at_index_inside NTC_LUT 0) as [first [Hfirst Efirst]]; [lia|].
  rewrite Efirst. cbn [bind].
  assert (Hord : resistance_x10 last < resistance_x10 first).
  { apply (key_order NTC_LUT resistance_x10 DECREASING Hs 0 (array_size NTC_LUT - 1));
      [lia|assumption|assumption]. }
  destruct (Z.gtb_spec r (resistance_x10 first)); [lia|].
  unfold NTC_LUT_SIZE.
  rewrite to_size_t_small by (unfold SIZE_MAX in *; lia).
  rewrite (at_index_nth NTC_LUT _ last); [reflexivity|lia|assumption].
Qed.

Lemma convertToTemperature_x10_above_maximum (NTC_LUT : list ThermistorEntry)
      (r : Z) (first : ThermistorEntry) :
  strictly_decreasing (map resistance_x10 NTC_LUT) = true ->
  2 <= array_size NTC_LUT <= 32767 ->
  nth_error NTC_LUT 0 = Some first ->
  resistance_x10 first < r ->
  0 <= resistance_x10 first ->
  forall fuel : nat,
    returns (convertToTemperature_x10 NTC_LUT fuel r) = false /\
    (array_size NTC_LUT + 1 <= Z.of_nat fuel ->
     convertToTemperature_x10 NTC_LUT fuel r = OutOfBounds 32767).
Proof.
  intros Hs Hfit Hfirst Hhigh Hpos fuel.
  unfold convertToTemperature_x10.
  destruct (Z.eqb_spec r 0) as [E|_]; [lia|].
  destruct (binarySearchLut_beyond_first NTC_LUT resistance_x10 DECREASING DECREASING
              r first Hs (or_introl eq_refl) Hfit Hfirst Hhigh fuel) as [Hret Hoob].
  split.
  - destruct (binarySearchLut NTC_LUT r resistance_x10 fuel DECREASING);
      try discriminate; reflexivity.
  - intros H. now rewrite (Hoob H).
Qed.

(** ** [applyLinearInterpolation] *)

Lemma quot_bounded (a b M : Z) :
  0 < b -> - M <= a <= M -> - M <= Z.quot a b <= M.
Proof.
  intros Hb Ha.
  destruct (Z.le_gt_cases 0 a) as [Hpos|Hneg].
  - rewrite Z.quot_div_nonneg by lia.
    assert (0 <= a / b <= a).
    { split; [apply Z.div_pos; lia|]. apply Z.div_le_upper_bound; nia. }
    lia.
  - replace a with (- (- a)) by lia. rewrite Z.quot_opp_l by lia.
    rewrite Z.quot_div_nonneg by lia.
    assert (0 <= (- a) / b <= - a).
    { split; [apply Z.div_pos; lia|]. apply Z.div_le_upper_bound; nia. }
    lia.
Qed.

Lemma to_uint32_range (x : Z) : is_uint32 (to_uint32 x).
Proof.
  unfold to_uint32, wrap_unsigned, is_uint32.
  change (2 ^ 32) with 4294967296.
  pose proof (Z.mod_pos_bound x 4294967296). lia.
Qed.

Lemma to_int16_range (x : Z) : is_int16 (to_int16 x).
Proof.
  unfold to_int16, wrap_signed, is_int16.
  change (2 ^ (16 - 1)) with 32768. change (2 ^ 16) with 65536.
  pose proof (Z.mod_pos_bound (x + 32768) 65536). lia.
Qed.

Lemma to_uint32_diff_nonzero (a b : Z) :
  is_uint32 a -> is_uint32 b -> a <> b -> to_uint32 (a - b) <> 0.
Proof.
  unfold is_uint32, to_uint32, wrap_unsigned. change (2 ^ 32) with 4294967296.
  intros Ha Hb Hab E.
  apply Z.mod_divide in E; [|lia]. destruct E as [k Hk].
  assert (k = 0) by nia. lia.
Qed.

(** With arguments of the instantiated types the 64-bit computation never
    wraps: the value before the clamp is the quotient of the deltas as the
    code forms them. *)
Lemma t_interpolated_x10_value (r_measured r_cold r_hot t_cold t_hot : Z) :
  is_uint32 r_cold -> is_uint32 r_hot -> r_cold <> r_hot -> is_int16 t_cold ->
  t_interpolated_x10 r_measured r_cold r_hot t_cold t_hot
  = Done (t_cold + Z.quot (to_int16 (t_hot - t_cold) * to_uint32 (r_cold - r_measured))
                          (to_uint32 (r_cold - r_hot))).
Proof.
  intros Hc Hh Hne Htc. unfold t_interpolated_x10.
  pose proof (to_uint32_range (r_cold - r_hot)) as Hdr.
  pose proof (to_uint32_range (r_cold - r_measured)) as Hdm.
  pose proof (to_int16_range (t_hot - t_cold)) as Hdt.
  pose proof (to_uint32_diff_nonzero r_cold r_hot Hc Hh Hne) as Hnz.
  set (delta_r := to_uint32 (r_cold - r_hot)) in *.
  set (delta_r_measured := to_uint32 (r_cold - r_measured)) in *.
  set (delta_t := to_int16 (t_hot - t_cold)) in *.
  unfold is_uint32, is_int16 in *.
  rewrite (to_int64_small delta_r) by lia.
  rewrite (to_int64_small delta_r_measured) by lia.
  rewrite (to_int64_small delta_t) by lia.
  rewrite (to_int64_small t_cold) by lia.
  destruct (Z.eqb_spec delta_r 0) as [E|_]; [contradiction|].
  assert (Hprod : - 140737488355328 <= delta_t * delta_r_measured <= 140737488355328) by nia.
  rewrite (to_int64_small (delta_t * delta_r_measured)) by lia.
  pose proof (quot_bounded (delta_t * delta_r_measured) delta_r 140737488355328
                ltac:(lia) Hprod) as Hq.
  rewrite (to_int64_small (Z.quot _ _)) by lia.
  rewrite to_int64_small by lia.
  reflexivity.
Qed.

(** Inside the configured span the clamp does nothing. *)
Lemma clamp_to_lut_inside (NTC_LUT : list ThermistorEntry) (t : Z) :
  -400 <= t <= 400 -> clamp_to_lut NTC_LUT t = Done t.
Proof.
  intros H. unfold clamp_to_lut.
  change (Sensors.LUT_TEMPERATURE_MIN_C * 10) with (-400).
  change (Sensors.LUT_TEMPERATURE_MAX_C * 10) with 400.
  destruct (Z.ltb_spec t (-400)); [lia|].
  destruct (Z.gtb_spec t 400); [lia|]. reflexivity.
Qed.

(** Outside the configured span the clamp runs with the last entry as
    lower and the first entry as upper bound.  On a table whose first
    entry is the coldest this sends a value below the span to the hottest
    entry and a value above the span to the coldest one. *)
Lemma clamp_to_lut_outside (NTC_LUT : list ThermistorEntry)
      (first last : ThermistorEntry) (t : Z) :
  1 <= array_size NTC_LUT <= SIZE_MAX ->
  nth_error NTC_LUT 0 = Some first ->
  nth_error NTC_LUT (Z.to_nat (array_size NTC_LUT - 1)) = Some last ->
  is_int16 (temperature_x10 first) -> is_int16 (temperature_x10 last) ->
  temperature_x10 first < temperature_x10 last ->
  (t < -400 -> t < temperature_x10 last ->
   clamp_to_lut NTC_LUT t = Done (temperature_x10 last)) /\
  (400 < t -> temperature_x10 last <= t ->
   clamp_to_lut NTC_LUT t = Done (temperature_x10 first)).
Proof.
  intros Hsize Hfirst Hlast Rf Rl Hcold.
  unfold clamp_to_lut, NTC_LUT_SIZE.
  change (Sensors.LUT_TEMPERATURE_MIN_C * 10) with (-400).
  change (Sensors.LUT_TEMPERATURE_MAX_C * 10) with 400.
  rewrite to_size_t_small by (unfold SIZE_MAX in *; lia).
  rewrite (at_index_nth NTC_LUT _ last) by (assumption || lia).
  rewrite (at_index_nth NTC_LUT 0 first) by (assumption || lia).
  cbn [bind]. unfold is_int16 in *.
  rewrite !to_int64_small by lia.
  unfold math.clamp. split; intros H1 H2.
  - destruct (Z.ltb_spec t (-400)); [|lia]. cbn [orb].
    destruct (Z.ltb_spec t (temperature_x10 last)); [reflexivity|lia].
  - destruct (Z.ltb_spec t (-400)); [lia|].
    destruct (Z.gtb_spec t 400); [|lia]. cbn [orb].
    destruct (Z.ltb_spec t (temperature_x10 last)); [lia|].
    destruct (Z.gtb_spec t (temperature_x10 first)); [reflexivity|lia].
Qed.

Lemma applyLinearInterpolation_descending (NTC_LUT : list ThermistorEntry)
      (target lowKey highKey lowValue highValue : Z) :
  is_uint32 target -> is_uint32 lowKey -> is_uint32 highKey ->
  is_int16 lowValue -> is_int16 highValue -> is_int16 (highValue - lowValue) ->
  highKey < lowKey -> target <= lowKey ->
  let value := lowValue + Z.quot ((highValue - lowValue) * (lowKey - target))
                                 (lowKey - highKey) in
  t_interpolated_x10 target lowKey highKey lowValue highValue = Done value /\
  applyLinearInterpolation NTC_LUT target lowKey highKey lowValue highValue
  = (t' <- clamp_to_lut NTC_LUT value ;; Done (to_int16 t')) /\
  (-400 <= value <= 400 ->
   applyLinearInterpolation NTC_LUT target lowKey highKey lowValue highValue = Done value).
Proof.
  intros Ht Hl Hh Hlv Hhv Hd Hdesc Htl value.
  assert (E : t_interpolated_x10 target lowKey highKey lowValue highValue = Done value).
  { rewrite t_interpolated_x10_value by (assumption || lia).
    rewrite (to_int16_small _ Hd).
    unfold is_uint32 in *.
    rewrite !to_uint32_small by (unfold is_uint32; lia).
    reflexivity. }
  assert (E' : applyLinearInterpolation NTC_LUT target lowKey highKey lowValue highValue
               = (t' <- clamp_to_lut NTC_LUT value ;; Done (to_int16 t'))).
  { unfold applyLinearInterpolation.
    destruct (Z.eqb_spec lowKey highKey); [lia|]. now rewrite E. }
  repeat split; try assumption.
  intros Hin. rewrite E', clamp_to_lut_inside by assumption. cbn [bind].
  rewrite to_int16_small by (unfold is_int16; lia). reflexivity.
Qed.

Lemma applyLinearInterpolation_endpoints (NTC_LUT : list ThermistorEntry)
      (lowKey highKey lowValue highValue : Z) :
  is_uint32 lowKey -> is_uint32 highKey -> lowKey <> highKey ->
  -400 <= lowValue <= 400 -> -400 <= highValue <= 400 ->
  applyLinearInterpolation NTC_LUT lowKey lowKey highKey lowValue highValue = Done lowValue /\
  applyLinearInterpolation NTC_LUT highKey lowKey highKey lowValue highValue = Done highValue.
Proof.
  intros Hl Hh Hne Hlv Hhv.
  unfold applyLinearInterpolation.
  destruct (Z.eqb_spec lowKey highKey); [contradiction|].
  rewrite !t_interpolated_x10_value by (assumption || unfold is_int16; lia).
  rewrite (to_int16_small (highValue - lowValue)) by (unfold is_int16; lia).
  cbn [bind]. split.
  - rewrite Z.sub_diag. change (to_uint32 0) with 0.
    rewrite Z.mul_0_r, Z.quot_0_l by (now apply to_uint32_diff_nonzero).
    rewrite Z.add_0_r, clamp_to_lut_inside by lia. cbn [bind].
    rewrite to_int16_small by (unfold is_int16; lia). reflexivity.
  - rewrite Z.quot_mul by (now apply to_uint32_diff_nonzero).
    replace (lowValue + (highValue - lowValue)) with highValue by lia.
    rewrite clamp_to_lut_inside by lia. cbn [bind].
    rewrite to_int16_small by (unfold is_int16; lia). reflexivity.
Qed.

(** The interpolated value of a target strictly inside a bracket lies
    between the two bracket values. *)
Lemma interpolated_value_between (dt m d : Z) :
  0 < m < d ->
  (0 <= dt -> 0 <= Z.quot (dt * m) d <= dt) /\
  (dt <= 0 -> dt <= Z.quot (dt * m) d <= 0).
Proof.
  intros Hm. split; intros Hdt.
  - rewrite Z.quot_div_nonneg by nia. split.
    + apply Z.div_pos; nia.
    + apply Z.div_le_upper_bound; nia.
  - replace (dt * m) with (- ((- dt) * m)) by lia.
    rewrite Z.quot_opp_l by lia. rewrite Z.quot_div_nonneg by nia.
    assert (0 <= (- dt * m) / d <= - dt); [|lia]. split.
    + apply Z.div_pos; nia.
    + apply Z.div_le_upper_bound; nia.
Qed.

(** A resistance strictly between two neighbouring entries is
    interpolated between them; when their temperatures lie within the
    configured span the result is the value of the formula, and it lies
    between the two temperatures. *)
Lemma convertToTemperature_x10_between (NTC_LUT : list ThermistorEntry)
      (i r : Z) (cold hot : ThermistorEntry) (fuel : nat) :
  strictly_decreasing (map resistance_x10 NTC_LUT) = true ->
  array_size NTC_LUT <= SIZE_MAX ->
  0 <= i ->
  nth_error NTC_LUT (Z.to_nat i) = Some cold ->
  nth_error NTC_LUT (Z.to_nat (i + 1)) = Some hot ->
  resistance_x10 hot < r < resistance_x10 cold ->
  is_uint32 (resistance_x10 hot) -> is_uint32 (resistance_x10 cold) ->
  array_size NTC_LUT <= Z.of_nat fuel ->
  convertToTemperature_x10 NTC_LUT fuel r
  = applyLinearInterpolation NTC_LUT r (resistance_x10 cold) (resistance_x10 hot)
      (temperature_x10 cold) (temperature_x10 hot) /\
  (-400 <= temperature_x10 cold <= 400 -> -400 <= temperature_x10 hot <= 400 ->
   let value :=
     temperature_x10 cold +
     Z.quot ((temperature_x10 hot - temperature_x10 cold) * (resistance_x10 cold - r))
            (resistance_x10 cold - resistance_x10 hot) in
   convertToTemperature_x10 NTC_LUT fuel r = Done value /\
   Z.min (temperature_x10 cold) (temperature_x10 hot) <= value
   <= Z.max (temperature_x10 cold) (temperature_x10 hot)).
Proof.
  intros Hs Hfit Hi Hcold Hhot Hr Rh Rc Hfuel.
  assert (HiN : i + 1 < array_size NTC_LUT).
  { assert (Z.to_nat (i + 1) < length NTC_LUT)%nat by (apply nth_error_Some; congruence).
    unfold array_size. lia. }
  assert (E : convertToTemperature_x10 NTC_LUT fuel r
              = applyLinearInterpolation NTC_LUT r (resistance_x10 cold) (resistance_x10 hot)
                  (temperature_x10 cold) (temperature_x10 hot)).
  { unfold convertToTemperature_x10.
    destruct (Z.eqb_spec r 0) as [E0|_]; [unfold is_uint32 in *; lia|].
    rewrite (binarySearchLut_between NTC_LUT resistance_x10 DECREASING DECREASING
               r i cold hot fuel); try assumption; try (now left); try (simpl; lia).
    cbn [bind outOfRange foundExact lowerIdx upperIdx].
    rewrite (at_index_nth NTC_LUT i cold) by assumption.
    rewrite (at_index_nth NTC_LUT (i + 1) hot) by (assumption || lia).
    reflexivity. }
  split; [exact E|].
  intros Tc Th value.
  pose proof (interpolated_value_between
                (temperature_x10 hot - temperature_x10 cold)
                (resistance_x10 cold - r)
                (resistance_x10 cold - resistance_x10 hot) ltac:(lia)) as [Hup Hdown].
  assert (Hbetween : Z.min (temperature_x10 cold) (temperature_x10 hot) <= value
                     <= Z.max (temperature_x10 cold) (temperature_x10 hot)).
  { subst value.
    destruct (Z.le_ge_cases 0 (temperature_x10 hot - temperature_x10 cold)) as [H|H].
    - specialize (Hup H). lia.
    - specialize (Hdown H). lia. }
  split; [|exact Hbetween].
  rewrite E.
  apply (applyLinearInterpolation_descending NTC_LUT r (resistance_x10 cold)
           (resistance_x10 hot) (temperature_x10 cold) (temperature_x10 hot));
    unfold is_uint32, is_int16 in *; lia.
Qed.

(** ** [convertToResistance_x10] *)

Import VoltageDividerResistanceConverter.

Lemma convertToResistance_x10_zero (self : VoltageDividerResistanceConverter.t) :
  convertToResistance_x10 self 0 = Done 0.
Proof. reflexivity. Qed.

(** The guard lets the full-scale reading through, and the divisor
    [MAX_VALUE - adc_raw] is zero there. *)
Lemma convertToResistance_x10_full_scale (self : VoltageDividerResistanceConverter.t) :
  convertToResistance_x10 self Adc.MAX_VALUE = DivisionByZero.
Proof. reflexivity. Qed.

Lemma convertToResistance_x10_interior (pullup_Ohms adc_raw : Z) :
  is_uint16 pullup_Ohms -> 0 < adc_raw < Adc.MAX_VALUE ->
  let R := fixedResistor_ (VoltageDividerResistanceConverter.new pullup_Ohms) in
  convertToResistance_x10 (VoltageDividerResistanceConverter.new pullup_Ohms) adc_raw
  = Done (adc_raw * R * 10 / (Adc.MAX_VALUE - adc_raw)).
Proof.
  intros Hp Hraw R. change Adc.MAX_VALUE with 1023 in *. unfold is_uint16 in Hp.
  assert (HR : 0 < R <= 65535).
  { subst R. unfold VoltageDividerResistanceConverter.new. cbn [fixedResistor_].
    change Sensors.PULLUP_FIXED_RESISTOR_OHMS with 12700.
    destruct (Z.eqb_spec pullup_Ohms 0); lia. }
  unfold convertToResistance_x10. fold R. change Adc.MAX_VALUE with 1023.
  destruct (Z.eqb_spec adc_raw 0); [lia|].
  destruct (Z.gtb_spec adc_raw 1023); [lia|]. cbn [orb].
  rewrite (to_uint32_small adc_raw) by (unfold is_uint32; lia).
  rewrite (to_uint32_small (adc_raw * R)) by (unfold is_uint32; nia).
  rewrite (to_uint32_small (adc_raw * R * 10)) by (unfold is_uint32; nia).
  rewrite (to_uint16_small (1023 - adc_raw)) by (unfold is_uint16; lia).
  rewrite (to_uint32_small (1023 - adc_raw)) by (unfold is_uint32; lia).
  destruct (Z.eqb_spec (1023 - adc_raw) 0); [lia|reflexivity].
Qed.

(** ** [AdcSampler::sample] *)

Import AdcSampler.

Lemma settle_keeps (self : AdcSampler.t) (b : Board) :
  reads (settle self b) = reads b /\ analog_signal (settle self b) = analog_signal b.
Proof. unfold settle. destruct (settleUs_ self >? 0); split; reflexivity. Qed.

Lemma repeat_discard_one (self : AdcSampler.t) (n : nat) :
  forall (acc : Z) (b : Board),
    let st := avr_algorithms.repeat n (discard_one self) (acc, b) in
    fst st = acc /\ reads (snd st) = (reads b + n)%nat /\
    analog_signal (snd st) = analog_signal b.
Proof.
  induction n as [|n IH]; intros acc b; cbn [avr_algorithms.repeat].
  - cbn. repeat split. lia.
  - set (b0 := {| analog_signal := analog_signal b; reads := S (reads b);
                  micros := micros b |}).
    assert (E : discard_one self (acc, b) = (acc, settle self b0)) by reflexivity.
    rewrite E. destruct (settle_keeps self b0) as [Hr Hs].
    specialize (IH acc (settle self b0)). cbv zeta in IH |- *.
    destruct IH as [H1 [H2 H3]]. rewrite H1, H2, H3, Hr, Hs.
    subst b0. cbn [reads analog_signal]. repeat split. lia.
Qed.

Lemma sum_of_reads_bounds (f : nat -> Z) (M : Z) (n : nat) :
  forall start : nat,
    (forall k, (k < n)%nat -> 0 <= f (start + k)%nat <= M) ->
    0 <= sum_of_reads f start n <= Z.of_nat n * M.
Proof.
  induction n as [|n IH]; intros start H; cbn [sum_of_reads]; [lia|].
  pose proof (H 0%nat ltac:(lia)) as H0. rewrite Nat.add_0_r in H0.
  assert (Hrest : 0 <= sum_of_reads f (S start) n <= Z.of_nat n * M).
  { apply IH. intros k Hk. replace (S start + k)%nat with (start + S k)%nat by lia.
    apply H. lia. }
  lia.
Qed.

Lemma repeat_accumulate_one (self : AdcSampler.t) (n : nat) :
  forall (acc : Z) (b : Board),
    (forall k, (k < n)%nat -> 0 <= analog_signal b (pin_ self) (reads b + k)%nat <= 32767) ->
    0 <= acc -> acc + Z.of_nat n * 32767 <= 4294967295 ->
    let st := avr_algorithms.repeat n (accumulate_one self) (acc, b) in
    fst st = acc + sum_of_reads (analog_signal b (pin_ self)) (reads b) n /\
    reads (snd st) = (reads b + n)%nat /\
    analog_signal (snd st) = analog_signal b.
Proof.
  induction n as [|n IH]; intros acc b Hsig Hacc Hroom; cbn [avr_algorithms.repeat sum_of_reads].
  - cbn. repeat split; lia.
  - pose proof (Hsig 0%nat ltac:(lia)) as H0. rewrite Nat.add_0_r in H0.
    set (v := analog_signal b (pin_ self) (reads b)) in *.
    set (b0 := {| analog_signal := analog_signal b; reads := S (reads b);
                  micros := micros b |}).
    assert (E : accumulate_one self (acc, b)
                = (to_uint32 (acc + to_uint32 v), settle self b0)) by reflexivity.
    rewrite E. clear E.
    rewrite (to_uint32_small v) by (unfold is_uint32; lia).
    rewrite (to_uint32_small (acc + v)) by (unfold is_uint32; lia).
    destruct (settle_keeps self b0) as [Hr Hs].
    subst b0. cbn [reads analog_signal] in Hr, Hs.
    set (b1 := settle self _) in *.
    specialize (IH (acc + v) b1). cbv zeta in IH |- *.
    destruct IH as [H1 [H2 H3]].
    + intros k Hk. rewrite Hr, Hs.
      replace (S (reads b) + k)%nat with (reads b + S k)%nat by lia. apply Hsig. lia.
    + lia.
    + lia.
    + rewrite H1, H2, H3, Hr, Hs. fold v. repeat split; lia.
Qed.

Lemma sample_value (adc_pin samples_to_average samples_to_discard settle_us : Z)
      (b : Board) :
  is_uint8 samples_to_average -> is_uint8 samples_to_discard ->
  let self := AdcSampler.new adc_pin samples_to_average samples_to_discard settle_us in
  let count := samples_per_read_ self in
  let first := (reads b + Z.to_nat samples_to_discard)%nat in
  let sum := sum_of_reads (analog_signal b adc_pin) first (Z.to_nat count) in
  (forall k, (k < Z.to_nat count)%nat ->
             0 <= analog_signal b adc_pin (first + k)%nat <= 32767) ->
  fst (sample self b) = Z.min Adc.MAX_VALUE (rounded_mean sum count) /\
  0 <= fst (sample self b) <= Adc.MAX_VALUE /\
  reads (snd (sample self b)) = (first + Z.to_nat count)%nat.
Proof.
  intros Havg Hdisc self count first sum Hsig. unfold is_uint8 in Havg, Hdisc.
  assert (Hcount : 1 <= count <= 255).
  { subst count self. cbn. destruct (Z.gtb_spec samples_to_average 0); lia. }
  unfold sample.
  change (discard_N_first_ self) with samples_to_discard.
  change (pin_ self) with adc_pin in *.
  fold count.
  destruct (repeat_discard_one self (Z.to_nat samples_to_discard) 0 b) as [D1 [D2 D3]].
  cbv zeta in D1, D2, D3.
  destruct (avr_algorithms.repeat (Z.to_nat samples_to_discard) (discard_one self) (0, b))
    as [acc1 b1] eqn:E1.
  cbn [fst snd] in D1, D2, D3. subst acc1.
  destruct (repeat_accumulate_one self (Z.to_nat count) 0 b1) as [A1 [A2 A3]].
  { intros k Hk. rewrite D2, D3. change (pin_ self) with adc_pin. now apply Hsig. }
  { lia. }
  { lia. }
  cbv zeta in A1, A2, A3. change (pin_ self) with adc_pin in A1.
  rewrite D2, D3 in A1. fold first in A1. fold sum in A1.
  destruct (avr_algorithms.repeat (Z.to_nat count) (accumulate_one self) (0, b1))
    as [acc2 b2] eqn:E2.
  cbn [fst snd] in A1, A2, A3 |- *. rewrite Z.add_0_l in A1. subst acc2.
  pose proof (sum_of_reads_bounds (analog_signal b adc_pin) 32767 (Z.to_nat count)
                first Hsig) as Hsum.
  fold sum in Hsum. rewrite Z2Nat.id in Hsum by lia.
  rewrite Z.shiftr_div_pow2 by lia. change (2 ^ 1) with 2.
  change Adc.MAX_VALUE with 1023. unfold rounded_mean.
  assert (Hmean : 0 <= (sum + count / 2) / count <= 32767).
  { split; [apply Z.div_pos; lia|].
    assert ((sum + count / 2) / count < 32768); [|lia].
    apply Z.div_lt_upper_bound; [lia|].
    assert (count / 2 < count) by lia. nia. }
  split; [|split].
  - destruct (Z.eqb_spec count 1) as [E|_].
    + rewrite to_uint16_small by (unfold is_uint16; lia).
      destruct (Z.gtb_spec sum 1023); lia.
    + rewrite (to_uint32_small (sum + count / 2)) by (unfold is_uint32; lia).
      rewrite to_uint16_small by (unfold is_uint16; lia).
      destruct (Z.gtb_spec ((sum + count / 2) / count) 1023); lia.
  - destruct (Z.eqb_spec count 1) as [E|_].
    + rewrite to_uint16_small by (unfold is_uint16; lia).
      destruct (Z.gtb_spec sum 1023); lia.
    + rewrite (to_uint32_small (sum + count / 2)) by (unfold is_uint32; lia).
      rewrite to_uint16_small by (unfold is_uint16; lia).
      destruct (Z.gtb_spec ((sum + count / 2) / count) 1023); lia.
  - rewrite A2, D2. reflexivity.
Qed.

(** ** [EmaFilter::begin] *)

Lemma in_closed_unit_bool (q : Q) :
  EmaFilter.in_closed_unit (EmaFilter.FNum q) <->
  Qle_bool 0 q = true /\ Qle_bool q 1 = true.
Proof. cbn -[Qle_bool]. now rewrite !Qle_bool_iff. Qed.

Lemma begin_alpha (alpha : EmaFilter.cfloat) (initial_value : Z) :
  let after := EmaFilter.alpha_ (EmaFilter.begin (EmaFilter.new alpha initial_value)) in
  (EmaFilter.in_closed_unit alpha -> after = alpha) /\
  (alpha <> EmaFilter.FNaN -> ~ EmaFilter.in_closed_unit alpha ->
   after = EmaFilter.FNum (1 # 2)) /\
  (alpha <> EmaFilter.FNaN -> EmaFilter.in_closed_unit after).
Proof.
  assert (Hhalf : EmaFilter.in_closed_unit (EmaFilter.FNum (1 # 2))).
  { apply in_closed_unit_bool. split; reflexivity. }
  destruct alpha as [q| | |].
  - unfold EmaFilter.begin, EmaFilter.new, EmaFilter.fgt, EmaFilter.flt.
    cbn [EmaFilter.alpha_]. rewrite (in_closed_unit_bool q).
    destruct (Qle_bool 0 q) eqn:E0, (Qle_bool q 1) eqn:E1;
      cbn [negb orb EmaFilter.alpha_];
      (split; [|split]); intros; try reflexivity; try assumption;
      try (apply in_closed_unit_bool; split; assumption);
      exfalso; intuition congruence.
  - cbn. split; [|split]; intros; try reflexivity; try assumption; contradiction.
  - cbn. split; [|split]; intros; try reflexivity; try assumption; contradiction.
  - cbn. split; [|split]; intros; try contradiction; try reflexivity; congruence.
Qed.

(** * Part III: the claims *)

(** Claim C1 fails on the code.  For a target beyond the first entry of a
    strictly monotonic table of 2 to 32767 entries (order given or
    detected), [binarySearchLut] does not return the bracket [0, 1] with
    [clamped] set: the branch [left == 0] written for this case is not
    reached, because [right = mid - 1] wraps at [mid = 0]; the call returns
    no bracket at all, and once the loop has run it has read the table at
    index 32767.  Accordingly [convertToTemperature_x10] does not return the
    first (colder) entry's temperature for a resistance above the table's
    maximum: it does not return.  The other half of the claim holds: a
    target beyond the last entry is bracketed by [N-2, N-1] with [clamped]
    set, and a resistance below the table's minimum (0, rejected before the
    lookup, apart) is converted to the last (hotter) entry's temperature. *)
Theorem clamp_beyond_first_entry_is_not_reached :
  (forall (Entry : Type) (lut : list Entry) (proj : Entry -> Z) (o hint : LutOrder)
          (target : Z) (e0 : Entry) (fuel : nat),
      sorted_as o (map proj lut) = true ->
      hint = o \/ hint = AUTO ->
      2 <= array_size lut <= 32767 ->
      nth_error lut 0 = Some e0 ->
      before o target (proj e0) ->
      returns (binarySearchLut lut target proj fuel hint) = false /\
      (array_size lut + 1 <= Z.of_nat fuel ->
       binarySearchLut lut target proj fuel hint = OutOfBounds 32767)) /\
  (forall (NTC_LUT : list ThermistorEntry) (r : Z) (first : ThermistorEntry) (fuel : nat),
      strictly_decreasing (map resistance_x10 NTC_LUT) = true ->
      2 <= array_size NTC_LUT <= 32767 ->
      nth_error NTC_LUT 0 = Some first ->
      0 <= resistance_x10 first ->
      resistance_x10 first < r ->
      convertToTemperature_x10 NTC_LUT fuel r <> Done (temperature_x10 first) /\
      returns (convertToTemperature_x10 NTC_LUT fuel r) = false /\
      (array_size NTC_LUT + 1 <= Z.of_nat fuel ->
       convertToTemperature_x10 NTC_LUT fuel r = OutOfBounds 32767)) /\
  (forall (Entry : Type) (lut : list Entry) (proj : Entry -> Z) (o hint : LutOrder)
          (target : Z) (eN : Entry) (fuel : nat),
      sorted_as o (map proj lut) = true ->
      hint = o \/ hint = AUTO ->
      2 <= array_size lut <= SIZE_MAX ->
      nth_error lut (Z.to_nat (array_size lut - 1)) = Some eN ->
      before o (proj eN) target ->
      array_size lut <= Z.of_nat fuel ->
      binarySearchLut lut target proj fuel hint
      = Done {| lowerIdx := array_size lut - 2; upperIdx := array_size lut - 1;
                exactIdx := SIZE_MAX; foundExact := false;
                outOfRange := true; clamped := true |}) /\
  (forall (NTC_LUT : list ThermistorEntry) (r : Z) (last : ThermistorEntry) (fuel : nat),
      strictly_decreasing (map resistance_x10 NTC_LUT) = true ->
      2 <= array_size NTC_LUT <= SIZE_MAX ->
      nth_error NTC_LUT (Z.to_nat (array_size NTC_LUT - 1)) = Some last ->
      0 < r ->
      r < resistance_x10 last ->
      array_size NTC_LUT <= Z.of_nat fuel ->
      convertToTemperature_x10 NTC_LUT fuel r = Done (temperature_x10 last)).
Proof.
  split; [|split; [|split]].
  - intros Entry lut proj o hint target e0 fuel Hs Hhint Hfit H0 Hb.
    exact (binarySearchLut_beyond_first lut proj o hint target e0 Hs Hhint Hfit H0 Hb fuel).
  - intros NTC_LUT r first fuel Hs Hfit H0 Hpos Hr.
    destruct (convertToTemperature_x10_above_maximum NTC_LUT r first Hs Hfit H0 Hr Hpos fuel)
      as [Hret Hoob].
    split; [|split; assumption].
    intros E. rewrite E in Hret. discriminate Hret.
  - intros. now apply (binarySearchLut_beyond_last lut proj o hint target eN fuel).
  - intros NTC_LUT r last fuel Hs Hfit Hlast Hr Hlow Hfuel.
    apply convertToTemperature_x10_below_minimum; try assumption. lia.
Qed.

Lemma clamp_beyond_first_entry_is_not_reached_witness :
  binarySearchLut sample_lut 2000000 resistance_x10 4 AUTO = OutOfBounds 32767 /\
  convertToTemperature_x10 sample_lut 4 2000000 = OutOfBounds 32767 /\
  convertToTemperature_x10 sample_lut 4 2000000 <> Done (-400) /\
  binarySearchLut sample_lut 5000 resistance_x10 3 AUTO
  = Done {| lowerIdx := 1; upperIdx := 2; exactIdx := SIZE_MAX; foundExact := false;
            outOfRange := true; clamped := true |} /\
  convertToTemperature_x10 sample_lut 3 5000 = Done 400.
Proof.
  destruct clamp_beyond_first_entry_is_not_reached as [Hlow [Hcold [Hhigh Hhot]]].
  split; [|split; [|split; [|split]]].
  - apply (Hlow ThermistorEntry sample_lut resistance_x10 DECREASING AUTO 2000000
             {| resistance_x10 := 1000000; temperature_x10 := -400 |} 4%nat).
    + reflexivity.
    + right. reflexivity.
    + unfold array_size. simpl. lia.
    + reflexivity.
    + simpl. lia.
    + unfold array_size. simpl. lia.
  - apply (Hcold sample_lut 2000000
             {| resistance_x10 := 1000000; temperature_x10 := -400 |} 4%nat).
    + reflexivity.
    + unfold array_size. simpl. lia.
    + reflexivity.
    + simpl. lia.
    + simpl. lia.
    + unfold array_size. simpl. lia.
  - apply (Hcold sample_lut 2000000
             {| resistance_x10 := 1000000; temperature_x10 := -400 |} 4%nat).
    + reflexivity.
    + unfold array_size. simpl. lia.
    + reflexivity.
    + simpl. lia.
    + simpl. lia.
  - apply (Hhigh ThermistorEntry sample_lut resistance_x10 DECREASING AUTO 5000
             {| resistance_x10 := 10000; temperature_x10 := 400 |} 3%nat).
    + reflexivity.
    + right. reflexivity.
    + unfold array_size, SIZE_MAX. simpl. lia.
    + reflexivity.
    + simpl. lia.
    + unfold array_size. simpl. lia.
  - apply (Hhot sample_lut 5000
             {| resistance_x10 := 10000; temperature_x10 := 400 |} 3%nat).
    + reflexivity.
    + unfold array_size, SIZE_MAX. simpl. lia.
    + reflexivity.
    + lia.
    + simpl. lia.
    + unfold array_size. simpl. lia.
Defined.

(** Claim C2 fails on the code.  On the three-point table, searched in its
    own (decreasing) order for a key above the first entry, the loop moves
    [right] to [mid - 1] with [mid = 0]; the unsigned subtraction wraps to
    [SIZE_MAX], the loop condition still holds, and the next iteration reads
    the table at index 32767: no bracket is returned, whatever the fuel. *)
Theorem binarySearchLut_leaves_the_table :
  forall fuel : nat,
    returns (binarySearchLut sample_lut 2000000 resistance_x10 fuel DECREASING) = false /\
    binarySearchLut sample_lut 2000000 resistance_x10 (4 + fuel) DECREASING
    = OutOfBounds 32767.
Proof.
  intros fuel.
  assert (H : forall f : nat,
             returns (binarySearchLut sample_lut 2000000 resistance_x10 f DECREASING) = false /\
             (array_size sample_lut + 1 <= Z.of_nat f ->
              binarySearchLut sample_lut 2000000 resistance_x10 f DECREASING
              = OutOfBounds 32767)).
  { apply (binarySearchLut_beyond_first sample_lut resistance_x10 DECREASING DECREASING
             2000000 {| resistance_x10 := 1000000; temperature_x10 := -400 |}).
    - reflexivity.
    - now left.
    - unfold array_size. simpl. lia.
    - reflexivity.
    - simpl. lia. }
  split.
  - apply H.
  - apply H. unfold array_size. simpl length. lia.
Qed.

(** Claim C3 fails on the code.  Whatever the divider resistance, raw
    value 0 gives resistance 0, but raw value 1023 passes the guard
    [adc_raw > MAX_VALUE] and the division by [MAX_VALUE - adc_raw = 0] is
    carried out. *)
Theorem convertToResistance_x10_at_full_scale :
  forall pullup_Ohms : Z,
    convertToResistance_x10 (VoltageDividerResistanceConverter.new pullup_Ohms) 0 = Done 0 /\
    convertToResistance_x10 (VoltageDividerResistanceConverter.new pullup_Ohms) 1023
    = DivisionByZero.
Proof.
  intros pullup_Ohms. split.
  - apply convertToResistance_x10_zero.
  - apply convertToResistance_x10_full_scale.
Qed.

(** Claim C4, amended.  For keys in descending order ([highKey < lowKey]),
    a target not above [lowKey], values of the table's types and a value
    difference that fits 16 bits, the 64-bit value computed before the
    clamp is exactly
    [lowValue + (highValue - lowValue) * (lowKey - target) / (lowKey - highKey)]
    with truncating division and without any wrap-around; the function
    returns this value passed through its clamp, and returns it unchanged
    when it lies within -400 .. 400. *)
Theorem interpolation_formula_descending :
  forall (NTC_LUT : list ThermistorEntry) (target lowKey highKey lowValue highValue : Z),
    is_uint32 target -> is_uint32 lowKey -> is_uint32 highKey ->
    is_int16 lowValue -> is_int16 highValue -> is_int16 (highValue - lowValue) ->
    highKey < lowKey -> target <= lowKey ->
    let value := lowValue + Z.quot ((highValue - lowValue) * (lowKey - target))
                                   (lowKey - highKey) in
    t_interpolated_x10 target lowKey highKey lowValue highValue = Done value /\
    applyLinearInterpolation NTC_LUT target lowKey highKey lowValue highValue
    = (t' <- clamp_to_lut NTC_LUT value ;; Done (to_int16 t')) /\
    (-400 <= value <= 400 ->
     applyLinearInterpolation NTC_LUT target lowKey highKey lowValue highValue = Done value).
Proof.
  intros. now apply applyLinearInterpolation_descending.
Qed.

Lemma interpolation_formula_descending_witness :
  t_interpolated_x10 75000 1000000 50000 (-400) 250 = Done 232 /\
  applyLinearInterpolation sample_lut 75000 1000000 50000 (-400) 250 = Done 232.
Proof.
  destruct (interpolation_formula_descending sample_lut 75000 1000000 50000 (-400) 250)
    as [Hvalue [_ Hresult]].
  - unfold is_uint32. lia.
  - unfold is_uint32. lia.
  - unfold is_uint32. lia.
  - unfold is_int16. lia.
  - unfold is_int16. lia.
  - unfold is_int16. lia.
  - lia.
  - lia.
  - split.
    + exact Hvalue.
    + apply Hresult. vm_compute. split; discriminate.
Defined.

(** Claim C4 as stated fails for keys in ascending order: between the keys
    10 and 20 with values 0 and 100, the formula gives 50 at target 15, the
    code gives 100 (both unsigned deltas wrap). *)
Lemma interpolation_ascending_keys :
  applyLinearInterpolation sample_lut 15 10 20 0 100 = Done 100 /\
  0 + Z.quot ((100 - 0) * (10 - 15)) (10 - 20) = 50.
Proof. split; reflexivity. Qed.

(** Claim C5 fails on the code.  On the three-point table, whose extreme
    temperatures are -400 (first entry) and 400 (last entry), a value of
    -440 before the clamp is returned as 400 and a value of 440 as -400:
    the clamp is called with the last entry as its lower and the first
    entry as its upper bound. *)
Theorem interpolation_clamp_is_inverted :
  t_interpolated_x10 50 100 90 (-390) (-400) = Done (-440) /\
  applyLinearInterpolation sample_lut 50 100 90 (-390) (-400) = Done 400 /\
  t_interpolated_x10 50 100 90 390 400 = Done 440 /\
  applyLinearInterpolation sample_lut 50 100 90 390 400 = Done (-400).
Proof. repeat split; reflexivity. Qed.

(** Claim C6.  In a strictly monotonic table, searched in its own order or
    with the order detected, the key of the entry at index [i] is found
    there: [foundExact] is set, [lowerIdx = upperIdx = exactIdx = i] and
    [outOfRange] is clear; and on a table of strictly decreasing, positive
    resistances [convertToTemperature_x10], applied to the resistance of an
    entry, returns the temperature stored in that entry. *)
Theorem exact_match_is_found :
  (forall (Entry : Type) (lut : list Entry) (proj : Entry -> Z) (o hint : LutOrder)
          (i : Z) (e : Entry) (fuel : nat),
      sorted_as o (map proj lut) = true ->
      hint = o \/ hint = AUTO ->
      array_size lut <= SIZE_MAX ->
      0 <= i ->
      nth_error lut (Z.to_nat i) = Some e ->
      array_size lut <= Z.of_nat fuel ->
      binarySearchLut lut (proj e) proj fuel hint
      = Done {| lowerIdx := i; upperIdx := i; exactIdx := i;
                foundExact := true; outOfRange := false; clamped := false |}) /\
  (forall (NTC_LUT : list ThermistorEntry) (i : Z) (e : ThermistorEntry) (fuel : nat),
      strictly_decreasing (map resistance_x10 NTC_LUT) = true ->
      (forall e' : ThermistorEntry, In e' NTC_LUT -> 0 < resistance_x10 e') ->
      array_size NTC_LUT <= SIZE_MAX ->
      0 <= i ->
      nth_error NTC_LUT (Z.to_nat i) = Some e ->
      array_size NTC_LUT <= Z.of_nat fuel ->
      convertToTemperature_x10 NTC_LUT fuel (resistance_x10 e) = Done (temperature_x10 e)).
Proof.
  split.
  - intros. now apply (binarySearchLut_exact lut proj o hint i e fuel).
  - intros NTC_LUT i e fuel Hs Hpos Hfit Hi He Hfuel.
    apply (convertToTemperature_x10_exact NTC_LUT i e fuel); try assumption.
    assert (0 < resistance_x10 e) by (apply Hpos; eapply nth_error_In; eassumption).
    lia.
Qed.

Lemma exact_match_is_found_witness :
  binarySearchLut sample_lut 50000 resistance_x10 3 AUTO
  = Done {| lowerIdx := 1; upperIdx := 1; exactIdx := 1;
            foundExact := true; outOfRange := false; clamped := false |} /\
  convertToTemperature_x10 sample_lut 3 50000 = Done 250.
Proof.
  destruct exact_match_is_found as [Hbracket Hconvert]. split.
  - apply (Hbracket ThermistorEntry sample_lut resistance_x10 DECREASING AUTO 1
             {| resistance_x10 := 50000; temperature_x10 := 250 |} 3%nat).
    + reflexivity.
    + right. reflexivity.
    + unfold array_size, SIZE_MAX. simpl. lia.
    + lia.
    + reflexivity.
    + unfold array_size. simpl. lia.
  - apply (Hconvert sample_lut 1
             {| resistance_x10 := 50000; temperature_x10 := 250 |} 3%nat).
    + reflexivity.
    + intros e' [<-|[<-|[<-|[]]]]; simpl; lia.
    + unfold array_size, SIZE_MAX. simpl. lia.
    + lia.
    + reflexivity.
    + unfold array_size. simpl. lia.
Defined.

Import TemperatureSensor.

(** Claim C7, amended.  A sensor that is not Ready returns the sentinel
    and leaves everything as it was: neither the sampler nor the filter is
    called.  A Ready sensor calls the sampler once; when the resistance is 0
    or the temperature is the sentinel it returns the sentinel without
    calling the filter, whose state stays as it was; otherwise it returns
    the filter's output (and stores the filter's new state), or the
    unfiltered temperature when no filter is attached.  The sentinel is
    returned by a Ready sensor exactly in the two failing cases as long as
    the attached filter, if any, does not itself output -32768. *)
Theorem readTemperature_x10_sentinel :
  forall (SamplerState FilterState : Type)
         (self : TemperatureSensor.t SamplerState FilterState)
         (w : World SamplerState FilterState),
    (ready SamplerState FilterState self = false ->
     readTemperature_x10 SamplerState FilterState self w = (SENTINEL, w)) /\
    (forall sampler resistanceConverter temperatureConverter,
        sampler_ SamplerState FilterState self = Some sampler ->
        resistanceConverter_ SamplerState FilterState self = Some resistanceConverter ->
        temperatureConverter_ SamplerState FilterState self = Some temperatureConverter ->
        let adc_raw := fst (sampler (sampler_object SamplerState FilterState w)) in
        let resistance := resistanceConverter adc_raw in
        let temperature := temperatureConverter resistance in
        let held := filter_object SamplerState FilterState w in
        let result := readTemperature_x10 SamplerState FilterState self w in
        sample_calls SamplerState FilterState (snd result)
        = S (sample_calls SamplerState FilterState w) /\
        (resistance = 0 \/ temperature = SENTINEL ->
         fst result = SENTINEL /\
         filter_object SamplerState FilterState (snd result) = held /\
         apply_calls SamplerState FilterState (snd result)
         = apply_calls SamplerState FilterState w) /\
        (resistance <> 0 -> temperature <> SENTINEL ->
         match filter_ SamplerState FilterState self with
         | None =>
             fst result = temperature /\
             filter_object SamplerState FilterState (snd result) = held
         | Some filter =>
             fst result = fst (filter temperature held) /\
             filter_object SamplerState FilterState (snd result)
             = snd (filter temperature held)
         end) /\
        ((forall filter, filter_ SamplerState FilterState self = Some filter ->
                         fst (filter temperature held) <> SENTINEL) ->
         (fst result = SENTINEL <-> resistance = 0 \/ temperature = SENTINEL))).
Proof.
  intros SamplerState FilterState self w. split.
  - unfold ready, readTemperature_x10.
    destruct (sampler_ _ _ self); [|reflexivity].
    destruct (resistanceConverter_ _ _ self); [|reflexivity].
    destruct (temperatureConverter_ _ _ self); [discriminate|reflexivity].
  - intros sampler rc tc Hs Hr Ht adc_raw resistance temperature held result.
    subst result. unfold readTemperature_x10. rewrite Hs, Hr, Ht.
    unfold call_sampler.
    destruct (sampler (sampler_object _ _ w)) as [raw s'] eqn:Esample.
    cbn [fst] in adc_raw. subst adc_raw. fold resistance. fold temperature.
    destruct (Z.eqb_spec resistance 0) as [E0|N0].
    { cbn. repeat split; try reflexivity; try contradiction; intros; now left. }
    destruct (Z.eqb_spec temperature SENTINEL) as [E1|N1].
    { cbn. repeat split; try reflexivity; try contradiction; intros; now right. }
    destruct (filter_ _ _ self) as [filter|] eqn:Ef.
    + unfold call_filter. cbn [filter_object].
      fold held. destruct (filter temperature held) as [y f'] eqn:Eapply.
      cbn [fst snd sample_calls filter_object apply_calls].
      split; [reflexivity|]. split; [intros [?|?]; contradiction|].
      split; [intros; split; reflexivity|].
      intros Hfilter. specialize (Hfilter filter eq_refl).
      rewrite Eapply in Hfilter. cbn [fst] in Hfilter.
      split; [intros E; contradiction|intros [?|?]; contradiction].
    + cbn [fst snd sample_calls filter_object apply_calls].
      split; [reflexivity|]. split; [intros [?|?]; contradiction|].
      split; [intros; split; reflexivity|].
      intros _. split; [intros E; contradiction|intros [?|?]; contradiction].
Qed.

Lemma readTemperature_x10_sentinel_witness :
  readTemperature_x10 Z Z (TemperatureSensor.new Z Z) (demo_world 0) = (SENTINEL, demo_world 0) /\
  fst (readTemperature_x10 Z Z (demo_sensor (Some hold_filter)) (demo_world 123)) = 123 /\
  (fst (readTemperature_x10 Z Z (demo_sensor None) (demo_world 0)) = SENTINEL <->
   50000 = 0 \/ 250 = SENTINEL).
Proof.
  split; [|split].
  - apply (proj1 (readTemperature_x10_sentinel Z Z (TemperatureSensor.new Z Z) (demo_world 0))).
    reflexivity.
  - destruct (proj2 (readTemperature_x10_sentinel Z Z (demo_sensor (Some hold_filter))
                       (demo_world 123))
                (fun s => (s, s)) (fun _ => 50000) (fun _ => 250)
                eq_refl eq_refl eq_refl) as [_ [_ [Hsuccess _]]].
    apply Hsuccess.
    + lia.
    + unfold SENTINEL. lia.
  - destruct (proj2 (readTemperature_x10_sentinel Z Z (demo_sensor None) (demo_world 0))
                (fun s => (s, s)) (fun _ => 50000) (fun _ => 250)
                eq_refl eq_refl eq_refl) as [_ [_ [_ Hiff]]].
    apply Hiff. intros filter Hfilter. simpl in Hfilter. discriminate.
Defined.

(** Claim C7 as stated fails when the filter outputs -32768: the sensor
    below is Ready, its resistance is 50000 and its temperature 250, yet
    the read returns the sentinel, which is what the attached filter holds
    and returns. *)
Lemma filter_output_can_be_the_sentinel :
  ready Z Z (demo_sensor (Some hold_filter)) = true /\
  50000 <> 0 /\ 250 <> SENTINEL /\
  fst (readTemperature_x10 Z Z (demo_sensor (Some hold_filter)) (demo_world (-32768)))
  = -32768.
Proof.
  repeat split; try reflexivity; unfold SENTINEL; lia.
Qed.

(** Claim C8.  With non-negative raw acquisitions, [sample] discards the
    first [samples_to_discard] of them and returns the mean of the next
    [count] ones, where [count] is [samples_to_average] (1 when 0 was
    given to the constructor): rounded as [(sum + count / 2) / count] when
    [count] is not 1 and equal to the acquisition itself when [count] is 1,
    limited to 1023, so that the result lies in 0 .. 1023; and on the input
    10, 10, 10, 10, 20, 20, 20, 20 with four discarded and four averaged
    it returns 20 for every pin and every settle delay. *)
Theorem sample_is_the_rounded_mean :
  (forall (adc_pin samples_to_average samples_to_discard settle_us : Z) (b : Board),
      is_uint8 samples_to_average -> is_uint8 samples_to_discard ->
      let count := if samples_to_average >? 0 then samples_to_average else 1 in
      let first := (reads b + Z.to_nat samples_to_discard)%nat in
      let sum := sum_of_reads (analog_signal b adc_pin) first (Z.to_nat count) in
      (forall k, (k < Z.to_nat count)%nat ->
                 0 <= analog_signal b adc_pin (first + k)%nat <= 32767) ->
      fst (sample (AdcSampler.new adc_pin samples_to_average samples_to_discard settle_us) b)
      = Z.min 1023 (if count =? 1 then sum else (sum + count / 2) / count) /\
      0 <= fst (sample (AdcSampler.new adc_pin samples_to_average samples_to_discard
                          settle_us) b) <= 1023) /\
  (forall adc_pin settle_us : Z,
      fst (sample (AdcSampler.new adc_pin 4 4 settle_us) step_board) = 20).
Proof.
  split.
  - intros adc_pin avg disc settle_us b Havg Hdisc count first sum Hsig.
    destruct (sample_value adc_pin avg disc settle_us b Havg Hdisc Hsig) as [H1 [H2 _]].
    split; [exact H1|exact H2].
  - intros adc_pin settle_us.
    destruct (sample_value adc_pin 4 4 settle_us step_board) as [H1 _].
    + unfold is_uint8. lia.
    + unfold is_uint8. lia.
    + intros k Hk. change (Z.to_nat _) with 4%nat in Hk.
      change (reads step_board + Z.to_nat 4)%nat with 4%nat.
      unfold step_board. cbn [analog_signal].
      do 4 (destruct k as [|k]; [simpl; lia|]). lia.
    + rewrite H1. reflexivity.
Qed.

(** On the acquisitions 0, 1, 4, 9, 16, 25, 36, 49 with four discarded and
    four averaged: the sum of the window is 126 and the mean 31.5 is
    rounded to 32. *)
Lemma sample_is_the_rounded_mean_witness :
  fst (sample (AdcSampler.new 0 4 4 50) ramp_board) = 32 /\
  0 <= fst (sample (AdcSampler.new 0 4 4 50) ramp_board) <= 1023.
Proof.
  apply (proj1 sample_is_the_rounded_mean 0 4 4 50 ramp_board).
  - unfold is_uint8. lia.
  - unfold is_uint8. lia.
  - intros k Hk. change (Z.to_nat _) with 4%nat in Hk.
    change (reads ramp_board + Z.to_nat 4)%nat with 4%nat.
    unfold ramp_board. cbn [analog_signal].
    do 4 (destruct k as [|k]; [simpl; lia|]). lia.
Defined.

(** Claim C9, amended.  For two distinct keys and bracket values within
    -400 .. 400, [applyLinearInterpolation] returns exactly [lowValue] at
    [target = lowKey] and exactly [highValue] at [target = highKey],
    whatever the order of the keys and whatever the table. *)
Theorem interpolation_endpoints :
  forall (NTC_LUT : list ThermistorEntry) (lowKey highKey lowValue highValue : Z),
    is_uint32 lowKey -> is_uint32 highKey -> lowKey <> highKey ->
    -400 <= lowValue <= 400 -> -400 <= highValue <= 400 ->
    applyLinearInterpolation NTC_LUT lowKey lowKey highKey lowValue highValue
    = Done lowValue /\
    applyLinearInterpolation NTC_LUT highKey lowKey highKey lowValue highValue
    = Done highValue.
Proof.
  intros. now apply applyLinearInterpolation_endpoints.
Qed.

Lemma interpolation_endpoints_witness :
  applyLinearInterpolation sample_lut 1000000 1000000 50000 (-400) 250 = Done (-400) /\
  applyLinearInterpolation sample_lut 50000 1000000 50000 (-400) 250 = Done 250.
Proof.
  apply (interpolation_endpoints sample_lut 1000000 50000 (-400) 250).
  - unfold is_uint32. lia.
  - unfold is_uint32. lia.
  - lia.
  - lia.
  - lia.
Defined.

(** Claim C9 as stated fails for a bracket value outside -400 .. 400: with
    [lowValue = 500] the value at [target = lowKey] is clamped and 500 is
    not returned. *)
Lemma endpoint_outside_the_span :
  100 <> 90 /\
  applyLinearInterpolation sample_lut 100 100 90 500 0 = Done (-400) /\
  applyLinearInterpolation sample_lut 100 100 90 500 0 <> Done 500.
Proof.
  repeat split; try reflexivity; try lia. discriminate.
Qed.

(** Claim C10, amended.  After [begin], a smoothing factor in the closed
    interval [0, 1], 0 included, is kept as it is; every other factor
    that is not a NaN (a number below 0 or above 1, or an infinity) is
    replaced by 0.5; so for every argument that is not a NaN the factor
    lies in [0, 1] afterwards. *)
Theorem begin_validates_alpha :
  forall (alpha : EmaFilter.cfloat) (initial_value : Z),
    let after := EmaFilter.alpha_ (EmaFilter.begin (EmaFilter.new alpha initial_value)) in
    (EmaFilter.in_closed_unit alpha -> after = alpha) /\
    (alpha <> EmaFilter.FNaN -> ~ EmaFilter.in_closed_unit alpha ->
     after = EmaFilter.FNum (1 # 2)) /\
    (alpha <> EmaFilter.FNaN -> EmaFilter.in_closed_unit after).
Proof.
  intros. now apply begin_alpha.
Qed.

Lemma begin_validates_alpha_witness :
  EmaFilter.alpha_ (EmaFilter.begin (EmaFilter.new (EmaFilter.FNum (3 # 20)) 0))
  = EmaFilter.FNum (3 # 20) /\
  EmaFilter.alpha_ (EmaFilter.begin (EmaFilter.new (EmaFilter.FNum (3 # 2)) 0))
  = EmaFilter.FNum (1 # 2) /\
  EmaFilter.in_closed_unit
    (EmaFilter.alpha_ (EmaFilter.begin (EmaFilter.new (EmaFilter.FNum (3 # 2)) 0))).
Proof.
  split; [|split].
  - apply (proj1 (begin_validates_alpha (EmaFilter.FNum (3 # 20)) 0)).
    simpl. unfold Qle. simpl. lia.
  - apply (proj1 (proj2 (begin_validates_alpha (EmaFilter.FNum (3 # 2)) 0))).
    + discriminate.
    + simpl. unfold Qle. simpl. lia.
  - apply (proj2 (proj2 (begin_validates_alpha (EmaFilter.FNum (3 # 2)) 0))).
    discriminate.
Defined.

(** Claim C10 as stated fails at [alpha = 0]: it lies outside (0, 1], it
    is not replaced by 0.5, and the factor after [begin] is still 0. *)
Lemma begin_keeps_alpha_zero :
  ~ EmaFilter.in_half_open_unit (EmaFilter.FNum 0) /\
  EmaFilter.alpha_ (EmaFilter.begin (EmaFilter.new (EmaFilter.FNum 0) 0)) = EmaFilter.FNum 0 /\
  ~ EmaFilter.in_half_open_unit
      (EmaFilter.alpha_ (EmaFilter.begin (EmaFilter.new (EmaFilter.FNum 0) 0))).
Proof.
  assert (H : ~ EmaFilter.in_half_open_unit (EmaFilter.FNum 0)).
  { simpl. unfold Qlt. simpl. lia. }
  repeat split; try reflexivity; exact H.
Qed.

(** * Part IV: further properties of the code *)

(** ** [binarySearchLut] on any table *)

Lemma at_index_done {A : Type} (arr : list A) (i : Z) (e : A) :
  at_index arr i = Done e ->
  0 <= i < array_size arr /\ nth_error arr (Z.to_nat i) = Some e.
Proof.
  unfold at_index, array_size.
  destruct (Z.ltb_spec i 0); [discriminate|].
  destruct (nth_error arr (Z.to_nat i)) as [a|] eqn:E; [|discriminate].
  intros H'. injection H' as ->. split; [|reflexivity].
  assert (Z.to_nat i < length arr)%nat by (apply nth_error_Some; congruence). lia.
Qed.

(** However the keys are arranged, the loop is left either with an exact
    bracket on an index it has read, or with [left = right + 1]. *)
Lemma search_loop_exit_shape {Entry : Type} (lut : list Entry) (target : Z)
      (proj : Entry -> Z) (o : LutOrder) :
  array_size lut <= SIZE_MAX ->
  forall (fuel : nat) (left right : Z),
    0 <= left <= right + 1 -> 0 <= right <= SIZE_MAX ->
    match search_loop lut target proj fuel o left right with
    | Done (Return b) =>
        exists mid, b = exact_bracket mid /\ 0 <= mid < array_size lut
    | Done (Break l r) => 0 <= r /\ l = r + 1
    | _ => True
    end.
Proof.
  unfold SIZE_MAX. intros Hfit.
  induction fuel as [|fuel IH]; intros left right Hl Hr; cbn [search_loop].
  - destruct (Z.leb_spec left right); [exact I|]. lia.
  - destruct (Z.leb_spec left right) as [Hlr|Hlr]; [|lia].
    assert (Emid : to_size_t (left + to_size_t (right - left) / 2)
                   = left + (right - left) / 2).
    { rewrite (to_size_t_small (right - left)) by (unfold SIZE_MAX; lia).
      rewrite to_size_t_small by (unfold SIZE_MAX; lia). reflexivity. }
    rewrite Emid. set (mid := left + (right - left) / 2) in *.
    destruct (at_index lut mid) as [em| | |] eqn:Eem; cbn [bind]; try exact I.
    apply at_index_done in Eem. destruct Eem as [Hmid _].
    destruct (proj em =? target).
    { exists mid. split; [reflexivity|assumption]. }
    destruct (goLeft_of target o (proj em)).
    + destruct (Z.eq_dec mid 0) as [E0|Hpos].
      * rewrite E0. change (to_size_t (0 - 1)) with 65535. apply IH; lia.
      * rewrite to_size_t_small by (unfold SIZE_MAX; lia). apply IH; lia.
    + rewrite to_size_t_small by (unfold SIZE_MAX; lia). apply IH; lia.
Qed.

Lemma binarySearchLut_indices {Entry : Type} (lut : list Entry) (target : Z)
      (proj : Entry -> Z) (fuel : nat) (order : LutOrder) (b : LutBracket) :
  2 <= array_size lut <= SIZE_MAX ->
  binarySearchLut lut target proj fuel order = Done b ->
  0 <= lowerIdx b /\ lowerIdx b <= upperIdx b /\ upperIdx b < array_size lut /\
  upperIdx b <= lowerIdx b + 1 /\
  (foundExact b = true -> lowerIdx b = exactIdx b /\ upperIdx b = exactIdx b) /\
  (foundExact b = false -> upperIdx b = lowerIdx b + 1).
Proof.
  intros Hfit. unfold binarySearchLut.
  destruct (resolve_order lut proj order) as [o'| | |]; cbn [bind]; try discriminate.
  pose proof (search_loop_exit_shape lut target proj o' ltac:(lia) fuel 0
                (to_size_t (array_size lut - 1))) as Hshape.
  rewrite to_size_t_small in * by (unfold SIZE_MAX in *; lia).
  specialize (Hshape ltac:(lia) ltac:(lia)).
  destruct (search_loop lut target proj fuel o' 0 (array_size lut - 1))
    as [[res|l r]| | |]; cbn [bind]; try discriminate.
  - destruct Hshape as [mid [-> Hmid]]. intros E. injection E as <-.
    cbn. repeat split; try lia; discriminate.
  - destruct Hshape as [Hr ->]. intros E. injection E as <-.
    unfold bracket_of_bounds.
    destruct (Z.eqb_spec (r + 1) 0); [lia|].
    rewrite !to_size_t_small by (unfold SIZE_MAX in *; lia).
    destruct (Z.geb_spec r (array_size lut - 1)); cbn;
      repeat split; try lia; discriminate.
Qed.

(** X1.  Whatever the table holds (sorted or not) and whatever the target
    and the order, a bracket that [binarySearchLut] returns on a table of
    2 to 65535 entries points inside the table: [0 <= lowerIdx <= upperIdx
    < N], the two indices are equal on an exact match and neighbours
    otherwise. *)
Theorem returned_bracket_is_inside_the_table :
  forall (Entry : Type) (lut : list Entry) (target : Z) (proj : Entry -> Z)
         (fuel : nat) (order : LutOrder) (b : LutBracket),
    2 <= array_size lut <= SIZE_MAX ->
    binarySearchLut lut target proj fuel order = Done b ->
    0 <= lowerIdx b /\ lowerIdx b <= upperIdx b /\ upperIdx b < array_size lut /\
    upperIdx b <= lowerIdx b + 1 /\
    (foundExact b = true -> lowerIdx b = exactIdx b /\ upperIdx b = exactIdx b) /\
    (foundExact b = false -> upperIdx b = lowerIdx b + 1).
Proof.
  intros. now apply (binarySearchLut_indices lut target proj fuel order b).
Qed.

Lemma returned_bracket_is_inside_the_table_witness :
  0 <= 0 /\ 0 <= 1 /\ 1 < array_size sample_lut /\ 1 <= 0 + 1 /\
  (false = true -> 0 = SIZE_MAX /\ 1 = SIZE_MAX) /\ (false = false -> 1 = 0 + 1).
Proof.
  apply (returned_bracket_is_inside_the_table ThermistorEntry sample_lut 75000
           resistance_x10 3 AUTO
           {| lowerIdx := 0; upperIdx := 1; exactIdx := SIZE_MAX;
              foundExact := false; outOfRange := false; clamped := false |}).
  - unfold array_size, SIZE_MAX. simpl. lia.
  - reflexivity.
Defined.

(** ** [binarySearchLut] on a sorted table *)

Lemma binarySearchLut_postcondition {Entry : Type} (lut : list Entry) (proj : Entry -> Z)
      (o hint : LutOrder) (target : Z) (fuel : nat) (b : LutBracket) :
  sorted_as o (map proj lut) = true ->
  hint = o \/ hint = AUTO ->
  2 <= array_size lut <= 32767 ->
  array_size lut + 1 <= Z.of_nat fuel ->
  binarySearchLut lut target proj fuel hint = Done b ->
  (foundExact b = true /\ outOfRange b = false /\ clamped b = false /\
   exists e, nth_error lut (Z.to_nat (exactIdx b)) = Some e /\ proj e = target) \/
  (foundExact b = false /\
   exists el eu,
     nth_error lut (Z.to_nat (lowerIdx b)) = Some el /\
     nth_error lut (Z.to_nat (upperIdx b)) = Some eu /\
     before o (proj el) target /\
     ((clamped b = false /\ outOfRange b = false /\ before o target (proj eu)) \/
      (clamped b = true /\ outOfRange b = true /\
       upperIdx b = array_size lut - 1 /\ before o (proj eu) target))).
Proof.
  intros Hs Hhint Hfit Hfuel Hdone.
  destruct lut as [|e0 tl]; [unfold array_size in Hfit; simpl in Hfit; lia|].
  assert (Hfit' : array_size (e0 :: tl) <= SIZE_MAX) by (unfold SIZE_MAX; lia).
  destruct (before_total o target (proj e0)) as [Hb|Hnb].
  { destruct (binarySearchLut_beyond_first (e0 :: tl) proj o hint target e0
                Hs Hhint Hfit eq_refl Hb fuel) as [Hret _].
    rewrite Hdone in Hret. discriminate. }
  assert (Hnot : ~ before o target (proj e0)).
  { destruct Hnb as [->|Hnb]; [apply before_irrefl|now apply before_asym]. }
  destruct (locate_target proj o target tl e0 Hnot)
    as [[i [e [Hi [He Hk]]]]|[[eN [HN Hb]]|[i [ei [ej [Hi [Hei [Hej [Hb1 Hb2]]]]]]]]].
  - left. rewrite <- Hk in Hdone.
    rewrite (binarySearchLut_exact (e0 :: tl) proj o hint i e fuel) in Hdone;
      try assumption; [|lia].
    injection Hdone as <-. cbn. repeat split. exists e. split; assumption.
  - right.
    rewrite (binarySearchLut_beyond_last (e0 :: tl) proj o hint target eN fuel) in Hdone;
      try assumption; [|lia|lia].
    injection Hdone as <-. cbn [high_edge_bracket foundExact lowerIdx upperIdx clamped outOfRange].
    split; [reflexivity|].
    destruct (at_index_inside (e0 :: tl) (array_size (e0 :: tl) - 2)) as [el [Hel _]]; [lia|].
    exists el, eN. split; [assumption|]. split; [assumption|]. split.
    + apply (before_trans o _ (proj eN)); [|assumption].
      apply (key_order (e0 :: tl) proj o Hs (array_size (e0 :: tl) - 2)
               (array_size (e0 :: tl) - 1)); [lia|assumption|assumption].
    + right. repeat split. assumption.
  - right.
    rewrite (binarySearchLut_between (e0 :: tl) proj o hint target i ei ej fuel) in Hdone;
      try assumption; [|lia].
    injection Hdone as <-. cbn. split; [reflexivity|].
    exists ei, ej. split; [assumption|]. split; [assumption|]. split; [assumption|].
    left. repeat split. assumption.
Qed.

(** X2.  On a strictly monotonic table of 2 to 32767 entries, searched in
    its own order or with the order detected, a bracket that is returned
    tells where the target is: an exact bracket holds an entry whose key is
    the target; a bracket that is neither exact nor clamped holds two
    neighbours with the target strictly between their keys; a clamped
    bracket ends on the last entry and the target lies beyond it. *)
Theorem returned_bracket_locates_the_target :
  forall (Entry : Type) (lut : list Entry) (proj : Entry -> Z) (o hint : LutOrder)
         (target : Z) (fuel : nat) (b : LutBracket),
    sorted_as o (map proj lut) = true ->
    hint = o \/ hint = AUTO ->
    2 <= array_size lut <= 32767 ->
    array_size lut + 1 <= Z.of_nat fuel ->
    binarySearchLut lut target proj fuel hint = Done b ->
    (foundExact b = true /\ outOfRange b = false /\ clamped b = false /\
     exists e, nth_error lut (Z.to_nat (exactIdx b)) = Some e /\ proj e = target) \/
    (foundExact b = false /\
     exists el eu,
       nth_error lut (Z.to_nat (lowerIdx b)) = Some el /\
       nth_error lut (Z.to_nat (upperIdx b)) = Some eu /\
       before o (proj el) target /\
       ((clamped b = false /\ outOfRange b = false /\ before o target (proj eu)) \/
        (clamped b = true /\ outOfRange b = true /\
         upperIdx b = array_size lut - 1 /\ before o (proj eu) target))).
Proof.
  intros. now apply (binarySearchLut_postcondition lut proj o hint target fuel b).
Qed.

Lemma returned_bracket_locates_the_target_witness :
  exists el eu,
    nth_error sample_lut 0 = Some el /\ nth_error sample_lut 1 = Some eu /\
    resistance_x10 eu < 75000 < resistance_x10 el.
Proof.
  destruct (returned_bracket_locates_the_target ThermistorEntry sample_lut resistance_x10
              DECREASING AUTO 75000 4
              {| lowerIdx := 0; upperIdx := 1; exactIdx := SIZE_MAX;
                 foundExact := false; outOfRange := false; clamped := false |})
    as [[Hexact _]|[_ [el [eu [Hl [Hu [Hlow [[_ [_ Hhigh]]|[Hclamped _]]]]]]]]].
  - reflexivity.
  - right. reflexivity.
  - unfold array_size. simpl. lia.
  - unfold array_size. simpl. lia.
  - reflexivity.
  - discriminate Hexact.
  - exists el, eu. simpl in Hlow, Hhigh. split; [exact Hl|]. split; [exact Hu|]. lia.
  - discriminate Hclamped.
Defined.

(** X3.  On a strictly monotonic table of 2 to 32767 entries, with enough
    fuel, [binarySearchLut] returns a bracket exactly for the targets that
    do not come before the first key in the table's order; for every other
    target the call does not return. *)
Theorem search_returns_unless_before_first :
  forall (Entry : Type) (lut : list Entry) (proj : Entry -> Z) (o hint : LutOrder)
         (target : Z) (e0 : Entry) (fuel : nat),
    sorted_as o (map proj lut) = true ->
    hint = o \/ hint = AUTO ->
    2 <= array_size lut <= 32767 ->
    nth_error lut 0 = Some e0 ->
    array_size lut + 1 <= Z.of_nat fuel ->
    returns (binarySearchLut lut target proj fuel hint) = true <->
    ~ before o target (proj e0).
Proof.
  intros. now apply binarySearchLut_returns_iff.
Qed.

Lemma search_returns_unless_before_first_witness :
  returns (binarySearchLut sample_lut 999 resistance_x10 4 DECREASING) = true.
Proof.
  apply (search_returns_unless_before_first ThermistorEntry sample_lut resistance_x10
           DECREASING DECREASING 999
           {| resistance_x10 := 1000000; temperature_x10 := -400 |} 4%nat).
  - reflexivity.
  - left. reflexivity.
  - unfold array_size. simpl. lia.
  - reflexivity.
  - unfold array_size. simpl. lia.
  - simpl. lia.
Defined.

(** ** [binarySearchLut] on a table of one entry *)

(** X4.  On a table of a single entry whose key is not the target, the
    search never gives a bracket inside the table: either it returns the
    clamped bracket with [lowerIdx = SIZE_MAX] ([N - 2] wraps) and
    [upperIdx = 0], or it reads the table at index 32767. *)
Theorem single_entry_table_has_no_valid_bracket :
  forall (Entry : Type) (e : Entry) (proj : Entry -> Z) (target : Z)
         (order : LutOrder) (fuel : nat),
    proj e <> target ->
    (2 <= fuel)%nat ->
    binarySearchLut [e] target proj fuel order
    = Done {| lowerIdx := SIZE_MAX; upperIdx := 0; exactIdx := SIZE_MAX;
              foundExact := false; outOfRange := true; clamped := true |} \/
    binarySearchLut [e] target proj fuel order = OutOfBounds 32767.
Proof.
  intros Entry e proj target order fuel Hne Hfuel.
  destruct fuel as [|[|fuel]]; try lia.
  assert (Eres : exists o', resolve_order [e] proj order = Done o').
  { destruct order; cbn; eauto. }
  destruct Eres as [o' Eo].
  unfold binarySearchLut. rewrite Eo. cbn [bind].
  change (to_size_t (array_size [e] - 1)) with 0.
  cbn [search_loop]. change (0 <=? 0) with true. cbv iota.
  change (to_size_t (0 + to_size_t (0 - 0) / 2)) with 0.
  change (at_index [e] 0) with (Done e). cbn [bind].
  destruct (Z.eqb_spec (proj e) target) as [E|_]; [contradiction|].
  destruct (goLeft_of target o' (proj e)).
  - right. change (to_size_t (0 - 1)) with 65535.
    change (0 <=? 65535) with true. cbv iota.
    change (to_size_t (0 + to_size_t (65535 - 0) / 2)) with 32767.
    reflexivity.
  - left. change (to_size_t (0 + 1)) with 1.
    destruct fuel; reflexivity.
Qed.

Lemma single_entry_table_has_no_valid_bracket_witness :
  binarySearchLut [7] 9 (fun k => k) 2 AUTO
  = Done {| lowerIdx := SIZE_MAX; upperIdx := 0; exactIdx := SIZE_MAX;
            foundExact := false; outOfRange := true; clamped := true |} \/
  binarySearchLut [7] 9 (fun k => k) 2 AUTO = OutOfBounds 32767.
Proof.
  apply (single_entry_table_has_no_valid_bracket Z 7 (fun k => k) 9 AUTO 2).
  - lia.
  - lia.
Defined.

(** ** The number of iterations *)

Lemma search_loop_fuel_mono {Entry : Type} (lut : list Entry) (target : Z)
      (proj : Entry -> Z) (o : LutOrder) :
  forall (fuel extra : nat) (left right : Z),
    search_loop lut target proj fuel o left right <> OutOfFuel ->
    search_loop lut target proj (fuel + extra) o left right
    = search_loop lut target proj fuel o left right.
Proof.
  induction fuel as [|fuel IH]; intros extra left right Hne.
  - cbn [search_loop] in *. destruct (left <=? right) eqn:E; [congruence|].
    destruct extra; cbn [Nat.add search_loop]; now rewrite E.
  - cbn [Nat.add search_loop] in *.
    destruct (left <=? right); [|reflexivity].
    destruct (at_index lut _) as [em| | |]; cbn [bind] in *; try reflexivity.
    destruct (proj em =? target); [reflexivity|].
    destruct (goLeft_of target o (proj em)); now apply IH.
Qed.

(** Each iteration at least halves the distance between the bounds, and
    the iteration after a wrap of [right] reads outside the table. *)
Lemma search_loop_halves {Entry : Type} (lut : list Entry) (target : Z)
      (proj : Entry -> Z) (o : LutOrder) :
  array_size lut <= 32767 ->
  forall (k : nat) (left right : Z),
    0 <= left -> right < array_size lut ->
    right - left + 1 < 2 ^ Z.of_nat k ->
    search_loop lut target proj (S k) o left right <> OutOfFuel.
Proof.
  intros Hfit.
  induction k as [|k IH]; intros left right Hl Hr Hsize.
  - change (2 ^ Z.of_nat 0) with 1 in Hsize. cbn [search_loop].
    destruct (Z.leb_spec left right); [lia|discriminate].
  - rewrite Nat2Z.inj_succ, Z.pow_succ_r in Hsize by lia.
    set (P := 2 ^ Z.of_nat k) in *.
    cbn [search_loop]. fold (search_loop lut target proj (S k) o).
    destruct (Z.leb_spec left right) as [Hlr|Hlr]; [|discriminate].
    assert (Emid : to_size_t (left + to_size_t (right - left) / 2)
                   = left + (right - left) / 2).
    { rewrite (to_size_t_small (right - left)) by (unfold SIZE_MAX; lia).
      rewrite to_size_t_small by (unfold SIZE_MAX; lia). reflexivity. }
    rewrite Emid. set (mid := left + (right - left) / 2) in *.
    destruct (at_index_inside lut mid) as [em [_ Eem]]; [lia|].
    rewrite Eem. cbn [bind].
    destruct (proj em =? target); [discriminate|].
    destruct (goLeft_of target o (proj em)).
    + destruct (Z.eq_dec mid 0) as [E0|Hpos].
      * assert (left = 0) by lia. subst left.
        rewrite E0. change (to_size_t (0 - 1)) with 65535.
        cbn [search_loop]. change (0 <=? 65535) with true. cbv iota.
        change (to_size_t (0 + to_size_t (65535 - 0) / 2)) with 32767.
        rewrite at_index_outside by lia. discriminate.
      * rewrite to_size_t_small by (unfold SIZE_MAX; lia).
        apply IH; lia.
    + rewrite to_size_t_small by (unfold SIZE_MAX; lia).
      apply IH; lia.
Qed.

Lemma resolve_order_has_fuel {Entry : Type} (lut : list Entry) (proj : Entry -> Z)
      (order : LutOrder) :
  resolve_order lut proj order <> OutOfFuel.
Proof.
  unfold resolve_order. destruct order; try discriminate.
  destruct (array_size lut <? 2); [discriminate|].
  unfold at_index.
  destruct (0 <? 0); [discriminate|].
  destruct (nth_error lut (Z.to_nat 0)); [|discriminate]. cbn [bind].
  destruct (1 <? 0); [discriminate|].
  destruct (nth_error lut (Z.to_nat 1)); discriminate.
Qed.

(** X5.  The search is logarithmic: on any table of [N <= 32767] entries
    with [N < 2^k] (sorted or not, any target, any order), [k + 1]
    iterations of the loop are enough; more fuel never changes the
    outcome.  In particular 16 iterations suffice for every table. *)
Theorem search_needs_logarithmic_fuel :
  forall (Entry : Type) (lut : list Entry) (target : Z) (proj : Entry -> Z)
         (order : LutOrder) (k fuel : nat),
    1 <= array_size lut <= 32767 ->
    array_size lut < 2 ^ Z.of_nat k ->
    (k < fuel)%nat ->
    binarySearchLut lut target proj (S k) order <> OutOfFuel /\
    binarySearchLut lut target proj fuel order
    = binarySearchLut lut target proj (S k) order.
Proof.
  intros Entry lut target proj order k fuel Hfit Hk Hfuel.
  pose proof (resolve_order_has_fuel lut proj order) as Hres.
  assert (Hloop : forall o', search_loop lut target proj (S k) o' 0
                               (to_size_t (array_size lut - 1)) <> OutOfFuel).
  { intros o'. rewrite to_size_t_small by (unfold SIZE_MAX; lia).
    apply search_loop_halves; lia. }
  unfold binarySearchLut.
  destruct (resolve_order lut proj order) as [o'| | |]; cbn [bind];
    try (split; [discriminate|reflexivity]); [|contradiction].
  replace fuel with (S k + (fuel - S k))%nat by lia.
  rewrite search_loop_fuel_mono by apply Hloop.
  split; [|reflexivity].
  specialize (Hloop o').
  destruct (search_loop lut target proj (S k) o' 0 (to_size_t (array_size lut - 1)))
    as [[res|l r]| | |]; cbn [bind]; try discriminate. contradiction.
Qed.

Lemma search_needs_logarithmic_fuel_witness :
  binarySearchLut sample_lut 75000 resistance_x10 3 AUTO <> OutOfFuel /\
  binarySearchLut sample_lut 75000 resistance_x10 16 AUTO
  = binarySearchLut sample_lut 75000 resistance_x10 3 AUTO.
Proof.
  apply (search_needs_logarithmic_fuel ThermistorEntry sample_lut 75000 resistance_x10
           AUTO 2 16).
  - unfold array_size. simpl. lia.
  - unfold array_size. simpl. lia.
  - lia.
Defined.

(** ** [applyLinearInterpolation] on typed arguments *)

(** The clamp of [applyLinearInterpolation] on a table whose first and
    last temperatures are 16-bit values: it returns, and what it returns
    fits 16 bits whenever the value either lies within the bounds used or
    is replaced by one of them. *)
Lemma clamp_to_lut_fits (NTC_LUT : list ThermistorEntry) (first last : ThermistorEntry)
      (value : Z) :
  1 <= array_size NTC_LUT <= SIZE_MAX ->
  nth_error NTC_LUT 0 = Some first ->
  nth_error NTC_LUT (Z.to_nat (array_size NTC_LUT - 1)) = Some last ->
  is_int16 (temperature_x10 first) -> is_int16 (temperature_x10 last) ->
  exists t, clamp_to_lut NTC_LUT value = Done t /\ is_int16 t.
Proof.
  intros Hsize Hfirst Hlast Rf Rl. unfold clamp_to_lut, NTC_LUT_SIZE.
  change (Sensors.LUT_TEMPERATURE_MIN_C * 10) with (-400).
  change (Sensors.LUT_TEMPERATURE_MAX_C * 10) with 400.
  unfold is_int16 in *.
  destruct (Z.ltb_spec value (-400)) as [Hlo|Hlo];
    [|destruct (Z.gtb_spec value 400) as [Hhi|Hhi]]; cbn [orb].
  3: { exists value. split; [reflexivity|lia]. }
  all: rewrite to_size_t_small by (unfold SIZE_MAX in *; lia);
    rewrite (at_index_nth NTC_LUT _ last) by (lia || assumption);
    rewrite (at_index_nth NTC_LUT 0 first) by (lia || assumption);
    cbn [bind]; rewrite !to_int64_small by lia;
    eexists; (split; [reflexivity|]); unfold math.clamp;
    destruct (Z.ltb_spec value (temperature_x10 last));
    [lia|destruct (Z.gtb_spec value (temperature_x10 first)); lia].
Qed.

(** X6.  On a table that is not empty and whose first and last
    temperatures are 16-bit values, [applyLinearInterpolation] returns for
    all arguments of its instantiated types (32-bit unsigned keys and
    target, 16-bit signed values whose difference fits 16 bits) and none of
    its arithmetic leaves its integer range.  For equal keys it returns
    [t_cold].  For distinct keys the unsigned [delta_r] is not 0 (no
    division by zero); the product [delta_t * delta_r_measured], the
    quotient and the sum fit 64 bits, so that the value before the clamp is
    exactly [t_cold + delta_t * delta_r_measured / delta_r] (truncating
    division); the clamp reads the table within its bounds; and the value
    narrowed to 16 bits at the end already fits 16 bits, so that the result
    is the clamped value itself. *)
Theorem interpolation_always_returns :
  forall (NTC_LUT : list ThermistorEntry) (first last : ThermistorEntry)
         (r_measured r_cold r_hot t_cold t_hot : Z),
    1 <= array_size NTC_LUT <= SIZE_MAX ->
    nth_error NTC_LUT 0 = Some first ->
    nth_error NTC_LUT (Z.to_nat (array_size NTC_LUT - 1)) = Some last ->
    is_int16 (temperature_x10 first) -> is_int16 (temperature_x10 last) ->
    is_uint32 r_measured -> is_uint32 r_cold -> is_uint32 r_hot ->
    is_int16 t_cold -> is_int16 t_hot -> is_int16 (t_hot - t_cold) ->
    (r_cold = r_hot ->
     applyLinearInterpolation NTC_LUT r_measured r_cold r_hot t_cold t_hot = Done t_cold) /\
    (r_cold <> r_hot ->
     let delta_r := to_uint32 (r_cold - r_hot) in
     let delta_r_measured := to_uint32 (r_cold - r_measured) in
     let product := (t_hot - t_cold) * delta_r_measured in
     let value := t_cold + Z.quot product delta_r in
     delta_r <> 0 /\
     is_int64 product /\ is_int64 (Z.quot product delta_r) /\ is_int64 value /\
     t_interpolated_x10 r_measured r_cold r_hot t_cold t_hot = Done value /\
     exists t,
       clamp_to_lut NTC_LUT value = Done t /\ is_int16 t /\
       applyLinearInterpolation NTC_LUT r_measured r_cold r_hot t_cold t_hot = Done t).
Proof.
  intros NTC_LUT first last r_measured r_cold r_hot t_cold t_hot
         Hsize Hfirst Hlast Rf Rl Hm Hc Hh Htc Hth Hdt.
  split.
  - intros ->. unfold applyLinearInterpolation. now rewrite Z.eqb_refl.
  - intros Hne delta_r delta_r_measured product value.
    pose proof (t_interpolated_x10_value r_measured r_cold r_hot t_cold t_hot
                  Hc Hh Hne Htc) as Ev.
    rewrite (to_int16_small (t_hot - t_cold)) in Ev by assumption.
    fold delta_r delta_r_measured product value in Ev.
    pose proof (to_uint32_diff_nonzero r_cold r_hot Hc Hh Hne) as Hnz.
    pose proof (to_uint32_range (r_cold - r_hot)) as Hdr.
    pose proof (to_uint32_range (r_cold - r_measured)) as Hdm.
    fold delta_r in Hnz, Hdr. fold delta_r_measured in Hdm.
    unfold is_uint32, is_int16 in Hdr, Hdm, Hdt, Htc.
    assert (Hprod : - 140737488355328 <= product <= 140737488355328)
      by (subst product; nia).
    pose proof (quot_bounded product delta_r 140737488355328 ltac:(lia) Hprod) as Hq.
    destruct (clamp_to_lut_fits NTC_LUT first last value Hsize Hfirst Hlast Rf Rl)
      as [t [Ec Ht]].
    split; [exact Hnz|].
    split; [unfold is_int64; lia|].
    split; [unfold is_int64; lia|].
    split; [unfold is_int64; subst value; lia|].
    split; [exact Ev|].
    exists t. split; [exact Ec|]. split; [exact Ht|].
    unfold applyLinearInterpolation.
    destruct (Z.eqb_spec r_cold r_hot) as [E|_]; [contradiction|].
    rewrite Ev. cbn [bind]. rewrite Ec. cbn [bind].
    now rewrite to_int16_small.
Qed.

Lemma interpolation_always_returns_witness :
  is_int64 (100 * to_uint32 (10 - 15)) /\
  t_interpolated_x10 15 10 20 0 100 = Done 100 /\
  applyLinearInterpolation sample_lut 15 10 20 0 100 = Done 100.
Proof.
  assert (Hne : 10 <> 20) by lia.
  destruct (proj2 (interpolation_always_returns sample_lut
                     {| resistance_x10 := 1000000; temperature_x10 := -400 |}
                     {| resistance_x10 := 10000; temperature_x10 := 400 |}
                     15 10 20 0 100
                     ltac:(unfold array_size, SIZE_MAX; simpl; lia)
                     eq_refl eq_refl
                     ltac:(unfold is_int16; simpl; lia)
                     ltac:(unfold is_int16; simpl; lia)
                     ltac:(unfold is_uint32; lia)
                     ltac:(unfold is_uint32; lia)
                     ltac:(unfold is_uint32; lia)
                     ltac:(unfold is_int16; lia)
                     ltac:(unfold is_int16; lia)
                     ltac:(unfold is_int16; lia)) Hne)
    as [_ [Hp [_ [_ [Ev [t [Ec [_ Ea]]]]]]]].
  split; [exact Hp|]. split; [exact Ev|].
  assert (Et : t = 100) by (vm_compute in Ec; congruence).
  rewrite Ea, Et. reflexivity.
Defined.

Lemma interpolated_value_monotone (dt d m1 m2 : Z) :
  0 < d -> 0 <= dt -> 0 <= m1 <= m2 -> m2 <= d ->
  0 <= Z.quot (dt * m1) d /\ Z.quot (dt * m1) d <= Z.quot (dt * m2) d /\
  Z.quot (dt * m2) d <= dt.
Proof.
  intros Hd Hdt Hm Hm2.
  rewrite !Z.quot_div_nonneg by nia.
  split; [apply Z.div_pos; nia|]. split.
  - apply Z.div_le_mono; nia.
  - apply Z.div_le_upper_bound; nia.
Qed.

Lemma applyLinearInterpolation_monotone :
  forall (NTC_LUT : list ThermistorEntry) (r1 r2 r_cold r_hot t_cold t_hot : Z),
    is_uint32 r_cold -> 0 <= r_hot -> r_hot < r_cold ->
    r_hot <= r1 -> r1 <= r2 -> r2 <= r_cold ->
    -400 <= t_cold -> t_cold <= t_hot -> t_hot <= 400 ->
    exists t1 t2,
      applyLinearInterpolation NTC_LUT r1 r_cold r_hot t_cold t_hot = Done t1 /\
      applyLinearInterpolation NTC_LUT r2 r_cold r_hot t_cold t_hot = Done t2 /\
      t_cold <= t2 /\ t2 <= t1 /\ t1 <= t_hot.
Proof.
  intros NTC_LUT r1 r2 rc rh tc th Hc Hh Hlt H1 H12 H2 Htc Hth Hth'.
  unfold is_uint32 in Hc.
  pose proof (interpolated_value_monotone (th - tc) (rc - rh) (rc - r2) (rc - r1)
                ltac:(lia) ltac:(lia) ltac:(lia) ltac:(lia)) as [Q0 [Q1 Q2]].
  exists (tc + Z.quot ((th - tc) * (rc - r1)) (rc - rh)),
         (tc + Z.quot ((th - tc) * (rc - r2)) (rc - rh)).
  split; [|split].
  - apply (applyLinearInterpolation_descending NTC_LUT r1 rc rh tc th);
      unfold is_uint32, is_int16; lia.
  - apply (applyLinearInterpolation_descending NTC_LUT r2 rc rh tc th);
      unfold is_uint32, is_int16; lia.
  - lia.
Qed.

(** X7.  Within a bracket of descending keys whose values rise from
    [t_cold] to [t_hot], both within -400 .. 400, the interpolated
    temperature does not rise when the resistance rises, and it stays
    between the two values. *)
Theorem interpolation_is_monotone :
  forall (NTC_LUT : list ThermistorEntry) (r1 r2 r_cold r_hot t_cold t_hot : Z),
    is_uint32 r_cold -> 0 <= r_hot -> r_hot < r_cold ->
    r_hot <= r1 -> r1 <= r2 -> r2 <= r_cold ->
    -400 <= t_cold -> t_cold <= t_hot -> t_hot <= 400 ->
    exists t1 t2,
      applyLinearInterpolation NTC_LUT r1 r_cold r_hot t_cold t_hot = Done t1 /\
      applyLinearInterpolation NTC_LUT r2 r_cold r_hot t_cold t_hot = Done t2 /\
      t_cold <= t2 /\ t2 <= t1 /\ t1 <= t_hot.
Proof.
  intros. now apply applyLinearInterpolation_monotone.
Qed.

Lemma interpolation_is_monotone_witness :
  exists t1 t2,
    applyLinearInterpolation sample_lut 60000 1000000 50000 (-400) 250 = Done t1 /\
    applyLinearInterpolation sample_lut 75000 1000000 50000 (-400) 250 = Done t2 /\
    -400 <= t2 /\ t2 <= t1 /\ t1 <= 250.
Proof.
  apply (interpolation_is_monotone sample_lut 60000 75000 1000000 50000 (-400) 250).
  - unfold is_uint32. lia.
  - lia.
  - lia.
  - lia.
  - lia.
  - lia.
  - lia.
  - lia.
  - lia.
Defined.

(** ** [convertToTemperature_x10] on a well-formed table *)

Lemma well_formed_lut_entry (l : list ThermistorEntry) (e : ThermistorEntry) :
  well_formed_lut l = true -> In e l ->
  0 < resistance_x10 e <= 4294967295 /\ -400 <= temperature_x10 e <= 400.
Proof.
  unfold well_formed_lut. intros H Hin.
  apply andb_true_iff in H. destruct H as [Hall _].
  rewrite forallb_forall in Hall. specialize (Hall e Hin).
  unfold well_formed_entry in Hall.
  change (Sensors.LUT_TEMPERATURE_MIN_C * 10) with (-400) in Hall.
  change (Sensors.LUT_TEMPERATURE_MAX_C * 10) with 400 in Hall.
  repeat (apply andb_true_iff in Hall; destruct Hall as [Hall ?]).
  apply Z.ltb_lt in Hall.
  repeat match goal with H : (_ <=? _) = true |- _ => apply Z.leb_le in H end.
  lia.
Qed.

Lemma well_formed_lut_sorted (l : list ThermistorEntry) :
  well_formed_lut l = true -> strictly_decreasing (map resistance_x10 l) = true.
Proof.
  unfold well_formed_lut. intros H. apply andb_true_iff in H. tauto.
Qed.

(** Where a resistance within calibration sits, and what is returned
    there. *)
Lemma convertToTemperature_x10_position (NTC_LUT : list ThermistorEntry)
      (fuel : nat) (r : Z) (e0 : ThermistorEntry) :
  well_formed_lut NTC_LUT = true ->
  2 <= array_size NTC_LUT <= 32767 ->
  array_size NTC_LUT + 1 <= Z.of_nat fuel ->
  nth_error NTC_LUT 0 = Some e0 ->
  0 < r <= resistance_x10 e0 ->
  exists i ei t,
    0 <= i < array_size NTC_LUT /\
    nth_error NTC_LUT (Z.to_nat i) = Some ei /\
    convertToTemperature_x10 NTC_LUT fuel r = Done t /\
    ((r = resistance_x10 ei /\ t = temperature_x10 ei) \/
     (i = array_size NTC_LUT - 1 /\ r < resistance_x10 ei /\ t = temperature_x10 ei) \/
     (exists ej,
         nth_error NTC_LUT (Z.to_nat (i + 1)) = Some ej /\
         resistance_x10 ej < r < resistance_x10 ei /\
         applyLinearInterpolation NTC_LUT r (resistance_x10 ei) (resistance_x10 ej)
           (temperature_x10 ei) (temperature_x10 ej) = Done t /\
         Z.min (temperature_x10 ei) (temperature_x10 ej) <= t
         <= Z.max (temperature_x10 ei) (temperature_x10 ej))).
Proof.
  intros Hwf Hfit Hfuel H0 Hr.
  pose proof (well_formed_lut_sorted NTC_LUT Hwf) as Hs.
  destruct NTC_LUT as [|e0' tl]; [discriminate|].
  assert (e0' = e0) by (simpl in H0; congruence). subst e0'.
  assert (Hfit' : array_size (e0 :: tl) <= SIZE_MAX) by (unfold SIZE_MAX; lia).
  assert (Hin : forall i e, nth_error (e0 :: tl) (Z.to_nat i) = Some e ->
                  0 < resistance_x10 e <= 4294967295 /\ -400 <= temperature_x10 e <= 400).
  { intros i e He. apply (well_formed_lut_entry (e0 :: tl) e Hwf).
    eapply nth_error_In; eassumption. }
  assert (Hlen : forall i e, 0 <= i -> nth_error (e0 :: tl) (Z.to_nat i) = Some e ->
                   i < array_size (e0 :: tl)).
  { intros i e Hi He.
    assert (Z.to_nat i < length (e0 :: tl))%nat by (apply nth_error_Some; congruence).
    unfold array_size. lia. }
  assert (Hnot : ~ before DECREASING r (resistance_x10 e0)) by (simpl; lia).
  destruct (locate_target resistance_x10 DECREASING r tl e0 Hnot)
    as [[i [e [Hi [He Hk]]]]|[[eN [HN Hb]]|[i [ei [ej [Hi [Hei [Hej [Hb1 Hb2]]]]]]]]].
  - exists i, e, (temperature_x10 e).
    split; [split; [lia|now apply (Hlen i e)]|]. split; [assumption|]. split.
    + rewrite <- Hk.
      apply (convertToTemperature_x10_exact (e0 :: tl) i e fuel); try assumption; lia.
    + left. split; [congruence|reflexivity].
  - exists (array_size (e0 :: tl) - 1), eN, (temperature_x10 eN).
    simpl in Hb.
    split; [lia|]. split; [assumption|]. split.
    + apply convertToTemperature_x10_below_minimum; try assumption; lia.
    + right. left. repeat split. assumption.
  - simpl in Hb1, Hb2.
    destruct (Hin i ei Hei) as [Ri Ti]. destruct (Hin (i + 1) ej Hej) as [Rj Tj].
    destruct (convertToTemperature_x10_between (e0 :: tl) i r ei ej fuel) as [E Hval];
      try assumption; try (unfold is_uint32; lia).
    destruct (Hval Ti Tj) as [Edone Hbetween].
    eexists i, ei, _.
    split; [split; [lia|]|].
    { pose proof (Hlen (i + 1) ej ltac:(lia) Hej). lia. }
    split; [assumption|]. split; [exact Edone|].
    right. right. exists ej. split; [assumption|]. split; [lia|].
    split; [|exact Hbetween]. rewrite <- E. exact Edone.
Qed.

Lemma conversion_in_calibration_lemma :
  forall (NTC_LUT : list ThermistorEntry) (fuel : nat) (r : Z) (e0 : ThermistorEntry),
    well_formed_lut NTC_LUT = true ->
    2 <= array_size NTC_LUT <= 32767 ->
    array_size NTC_LUT + 1 <= Z.of_nat fuel ->
    nth_error NTC_LUT 0 = Some e0 ->
    0 < r <= resistance_x10 e0 ->
    exists t, convertToTemperature_x10 NTC_LUT fuel r = Done t /\
              -400 <= t <= 400 /\ t <> SENTINEL.
Proof.
  intros NTC_LUT fuel r e0 Hwf Hfit Hfuel H0 Hr.
  destruct (convertToTemperature_x10_position NTC_LUT fuel r e0 Hwf Hfit Hfuel H0 Hr)
    as [i [ei [t [Hi [Hei [Edone Hcase]]]]]].
  assert (Ti : -400 <= temperature_x10 ei <= 400).
  { apply (well_formed_lut_entry NTC_LUT ei Hwf). eapply nth_error_In; eassumption. }
  exists t. split; [assumption|].
  assert (Hspan : -400 <= t <= 400).
  { destruct Hcase as [[_ ->]|[[_ [_ ->]]|[ej [Hej [_ [_ Hb]]]]]]; try assumption.
    assert (Tj : -400 <= temperature_x10 ej <= 400).
    { apply (well_formed_lut_entry NTC_LUT ej Hwf). eapply nth_error_In; eassumption. }
    lia. }
  split; [assumption|]. unfold SENTINEL. lia.
Qed.

(** X8.  On a well-formed table (positive resistances in strictly
    decreasing order, temperatures within -400 .. 400, 2 to 32767 entries)
    every non-zero resistance up to the table's maximum is converted to a
    temperature within -400 .. 400: the converter returns, and what it
    returns is never the sentinel. *)
Theorem conversion_within_calibration :
  forall (NTC_LUT : list ThermistorEntry) (fuel : nat) (r : Z) (e0 : ThermistorEntry),
    well_formed_lut NTC_LUT = true ->
    2 <= array_size NTC_LUT <= 32767 ->
    array_size NTC_LUT + 1 <= Z.of_nat fuel ->
    nth_error NTC_LUT 0 = Some e0 ->
    0 < r <= resistance_x10 e0 ->
    exists t, convertToTemperature_x10 NTC_LUT fuel r = Done t /\
              -400 <= t <= 400 /\ t <> SENTINEL.
Proof.
  intros. now apply (conversion_in_calibration_lemma NTC_LUT fuel r e0).
Qed.

Lemma conversion_within_calibration_witness :
  exists t, convertToTemperature_x10 sample_lut 4 75000 = Done t /\
            -400 <= t <= 400 /\ t <> SENTINEL.
Proof.
  apply (conversion_within_calibration sample_lut 4 75000
           {| resistance_x10 := 1000000; temperature_x10 := -400 |}).
  - reflexivity.
  - unfold array_size. simpl. lia.
  - unfold array_size. simpl. lia.
  - reflexivity.
  - simpl. lia.
Defined.

(** X9.  On a well-formed table of 2 to 32767 entries the converter
    returns exactly for the resistances that do not exceed the table's
    maximum (0 included, which gives the sentinel); for every resistance above the maximum the call
    does not return. *)
Theorem conversion_returns_up_to_the_maximum :
  forall (NTC_LUT : list ThermistorEntry) (fuel : nat) (r : Z) (e0 : ThermistorEntry),
    well_formed_lut NTC_LUT = true ->
    2 <= array_size NTC_LUT <= 32767 ->
    array_size NTC_LUT + 1 <= Z.of_nat fuel ->
    nth_error NTC_LUT 0 = Some e0 ->
    0 <= r ->
    returns (convertToTemperature_x10 NTC_LUT fuel r) = true <-> r <= resistance_x10 e0.
Proof.
  intros NTC_LUT fuel r e0 Hwf Hfit Hfuel H0 Hr.
  pose proof (well_formed_lut_sorted NTC_LUT Hwf) as Hs.
  assert (R0 : 0 < resistance_x10 e0 <= 4294967295).
  { apply (well_formed_lut_entry NTC_LUT e0 Hwf). eapply nth_error_In; eassumption. }
  split.
  - intros Hret. destruct (Z_le_gt_dec r (resistance_x10 e0)) as [|Hgt]; [assumption|].
    destruct (convertToTemperature_x10_above_maximum NTC_LUT r e0 Hs Hfit H0
                ltac:(lia) ltac:(lia) fuel) as [Hfalse _].
    congruence.
  - intros Hle. destruct (Z.eq_dec r 0) as [->|Hnz]; [reflexivity|].
    destruct (convertToTemperature_x10_position NTC_LUT fuel r e0 Hwf Hfit Hfuel H0
                ltac:(lia)) as [i [ei [t [_ [_ [Edone _]]]]]].
    now rewrite Edone.
Qed.

Lemma conversion_returns_up_to_the_maximum_witness :
  returns (convertToTemperature_x10 sample_lut 4 1000000) = true.
Proof.
  apply (conversion_returns_up_to_the_maximum sample_lut 4 1000000
           {| resistance_x10 := 1000000; temperature_x10 := -400 |}).
  - reflexivity.
  - unfold array_size. simpl. lia.
  - unfold array_size. simpl. lia.
  - reflexivity.
  - lia.
  - simpl. lia.
Defined.

(** X10.  A resistance strictly between the resistances of two
    neighbouring entries of such a table is converted by the interpolation
    formula between them,
    [t_cold + (t_hot - t_cold) * (r_cold - r) / (r_cold - r_hot)] with
    truncating division, and the result lies between the two
    temperatures. *)
Theorem conversion_interpolates_between_neighbours :
  forall (NTC_LUT : list ThermistorEntry) (i r : Z) (cold hot : ThermistorEntry)
         (fuel : nat),
    well_formed_lut NTC_LUT = true ->
    array_size NTC_LUT <= SIZE_MAX ->
    0 <= i ->
    nth_error NTC_LUT (Z.to_nat i) = Some cold ->
    nth_error NTC_LUT (Z.to_nat (i + 1)) = Some hot ->
    resistance_x10 hot < r < resistance_x10 cold ->
    array_size NTC_LUT <= Z.of_nat fuel ->
    let value :=
      temperature_x10 cold +
      Z.quot ((temperature_x10 hot - temperature_x10 cold) * (resistance_x10 cold - r))
             (resistance_x10 cold - resistance_x10 hot) in
    convertToTemperature_x10 NTC_LUT fuel r = Done value /\
    Z.min (temperature_x10 cold) (temperature_x10 hot) <= value
    <= Z.max (temperature_x10 cold) (temperature_x10 hot).
Proof.
  intros NTC_LUT i r cold hot fuel Hwf Hfit Hi Hcold Hhot Hr Hfuel.
  destruct (well_formed_lut_entry NTC_LUT cold Hwf) as [Rc Tc];
    [eapply nth_error_In; eassumption|].
  destruct (well_formed_lut_entry NTC_LUT hot Hwf) as [Rh Th];
    [eapply nth_error_In; eassumption|].
  destruct (convertToTemperature_x10_between NTC_LUT i r cold hot fuel) as [_ Hval];
    try assumption; try (unfold is_uint32; lia).
  - now apply well_formed_lut_sorted.
  - exact (Hval Tc Th).
Qed.

Lemma conversion_interpolates_between_neighbours_witness :
  convertToTemperature_x10 sample_lut 3 75000 = Done 232 /\
  Z.min (-400) 250 <= 232 <= Z.max (-400) 250.
Proof.
  apply (conversion_interpolates_between_neighbours sample_lut 0 75000
           {| resistance_x10 := 1000000; temperature_x10 := -400 |}
           {| resistance_x10 := 50000; temperature_x10 := 250 |} 3).
  - reflexivity.
  - unfold array_size, SIZE_MAX. simpl. lia.
  - lia.
  - reflexivity.
  - reflexivity.
  - simpl. lia.
  - unfold array_size. simpl. lia.
Defined.

(** ** Monotonicity of the conversion *)

Lemma warming_tail (a : ThermistorEntry) (l : list ThermistorEntry) :
  warming (a :: l) = true -> warming l = true.
Proof.
  simpl. destruct l as [|b tl]; [reflexivity|].
  intros H. apply andb_true_iff in H. tauto.
Qed.

Lemma warming_head (l : list ThermistorEntry) :
  forall a b, warming (a :: l) = true -> In b l ->
              temperature_x10 a <= temperature_x10 b.
Proof.
  induction l as [|c tl IH]; intros a b Hw Hin; [destruct Hin|].
  simpl in Hw. apply andb_true_iff in Hw. destruct Hw as [Hac Htl].
  apply Z.leb_le in Hac.
  destruct Hin as [<-|Hin]; [assumption|].
  specialize (IH c b Htl Hin). lia.
Qed.

Lemma warming_nth (l : list ThermistorEntry) :
  forall (i j : nat) (a b : ThermistorEntry),
    warming l = true -> (i <= j)%nat ->
    nth_error l i = Some a -> nth_error l j = Some b ->
    temperature_x10 a <= temperature_x10 b.
Proof.
  induction l as [|c tl IH]; intros i j a b Hw Hij Ha Hb.
  - destruct i; discriminate.
  - destruct i as [|i], j as [|j]; try lia.
    + simpl in Ha, Hb. assert (a = b) by congruence. subst. lia.
    + simpl in Ha, Hb. injection Ha as <-.
      apply (warming_head tl); [assumption|]. eapply nth_error_In; eassumption.
    + simpl in Ha, Hb. apply (IH i j); try assumption; try lia.
      eapply warming_tail; eassumption.
Qed.

(** In a table of strictly decreasing resistance, a smaller resistance
    sits at a larger index. *)
Lemma index_of_smaller_resistance (NTC_LUT : list ThermistorEntry)
      (i j : Z) (ei ej : ThermistorEntry) :
  strictly_decreasing (map resistance_x10 NTC_LUT) = true ->
  0 <= i -> 0 <= j ->
  nth_error NTC_LUT (Z.to_nat i) = Some ei ->
  nth_error NTC_LUT (Z.to_nat j) = Some ej ->
  resistance_x10 ei < resistance_x10 ej -> j < i.
Proof.
  intros Hs Hi Hj Hei Hej Hlt.
  destruct (Z.lt_trichotomy i j) as [H|[H|H]]; [| |assumption].
  - pose proof (key_order NTC_LUT resistance_x10 DECREASING Hs i j ei ej
                  ltac:(lia) Hei Hej) as Hb. simpl in Hb. lia.
  - subst j. assert (ei = ej) by congruence. subst. lia.
Qed.

Lemma conversion_is_monotone_on_table (NTC_LUT : list ThermistorEntry) (fuel : nat)
      (r1 r2 : Z) (e0 : ThermistorEntry) :
  well_formed_lut NTC_LUT = true ->
  warming NTC_LUT = true ->
  2 <= array_size NTC_LUT <= 32767 ->
  array_size NTC_LUT + 1 <= Z.of_nat fuel ->
  nth_error NTC_LUT 0 = Some e0 ->
  0 < r1 -> r1 <= r2 -> r2 <= resistance_x10 e0 ->
  exists t1 t2,
    convertToTemperature_x10 NTC_LUT fuel r1 = Done t1 /\
    convertToTemperature_x10 NTC_LUT fuel r2 = Done t2 /\
    t2 <= t1.
Proof.
  intros Hwf Hw Hfit Hfuel H0 Hr1 H12 Hr2.
  pose proof (well_formed_lut_sorted NTC_LUT Hwf) as Hs.
  destruct (convertToTemperature_x10_position NTC_LUT fuel r1 e0 Hwf Hfit Hfuel H0
              ltac:(lia)) as [i1 [e1 [t1 [Hi1 [He1 [E1 C1]]]]]].
  destruct (convertToTemperature_x10_position NTC_LUT fuel r2 e0 Hwf Hfit Hfuel H0
              ltac:(lia)) as [i2 [e2 [t2 [Hi2 [He2 [E2 C2]]]]]].
  exists t1, t2. split; [assumption|]. split; [assumption|].
  (* what each position says about the resistance and the result *)
  assert (Hfacts : forall r i e t,
             0 <= i < array_size NTC_LUT ->
             nth_error NTC_LUT (Z.to_nat i) = Some e ->
             ((r = resistance_x10 e /\ t = temperature_x10 e) \/
              (i = array_size NTC_LUT - 1 /\ r < resistance_x10 e /\ t = temperature_x10 e) \/
              (exists ej,
                  nth_error NTC_LUT (Z.to_nat (i + 1)) = Some ej /\
                  resistance_x10 ej < r < resistance_x10 e /\
                  applyLinearInterpolation NTC_LUT r (resistance_x10 e) (resistance_x10 ej)
                    (temperature_x10 e) (temperature_x10 ej) = Done t /\
                  Z.min (temperature_x10 e) (temperature_x10 ej) <= t
                  <= Z.max (temperature_x10 e) (temperature_x10 ej))) ->
             r <= resistance_x10 e /\ temperature_x10 e <= t /\
             (forall ej, nth_error NTC_LUT (Z.to_nat (i + 1)) = Some ej ->
                         resistance_x10 ej < r /\ t <= temperature_x10 ej)).
  { intros r i e t Hi He [[-> ->]|[[Hlast [Hlt ->]]|[ej [Hej [Hbet [_ Hmm]]]]]].
    - split; [lia|]. split; [lia|]. intros ej Hej. split.
      + pose proof (key_order NTC_LUT resistance_x10 DECREASING Hs i (i + 1) e ej
                      ltac:(lia) He Hej) as Hb. simpl in Hb. lia.
      + apply (warming_nth NTC_LUT (Z.to_nat i) (Z.to_nat (i + 1))); try assumption. lia.
    - split; [lia|]. split; [lia|]. intros ej Hej. exfalso.
      assert (Z.to_nat (i + 1) < length NTC_LUT)%nat by (apply nth_error_Some; congruence).
      unfold array_size in *. lia.
    - assert (Hwarm : temperature_x10 e <= temperature_x10 ej).
      { apply (warming_nth NTC_LUT (Z.to_nat i) (Z.to_nat (i + 1))); try assumption. lia. }
      split; [lia|]. split; [lia|]. intros ej' Hej'.
      assert (ej' = ej) by congruence. subst ej'. lia. }
  destruct (Hfacts r1 i1 e1 t1 Hi1 He1 C1) as [U1 [L1 N1]].
  destruct (Hfacts r2 i2 e2 t2 Hi2 He2 C2) as [U2 [L2 N2]].
  (* the larger resistance does not sit further down the table *)
  assert (Hidx : i2 <= i1).
  { destruct (Z_lt_ge_dec (i1 + 1) (array_size NTC_LUT)) as [Hin|Hout]; [|lia].
    destruct (at_index_inside NTC_LUT (i1 + 1)) as [ej [Hej _]]; [lia|].
    destruct (N1 ej Hej) as [Hlow _].
    assert (i2 < i1 + 1); [|lia].
    apply (index_of_smaller_resistance NTC_LUT (i1 + 1) i2 ej e2); try assumption; lia. }
  destruct (Z.eq_dec i2 i1) as [Esame|Hdiff].
  - subst i2. assert (e2 = e1) by congruence. subst e2.
    destruct C2 as [[R2 ->]|[[Hlast2 [Hlt2 ->]]|[ej2 [Hej2 [Hbet2 [A2 _]]]]]].
    + exact L1.
    + destruct C1 as [[R1 ->]|[[_ [_ ->]]|[ej1 [Hej1 _]]]]; try lia.
      all: try (exfalso;
                assert (Z.to_nat (i1 + 1) < length NTC_LUT)%nat
                  by (apply nth_error_Some; congruence);
                unfold array_size in *; lia).
    + destruct C1 as [[R1 ->]|[[Hlast1 _]|[ej1 [Hej1 [Hbet1 [A1 _]]]]]].
      * lia.
      * exfalso.
        assert (Z.to_nat (i1 + 1) < length NTC_LUT)%nat by (apply nth_error_Some; congruence).
        unfold array_size in *. lia.
      * assert (ej1 = ej2) by congruence. subst ej1.
        destruct (well_formed_lut_entry NTC_LUT e1 Hwf) as [Rc Tc];
          [eapply nth_error_In; eassumption|].
        destruct (well_formed_lut_entry NTC_LUT ej2 Hwf) as [Rh Th];
          [eapply nth_error_In; eassumption|].
        assert (Hwarm : temperature_x10 e1 <= temperature_x10 ej2).
        { apply (warming_nth NTC_LUT (Z.to_nat i1) (Z.to_nat (i1 + 1))); try assumption. lia. }
        destruct (applyLinearInterpolation_monotone NTC_LUT r1 r2
                    (resistance_x10 e1) (resistance_x10 ej2)
                    (temperature_x10 e1) (temperature_x10 ej2))
          as [t1' [t2' [B1 [B2 [_ [Hmono _]]]]]]; unfold is_uint32; try lia.
        rewrite A1 in B1. rewrite A2 in B2.
        injection B1 as <-. injection B2 as <-. exact Hmono.
  - destruct (at_index_inside NTC_LUT (i2 + 1)) as [ej [Hej _]]; [lia|].
    destruct (N2 ej Hej) as [_ Hup].
    assert (temperature_x10 ej <= temperature_x10 e1); [|lia].
    apply (warming_nth NTC_LUT (Z.to_nat (i2 + 1)) (Z.to_nat i1)); try assumption. lia.
Qed.

(** X11.  On a well-formed table whose temperatures do not decrease along
    the table, the conversion is monotone over the whole calibrated range:
    of two non-zero resistances up to the table's maximum, the larger one
    is never converted to the higher temperature. *)
Theorem conversion_is_monotone :
  forall (NTC_LUT : list ThermistorEntry) (fuel : nat) (r1 r2 : Z) (e0 : ThermistorEntry),
    well_formed_lut NTC_LUT = true ->
    warming NTC_LUT = true ->
    2 <= array_size NTC_LUT <= 32767 ->
    array_size NTC_LUT + 1 <= Z.of_nat fuel ->
    nth_error NTC_LUT 0 = Some e0 ->
    0 < r1 -> r1 <= r2 -> r2 <= resistance_x10 e0 ->
    exists t1 t2,
      convertToTemperature_x10 NTC_LUT fuel r1 = Done t1 /\
      convertToTemperature_x10 NTC_LUT fuel r2 = Done t2 /\
      t2 <= t1.
Proof.
  intros. now apply (conversion_is_monotone_on_table NTC_LUT fuel r1 r2 e0).
Qed.

Lemma conversion_is_monotone_witness :
  exists t1 t2,
    convertToTemperature_x10 sample_lut 4 20000 = Done t1 /\
    convertToTemperature_x10 sample_lut 4 75000 = Done t2 /\
    t2 <= t1.
Proof.
  apply (conversion_is_monotone sample_lut 4 20000 75000
           {| resistance_x10 := 1000000; temperature_x10 := -400 |}).
  - reflexivity.
  - reflexivity.
  - unfold array_size. simpl. lia.
  - unfold array_size. simpl. lia.
  - reflexivity.
  - lia.
  - lia.
  - simpl. lia.
Defined.

(** ** [convertToResistance_x10] *)

Lemma to_uint16_range (x : Z) : is_uint16 (to_uint16 x).
Proof.
  unfold to_uint16, wrap_unsigned, is_uint16. change (2 ^ 16) with 65536.
  pose proof (Z.mod_pos_bound x 65536). lia.
Qed.

Lemma fixedResistor_of_new (pullup_Ohms : Z) :
  is_uint16 pullup_Ohms ->
  let R := fixedResistor_ (VoltageDividerResistanceConverter.new pullup_Ohms) in
  0 < R <= 65535 /\ (pullup_Ohms = 0 -> R = 12700) /\ (pullup_Ohms <> 0 -> R = pullup_Ohms).
Proof.
  unfold is_uint16, VoltageDividerResistanceConverter.new. cbn [fixedResistor_].
  change Sensors.PULLUP_FIXED_RESISTOR_OHMS with 12700.
  destruct (Z.eqb_spec pullup_Ohms 0); lia.
Qed.

(** X12.  For a 16-bit raw value, [convertToResistance_x10] divides by
    zero exactly at the full-scale reading 1023, whatever the divider
    resistor; every other raw value gives a result. *)
Theorem division_by_zero_only_at_full_scale :
  forall (self : VoltageDividerResistanceConverter.t) (adc_raw : Z),
    is_uint16 adc_raw ->
    (convertToResistance_x10 self adc_raw = DivisionByZero <-> adc_raw = 1023) /\
    (adc_raw <> 1023 -> exists r, convertToResistance_x10 self adc_raw = Done r).
Proof.
  intros self adc_raw Hraw. unfold is_uint16 in Hraw.
  unfold convertToResistance_x10. change Adc.MAX_VALUE with 1023.
  destruct (Z.eqb_spec adc_raw 0) as [E0|N0]; cbn [orb].
  { split; [split; [discriminate|lia]|]. intros _. now exists 0. }
  destruct (Z.gtb_spec adc_raw 1023) as [Hgt|Hle].
  { split; [split; [discriminate|lia]|]. intros _. now exists 0. }
  rewrite (to_uint16_small (1023 - adc_raw)) by (unfold is_uint16; lia).
  rewrite (to_uint32_small (1023 - adc_raw)) by (unfold is_uint32; lia).
  destruct (Z.eqb_spec (1023 - adc_raw) 0) as [E|N].
  - split; [split; [lia|reflexivity]|]. intros H. lia.
  - split; [split; [discriminate|lia]|]. intros _. eexists. reflexivity.
Qed.

Lemma division_by_zero_only_at_full_scale_witness :
  exists r, convertToResistance_x10 (VoltageDividerResistanceConverter.new 12700) 1022
            = Done r.
Proof.
  apply (division_by_zero_only_at_full_scale (VoltageDividerResistanceConverter.new 12700) 1022).
  - unfold is_uint16. lia.
  - lia.
Defined.

(** X13.  For a raw value strictly between 0 and 1023 and a 16-bit divider
    resistor, the result is [raw * R * 10 / (1023 - raw)] exactly, where
    [R] is the resistor given to the constructor, or 12700 when 0 was
    given: the 32-bit product does not wrap and the result fits 32
    bits. *)
Theorem resistance_of_an_interior_reading :
  forall pullup_Ohms adc_raw : Z,
    is_uint16 pullup_Ohms -> 0 < adc_raw < 1023 ->
    let R := if pullup_Ohms =? 0 then 12700 else pullup_Ohms in
    convertToResistance_x10 (VoltageDividerResistanceConverter.new pullup_Ohms) adc_raw
    = Done (adc_raw * R * 10 / (1023 - adc_raw)) /\
    is_uint32 (adc_raw * R * 10 / (1023 - adc_raw)).
Proof.
  intros pullup_Ohms adc_raw Hp Hraw R.
  pose proof (convertToResistance_x10_interior pullup_Ohms adc_raw Hp Hraw) as E.
  cbv zeta in E. split; [exact E|].
  assert (HR : 0 < R <= 65535).
  { subst R. unfold is_uint16 in Hp. destruct (Z.eqb_spec pullup_Ohms 0); lia. }
  unfold is_uint32. split.
  - apply Z.div_pos; nia.
  - apply Z.div_le_upper_bound; nia.
Qed.

Lemma resistance_of_an_interior_reading_witness :
  convertToResistance_x10 (VoltageDividerResistanceConverter.new 0) 512 = Done 127248 /\
  is_uint32 127248.
Proof.
  apply (resistance_of_an_interior_reading 0 512).
  - unfold is_uint16. lia.
  - lia.
Defined.

Lemma interior_quotient_increases (R a1 a2 : Z) :
  103 <= R -> 0 < a1 -> a1 < a2 -> a2 < 1023 ->
  0 < a1 * R * 10 / (1023 - a1) /\
  a1 * R * 10 / (1023 - a1) < a2 * R * 10 / (1023 - a2).
Proof.
  intros HR H1 H12 H2. split.
  - apply Z.div_str_pos. nia.
  - assert (Hstep : a1 * R * 10 / (1023 - a1) + 1 <= a2 * R * 10 / (1023 - a1)).
    { replace (a1 * R * 10 / (1023 - a1) + 1)
        with ((a1 * R * 10 + 1 * (1023 - a1)) / (1023 - a1))
        by (rewrite Z.div_add by lia; reflexivity).
      apply Z.div_le_mono; nia. }
    assert (Hden : a2 * R * 10 / (1023 - a1) <= a2 * R * 10 / (1023 - a2)).
    { apply Z.div_le_compat_l; nia. }
    lia.
Qed.

(** X14.  With a divider resistor of at least 103 ohms (the default 12700,
    used when 0 is given, included), the resistance of an interior reading
    is positive and strictly increasing in the raw value. *)
Theorem resistance_is_positive_and_increasing :
  forall pullup_Ohms raw1 raw2 : Z,
    is_uint16 pullup_Ohms -> pullup_Ohms = 0 \/ 103 <= pullup_Ohms ->
    0 < raw1 -> raw1 < raw2 -> raw2 < 1023 ->
    exists r1 r2,
      convertToResistance_x10 (VoltageDividerResistanceConverter.new pullup_Ohms) raw1
      = Done r1 /\
      convertToResistance_x10 (VoltageDividerResistanceConverter.new pullup_Ohms) raw2
      = Done r2 /\
      0 < r1 /\ r1 < r2.
Proof.
  intros pullup_Ohms raw1 raw2 Hp Hbig H1 H12 H2.
  pose proof (convertToResistance_x10_interior pullup_Ohms raw1 Hp
                ltac:(change Adc.MAX_VALUE with 1023; lia)) as E1.
  pose proof (convertToResistance_x10_interior pullup_Ohms raw2 Hp
                ltac:(change Adc.MAX_VALUE with 1023; lia)) as E2.
  cbv zeta in E1, E2. change Adc.MAX_VALUE with 1023 in E1, E2.
  destruct (fixedResistor_of_new pullup_Ohms Hp) as [HR [H0 Hn]].
  set (R := fixedResistor_ (VoltageDividerResistanceConverter.new pullup_Ohms)) in *.
  assert (HR' : 103 <= R) by (destruct Hbig as [->|Hbig]; [rewrite H0; lia|rewrite Hn; lia]).
  eexists _, _. split; [exact E1|]. split; [exact E2|].
  apply interior_quotient_increases; lia.
Qed.

Lemma resistance_is_positive_and_increasing_witness :
  exists r1 r2,
    convertToResistance_x10 (VoltageDividerResistanceConverter.new 12700) 1 = Done r1 /\
    convertToResistance_x10 (VoltageDividerResistanceConverter.new 12700) 2 = Done r2 /\
    0 < r1 /\ r1 < r2.
Proof.
  apply (resistance_is_positive_and_increasing 12700 1 2).
  - unfold is_uint16. lia.
  - right. lia.
  - lia.
  - lia.
  - lia.
Defined.

(** X15.  An interior reading is converted to resistance 0, the value that
    marks an invalid reading, exactly when [raw * R * 10 < 1023 - raw]
    (which needs a divider resistor below 103 ohms). *)
Theorem interior_reading_converted_to_zero :
  forall pullup_Ohms adc_raw : Z,
    is_uint16 pullup_Ohms -> 0 < adc_raw < 1023 ->
    let R := if pullup_Ohms =? 0 then 12700 else pullup_Ohms in
    convertToResistance_x10 (VoltageDividerResistanceConverter.new pullup_Ohms) adc_raw
    = Done 0 <-> adc_raw * R * 10 < 1023 - adc_raw.
Proof.
  intros pullup_Ohms adc_raw Hp Hraw R.
  pose proof (convertToResistance_x10_interior pullup_Ohms adc_raw Hp Hraw) as E.
  cbv zeta in E. rewrite E. clear E.
  change (fixedResistor_ (VoltageDividerResistanceConverter.new pullup_Ohms)) with R.
  change Adc.MAX_VALUE with 1023.
  assert (HR : 0 < R <= 65535).
  { subst R. unfold is_uint16 in Hp. destruct (Z.eqb_spec pullup_Ohms 0); lia. }
  split.
  - intros H.
    assert (Hq : adc_raw * R * 10 / (1023 - adc_raw) = 0) by congruence.
    destruct (Z_lt_ge_dec (adc_raw * R * 10) (1023 - adc_raw)) as [|Hge]; [assumption|].
    assert (0 < adc_raw * R * 10 / (1023 - adc_raw)) by (apply Z.div_str_pos; lia).
    lia.
  - intros H. f_equal. apply Z.div_small. nia.
Qed.

Lemma interior_reading_converted_to_zero_witness :
  convertToResistance_x10 (VoltageDividerResistanceConverter.new 102) 1 = Done 0.
Proof.
  apply (interior_reading_converted_to_zero 102 1).
  - unfold is_uint16. lia.
  - lia.
  - simpl. lia.
Defined.

(** ** [AdcSampler::sample]: range, duration, steady input *)

(** X16.  Whatever configuration the sampler was constructed with and
    whatever the analog input returns, also outside its legal range,
    [sample] returns a value within 0 .. 1023. *)
Theorem sample_is_always_a_legal_raw_value :
  forall (adc_pin samples_to_average samples_to_discard settle_us : Z) (b : Board),
    is_uint8 samples_to_average -> is_uint8 samples_to_discard ->
    0 <= fst (sample (AdcSampler.new adc_pin samples_to_average samples_to_discard
                        settle_us) b) <= 1023.
Proof.
  intros adc_pin samples_to_average samples_to_discard settle_us b _ _.
  generalize (AdcSampler.new adc_pin samples_to_average samples_to_discard settle_us).
  intros self. unfold sample.
  destruct (avr_algorithms.repeat (Z.to_nat (samples_per_read_ self)) (accumulate_one self) _)
    as [accumulated b2].
  cbn [fst]. change Adc.MAX_VALUE with 1023.
  pose proof (to_uint16_range accumulated) as H1.
  pose proof (to_uint16_range
                (to_uint32 (accumulated + Z.shiftr (samples_per_read_ self) 1)
                 / samples_per_read_ self)) as H2.
  unfold is_uint16 in H1, H2.
  destruct (samples_per_read_ self =? 1).
  - destruct (Z.gtb_spec (to_uint16 accumulated) 1023); lia.
  - destruct (Z.gtb_spec
                (to_uint16 (to_uint32 (accumulated + Z.shiftr (samples_per_read_ self) 1)
                            / samples_per_read_ self)) 1023); lia.
Qed.

Lemma sample_is_always_a_legal_raw_value_witness :
  0 <= fst (sample (AdcSampler.new 14 16 4 50) step_board) <= 1023.
Proof.
  apply (sample_is_always_a_legal_raw_value 14 16 4 50 step_board).
  - unfold is_uint8. lia.
  - unfold is_uint8. lia.
Defined.

Lemma repeat_advances_board (f : Z * Board -> Z * Board) (delta : Z) :
  (forall acc b, reads (snd (f (acc, b))) = S (reads b) /\
                 micros (snd (f (acc, b))) = micros b + delta) ->
  forall (n : nat) (acc : Z) (b : Board),
    reads (snd (avr_algorithms.repeat n f (acc, b))) = (reads b + n)%nat /\
    micros (snd (avr_algorithms.repeat n f (acc, b))) = micros b + Z.of_nat n * delta.
Proof.
  intros Hstep. induction n as [|n IH]; intros acc b; cbn [avr_algorithms.repeat].
  - cbn [snd]. split; lia.
  - destruct (Hstep acc b) as [Hr Hm].
    destruct (f (acc, b)) as [acc' b'] eqn:Ef. cbn [snd] in Hr, Hm.
    destruct (IH acc' b') as [IHr IHm]. rewrite IHr, IHm, Hr, Hm. split; lia.
Qed.

Lemma settle_advances (self : AdcSampler.t) (b : Board) :
  0 < settleUs_ self ->
  reads (settle self b) = reads b /\ micros (settle self b) = micros b + settleUs_ self.
Proof.
  intros Hpos. unfold settle.
  destruct (Z.gtb_spec (settleUs_ self) 0); [|lia]. split; reflexivity.
Qed.

Lemma sample_duration (adc_pin samples_to_average samples_to_discard settle_us : Z)
      (b : Board) :
  is_uint8 samples_to_average -> is_uint8 samples_to_discard ->
  let self := AdcSampler.new adc_pin samples_to_average samples_to_discard settle_us in
  let count := if samples_to_average >? 0 then samples_to_average else 1 in
  let us := if settle_us >? 0 then settle_us else 10 in
  reads (snd (sample self b)) = (reads b + Z.to_nat (samples_to_discard + count))%nat /\
  micros (snd (sample self b)) = micros b + (samples_to_discard + count) * us.
Proof.
  intros Havg Hdisc self count us. unfold is_uint8 in Havg, Hdisc.
  assert (Hus : 0 < us) by (subst us; destruct (Z.gtb_spec settle_us 0); lia).
  assert (Hcount : 1 <= count) by (subst count; destruct (Z.gtb_spec samples_to_average 0); lia).
  assert (Hd : forall acc b0, reads (snd (discard_one self (acc, b0))) = S (reads b0) /\
                              micros (snd (discard_one self (acc, b0))) = micros b0 + us).
  { intros acc b0. unfold discard_one. cbn [analogRead snd].
    destruct (settle_advances self
                {| analog_signal := analog_signal b0; reads := S (reads b0);
                   micros := micros b0 |} Hus) as [Hr Hm].
    rewrite Hr, Hm. split; reflexivity. }
  assert (Ha : forall acc b0, reads (snd (accumulate_one self (acc, b0))) = S (reads b0) /\
                              micros (snd (accumulate_one self (acc, b0))) = micros b0 + us).
  { intros acc b0. unfold accumulate_one. cbn [analogRead snd].
    destruct (settle_advances self
                {| analog_signal := analog_signal b0; reads := S (reads b0);
                   micros := micros b0 |} Hus) as [Hr Hm].
    rewrite Hr, Hm. split; reflexivity. }
  unfold sample.
  change (discard_N_first_ self) with samples_to_discard.
  change (samples_per_read_ self) with count.
  destruct (repeat_advances_board (discard_one self) us Hd
              (Z.to_nat samples_to_discard) 0 b) as [D1 D2].
  destruct (avr_algorithms.repeat (Z.to_nat samples_to_discard) (discard_one self) (0, b))
    as [acc1 b1].
  cbn [snd] in D1, D2.
  destruct (repeat_advances_board (accumulate_one self) us Ha (Z.to_nat count) acc1 b1)
    as [A1 A2].
  destruct (avr_algorithms.repeat (Z.to_nat count) (accumulate_one self) (acc1, b1))
    as [acc2 b2].
  cbn [snd] in A1, A2 |- *. rewrite A1, A2, D1, D2. split; [lia|].
  rewrite !Z2Nat.id by lia. lia.
Qed.

(** X17.  One call of [sample] makes exactly [discard + count] calls of
    [analogRead] and waits [(discard + count) * settle] microseconds, where
    [count] is the number of samples to average (1 when 0 was given) and
    [settle] the settle time (10 when 0 was given). *)
Theorem sample_reads_and_waits :
  forall (adc_pin samples_to_average samples_to_discard settle_us : Z) (b : Board),
    is_uint8 samples_to_average -> is_uint8 samples_to_discard ->
    let self := AdcSampler.new adc_pin samples_to_average samples_to_discard settle_us in
    let count := if samples_to_average >? 0 then samples_to_average else 1 in
    let us := if settle_us >? 0 then settle_us else 10 in
    reads (snd (sample self b)) = (reads b + Z.to_nat (samples_to_discard + count))%nat /\
    micros (snd (sample self b)) = micros b + (samples_to_discard + count) * us.
Proof.
  intros. now apply sample_duration.
Qed.

Lemma sample_reads_and_waits_witness :
  reads (snd (sample (AdcSampler.new 14 16 4 50) step_board)) = 20%nat /\
  micros (snd (sample (AdcSampler.new 14 16 4 50) step_board)) = 1000.
Proof.
  apply (sample_reads_and_waits 14 16 4 50 step_board).
  - unfold is_uint8. lia.
  - unfold is_uint8. lia.
Defined.

Lemma sum_of_reads_constant (f : nat -> Z) (c : Z) (n : nat) :
  forall start : nat,
    (forall k, (k < n)%nat -> f (start + k)%nat = c) ->
    sum_of_reads f start n = Z.of_nat n * c.
Proof.
  induction n as [|n IH]; intros start H; cbn [sum_of_reads]; [lia|].
  pose proof (H 0%nat ltac:(lia)) as H0. rewrite Nat.add_0_r in H0.
  rewrite IH.
  - lia.
  - intros k Hk. replace (S start + k)%nat with (start + S k)%nat by lia. apply H. lia.
Qed.

Lemma sample_of_steady_signal (adc_pin samples_to_average samples_to_discard settle_us : Z)
      (b : Board) (level : Z) :
  is_uint8 samples_to_average -> is_uint8 samples_to_discard ->
  0 <= level <= 32767 ->
  let self := AdcSampler.new adc_pin samples_to_average samples_to_discard settle_us in
  let first := (reads b + Z.to_nat samples_to_discard)%nat in
  (forall k, (k < Z.to_nat (samples_per_read_ self))%nat ->
             analog_signal b adc_pin (first + k)%nat = level) ->
  fst (sample self b) = Z.min 1023 level.
Proof.
  intros Havg Hdisc Hlevel self first Hsig.
  destruct (sample_value adc_pin samples_to_average samples_to_discard settle_us b
              Havg Hdisc) as [Hval _].
  { intros k Hk. fold self in Hk. fold first. rewrite (Hsig k Hk). lia. }
  fold self in Hval. fold first in Hval. rewrite Hval.
  rewrite (sum_of_reads_constant _ level) by exact Hsig.
  assert (Hcount : 1 <= samples_per_read_ self <= 255).
  { subst self. cbn. unfold is_uint8 in Havg.
    destruct (Z.gtb_spec samples_to_average 0); lia. }
  rewrite Z2Nat.id by lia.
  change Adc.MAX_VALUE with 1023. f_equal. unfold rounded_mean.
  set (count := samples_per_read_ self) in *.
  destruct (Z.eqb_spec count 1) as [->|_]; [lia|].
  replace (count * level + count / 2) with (count / 2 + level * count) by lia.
  rewrite Z.div_add by lia. rewrite Z.div_small by lia. lia.
Qed.

(** X18.  When every acquisition that is averaged has the same
    non-negative value, [sample] returns that value (limited to 1023): the
    rounding of the mean adds nothing. *)
Theorem sample_of_a_steady_signal :
  forall (adc_pin samples_to_average samples_to_discard settle_us : Z)
         (b : Board) (level : Z),
    is_uint8 samples_to_average -> is_uint8 samples_to_discard ->
    0 <= level <= 32767 ->
    let self := AdcSampler.new adc_pin samples_to_average samples_to_discard settle_us in
    let first := (reads b + Z.to_nat samples_to_discard)%nat in
    (forall k, (k < Z.to_nat (samples_per_read_ self))%nat ->
               analog_signal b adc_pin (first + k)%nat = level) ->
    fst (sample self b) = Z.min 1023 level.
Proof.
  intros. now apply sample_of_steady_signal.
Qed.

Lemma sample_of_a_steady_signal_witness :
  fst (sample (AdcSampler.new 14 16 4 50) (steady_board 777)) = Z.min 1023 777.
Proof.
  apply (sample_of_a_steady_signal 14 16 4 50 (steady_board 777) 777).
  - unfold is_uint8. lia.
  - unfold is_uint8. lia.
  - lia.
  - intros k Hk. reflexivity.
Defined.

(** ** [EmaFilter::begin] once more *)

(** X19.  [begin] can be called any number of times: a second call changes
    nothing, and no call touches the stored previous value or the
    [initialize_] flag (which [begin] neither reads nor sets). *)
Theorem begin_is_idempotent :
  forall self : EmaFilter.t,
    EmaFilter.begin (EmaFilter.begin self) = EmaFilter.begin self /\
    EmaFilter.prev_value_ (EmaFilter.begin self) = EmaFilter.prev_value_ self /\
    EmaFilter.initialize_ (EmaFilter.begin self) = EmaFilter.initialize_ self.
Proof.
  intros [alpha prev init]. unfold EmaFilter.begin. cbn [EmaFilter.alpha_
    EmaFilter.prev_value_ EmaFilter.initialize_].
  destruct (EmaFilter.flt alpha (EmaFilter.FNum 0)
            || EmaFilter.fgt alpha (EmaFilter.FNum 1)) eqn:E.
  - cbn. repeat split.
  - cbn [EmaFilter.alpha_]. rewrite E. repeat split.
Qed.

(** ** [math::clamp] and [math::remap] *)

(** X20.  With bounds in order ([min <= max]) [clamp] returns a value
    within the bounds, leaves a value within the bounds unchanged and is
    idempotent.  With the bounds reversed ([max < min]) it never returns
    its argument: a value below [min] gives [min] and every other value
    gives [max]. *)
Theorem clamp_with_ordered_and_reversed_bounds :
  forall value min max : Z,
    (min <= max ->
     min <= math.clamp value min max <= max /\
     (min <= value <= max -> math.clamp value min max = value) /\
     math.clamp (math.clamp value min max) min max = math.clamp value min max) /\
    (max < min ->
     (value < min -> math.clamp value min max = min) /\
     (min <= value -> math.clamp value min max = max)).
Proof.
  intros value min max. unfold math.clamp. split; intros Hord.
  - destruct (Z.ltb_spec value min); destruct (Z.gtb_spec value max);
      repeat split; intros; try lia;
      repeat match goal with
             | |- context [?a <? ?b] => destruct (Z.ltb_spec a b); try lia
             | |- context [?a >? ?b] => destruct (Z.gtb_spec a b); try lia
             end.
  - split; intros H.
    + destruct (Z.ltb_spec value min); lia.
    + destruct (Z.ltb_spec value min); [lia|].
      destruct (Z.gtb_spec value max); lia.
Qed.

Lemma clamp_with_ordered_and_reversed_bounds_witness :
  math.clamp (-440) 400 (-400) = 400 /\ math.clamp 440 400 (-400) = -400.
Proof.
  destruct (clamp_with_ordered_and_reversed_bounds (-440) 400 (-400)) as [_ Hlow].
  destruct (clamp_with_ordered_and_reversed_bounds 440 400 (-400)) as [_ Hhigh].
  split.
  - apply Hlow; lia.
  - apply Hhigh; lia.
Defined.

Lemma to_int32_small (x : Z) : is_int32 x -> to_int32 x = x.
Proof.
  unfold to_int32, wrap_signed, is_int32. intros H.
  change (2 ^ (32 - 1)) with 2147483648. change (2 ^ 32) with 4294967296.
  rewrite Z.mod_small by lia. lia.
Qed.

Lemma to_int16_add_idemp (a b : Z) : to_int16 (a + to_int16 b) = to_int16 (a + b).
Proof.
  unfold to_int16, wrap_signed.
  change (2 ^ (16 - 1)) with 32768. change (2 ^ 16) with 65536.
  f_equal.
  replace (a + ((b + 32768) mod 65536 - 32768) + 32768)
    with (a + (b + 32768) mod 65536) by lia.
  rewrite Z.add_mod_idemp_r by lia. f_equal. lia.
Qed.

Lemma quot_bounded_any (a b M : Z) :
  b <> 0 -> - M <= a <= M -> - M <= Z.quot a b <= M.
Proof.
  intros Hb Ha. destruct (Z_lt_ge_dec 0 b) as [Hpos|Hneg].
  - now apply quot_bounded.
  - replace b with (- (- b)) by lia. rewrite Z.quot_opp_r by lia.
    pose proof (quot_bounded a (- b) M ltac:(lia) Ha). lia.
Qed.

(** What [remap<int>] computes when the 32-bit product does not wrap. *)
Lemma remap_value (value sourceMin sourceMax targetMin targetMax : Z) :
  is_int16 value -> is_int16 sourceMin -> is_int16 sourceMax ->
  is_int16 targetMin -> is_int16 targetMax ->
  sourceMin <> sourceMax ->
  Z.abs ((sourceMax - sourceMin) * (targetMax - targetMin)) <= 2147483647 ->
  math.remap value sourceMin sourceMax targetMin targetMax
  = Done (to_int16 (targetMin +
                    Z.quot ((math.clamp value sourceMin sourceMax - sourceMin)
                            * (targetMax - targetMin))
                           (sourceMax - sourceMin))).
Proof.
  intros Hv Hs1 Hs2 Ht1 Ht2 Hne Hprod. unfold is_int16 in *.
  unfold math.remap.
  assert (Hv' : -32768 <= math.clamp value sourceMin sourceMax <= 32767 /\
                Z.abs (math.clamp value sourceMin sourceMax - sourceMin)
                <= Z.abs (sourceMax - sourceMin)).
  { unfold math.clamp. destruct (Z.ltb_spec value sourceMin); [lia|].
    destruct (Z.gtb_spec value sourceMax); lia. }
  set (value' := math.clamp value sourceMin sourceMax) in *.
  destruct Hv' as [Hv' Hrun0].
  destruct (Z.eqb_spec sourceMin sourceMax); [contradiction|].
  rewrite !(to_int32_small value'), !(to_int32_small sourceMin), !(to_int32_small sourceMax),
    !(to_int32_small targetMin), !(to_int32_small targetMax) by (unfold is_int32; lia).
  rewrite (to_int32_small (value' - sourceMin)) by (unfold is_int32; lia).
  rewrite (to_int32_small (targetMax - targetMin)) by (unfold is_int32; lia).
  rewrite (to_int32_small (sourceMax - sourceMin)) by (unfold is_int32; lia).
  destruct (Z.eqb_spec (sourceMax - sourceMin) 0); [lia|].
  assert (Hrun : Z.abs ((value' - sourceMin) * (targetMax - targetMin)) <= 2147483647).
  { rewrite Z.abs_mul in *. nia. }
  rewrite (to_int32_small ((value' - sourceMin) * (targetMax - targetMin)))
    by (unfold is_int32; lia).
  pose proof (quot_bounded_any ((value' - sourceMin) * (targetMax - targetMin))
                (sourceMax - sourceMin) 2147483647 ltac:(lia) ltac:(lia)) as Hq.
  rewrite (to_int32_small (Z.quot _ _)) by (unfold is_int32; lia).
  rewrite to_int16_add_idemp. reflexivity.
Qed.

Lemma remap_ordered (value sourceMin sourceMax targetMin targetMax : Z) :
  is_int16 value -> is_int16 sourceMin -> is_int16 sourceMax ->
  is_int16 targetMin -> is_int16 targetMax ->
  sourceMin < sourceMax -> targetMin <= targetMax ->
  (sourceMax - sourceMin) * (targetMax - targetMin) <= 2147483647 ->
  let run := math.clamp value sourceMin sourceMax - sourceMin in
  math.remap value sourceMin sourceMax targetMin targetMax
  = Done (targetMin + run * (targetMax - targetMin) / (sourceMax - sourceMin)) /\
  0 <= run <= sourceMax - sourceMin /\
  0 <= run * (targetMax - targetMin) / (sourceMax - sourceMin) <= targetMax - targetMin.
Proof.
  intros Hv Hs1 Hs2 Ht1 Ht2 Hs Ht Hprod run.
  assert (Hrun : 0 <= run <= sourceMax - sourceMin).
  { subst run. unfold math.clamp. destruct (Z.ltb_spec value sourceMin); [lia|].
    destruct (Z.gtb_spec value sourceMax); lia. }
  assert (Hq : 0 <= run * (targetMax - targetMin) / (sourceMax - sourceMin)
               <= targetMax - targetMin).
  { split; [apply Z.div_pos; nia|]. apply Z.div_le_upper_bound; nia. }
  split; [|split; assumption].
  rewrite remap_value; try assumption; try lia.
  - fold run. rewrite Z.quot_div_nonneg by nia.
    rewrite to_int16_small by (unfold is_int16 in *; lia). reflexivity.
  - rewrite Z.abs_eq by nia. lia.
Qed.

(** X21.  [remap<int>] with a source range in order ([sourceMin <
    sourceMax]), a target range in order whose width fits 16 bits, and a
    product of the two ranges' widths that fits 32 bits: the result is
    [targetMin + (v - sourceMin) * (targetMax - targetMin) / (sourceMax - sourceMin)]
    for the value [v] clamped to the source range; it lies within the
    target range, a value at or below [sourceMin] gives [targetMin] and a
    value at or above [sourceMax] gives [targetMax]. *)
Theorem remap_maps_range_onto_range :
  forall value sourceMin sourceMax targetMin targetMax : Z,
    is_int16 value -> is_int16 sourceMin -> is_int16 sourceMax ->
    is_int16 targetMin -> is_int16 targetMax ->
    sourceMin < sourceMax -> targetMin <= targetMax ->
    targetMax - targetMin <= 32767 ->
    (sourceMax - sourceMin) * (targetMax - targetMin) <= 2147483647 ->
    exists y,
      math.remap value sourceMin sourceMax targetMin targetMax = Done y /\
      y = targetMin + (math.clamp value sourceMin sourceMax - sourceMin)
                      * (targetMax - targetMin) / (sourceMax - sourceMin) /\
      targetMin <= y <= targetMax /\
      (value <= sourceMin -> y = targetMin) /\
      (sourceMax <= value -> y = targetMax).
Proof.
  intros value sMin sMax tMin tMax Hv Hs1 Hs2 Ht1 Ht2 Hs Ht Hwidth Hprod.
  destruct (remap_ordered value sMin sMax tMin tMax Hv Hs1 Hs2 Ht1 Ht2 Hs Ht Hprod)
    as [E [Hrun Hq]].
  eexists. split; [exact E|]. split; [reflexivity|]. split; [lia|]. split.
  - intros Hlow.
    assert (Ec : math.clamp value sMin sMax = sMin).
    { unfold math.clamp. destruct (Z.ltb_spec value sMin); [reflexivity|].
      destruct (Z.gtb_spec value sMax); lia. }
    rewrite Ec, Z.sub_diag, Z.mul_0_l, Z.div_0_l by lia. lia.
  - intros Hhigh.
    assert (Ec : math.clamp value sMin sMax = sMax).
    { unfold math.clamp. destruct (Z.ltb_spec value sMin); [lia|].
      destruct (Z.gtb_spec value sMax); lia. }
    rewrite Ec, (Z.mul_comm (sMax - sMin)), Z.div_mul by lia. lia.
Qed.

Lemma remap_maps_range_onto_range_witness :
  exists y,
    math.remap 512 0 1024 0 5000 = Done y /\
    y = 0 + (math.clamp 512 0 1024 - 0) * (5000 - 0) / (1024 - 0) /\
    0 <= y <= 5000 /\ (512 <= 0 -> y = 0) /\ (1024 <= 512 -> y = 5000).
Proof.
  apply (remap_maps_range_onto_range 512 0 1024 0 5000).
  - unfold is_int16. lia.
  - unfold is_int16. lia.
  - unfold is_int16. lia.
  - unfold is_int16. lia.
  - unfold is_int16. lia.
  - lia.
  - lia.
  - lia.
  - lia.
Defined.

(** X22.  With a source range in order, a target range in order whose width
    fits 16 bits, and a product of the two ranges' widths that fits 32 bits,
    [remap<int>] is monotone: a larger value is never mapped to a smaller
    result. *)
Theorem remap_is_monotone :
  forall v1 v2 sourceMin sourceMax targetMin targetMax : Z,
    is_int16 v1 -> is_int16 v2 -> is_int16 sourceMin -> is_int16 sourceMax ->
    is_int16 targetMin -> is_int16 targetMax ->
    sourceMin < sourceMax -> targetMin <= targetMax ->
    targetMax - targetMin <= 32767 ->
    (sourceMax - sourceMin) * (targetMax - targetMin) <= 2147483647 ->
    v1 <= v2 ->
    exists y1 y2,
      math.remap v1 sourceMin sourceMax targetMin targetMax = Done y1 /\
      math.remap v2 sourceMin sourceMax targetMin targetMax = Done y2 /\
      y1 <= y2.
Proof.
  intros v1 v2 sMin sMax tMin tMax Hv1 Hv2 Hs1 Hs2 Ht1 Ht2 Hs Ht Hwidth Hprod H12.
  destruct (remap_ordered v1 sMin sMax tMin tMax Hv1 Hs1 Hs2 Ht1 Ht2 Hs Ht Hprod)
    as [E1 [Hrun1 _]].
  destruct (remap_ordered v2 sMin sMax tMin tMax Hv2 Hs1 Hs2 Ht1 Ht2 Hs Ht Hprod)
    as [E2 [Hrun2 _]].
  eexists _, _. split; [exact E1|]. split; [exact E2|].
  assert (Hc : math.clamp v1 sMin sMax <= math.clamp v2 sMin sMax).
  { unfold math.clamp.
    destruct (Z.ltb_spec v1 sMin), (Z.ltb_spec v2 sMin),
      (Z.gtb_spec v1 sMax), (Z.gtb_spec v2 sMax); lia. }
  apply Z.add_le_mono_l. apply Z.div_le_mono; [lia|]. nia.
Qed.

Lemma remap_is_monotone_witness :
  exists y1 y2,
    math.remap 100 0 1024 0 5000 = Done y1 /\
    math.remap 512 0 1024 0 5000 = Done y2 /\
    y1 <= y2.
Proof.
  apply (remap_is_monotone 100 512 0 1024 0 5000).
  - unfold is_int16. lia.
  - unfold is_int16. lia.
  - unfold is_int16. lia.
  - unfold is_int16. lia.
  - unfold is_int16. lia.
  - unfold is_int16. lia.
  - lia.
  - lia.
  - lia.
  - lia.
  - lia.
Defined.

(** X23.  [remap<int>] with an empty or a reversed source range: when
    [sourceMin = sourceMax] the result is [targetMin]; when [sourceMax <
    sourceMin] (and the target range's width fits 16 bits, the product of
    the two widths 32 bits) the clamp sends every value to one end of the
    source range, so the result is a step: [targetMin] for a value below [sourceMin] and
    [targetMax] for every other value, never a value in between. *)
Theorem remap_with_a_reversed_source_range :
  forall value sourceMin sourceMax targetMin targetMax : Z,
    is_int16 value -> is_int16 sourceMin -> is_int16 sourceMax ->
    is_int16 targetMin -> is_int16 targetMax ->
    (sourceMin = sourceMax ->
     math.remap value sourceMin sourceMax targetMin targetMax = Done targetMin) /\
    (sourceMax < sourceMin ->
     is_int16 (targetMax - targetMin) ->
     Z.abs ((sourceMax - sourceMin) * (targetMax - targetMin)) <= 2147483647 ->
     (value < sourceMin ->
      math.remap value sourceMin sourceMax targetMin targetMax = Done targetMin) /\
     (sourceMin <= value ->
      math.remap value sourceMin sourceMax targetMin targetMax = Done targetMax)).
Proof.
  intros value sMin sMax tMin tMax Hv Hs1 Hs2 Ht1 Ht2. split.
  - intros ->. unfold math.remap. now rewrite Z.eqb_refl.
  - intros Hrev Hwidth Hprod. split; intros Hcase.
    + rewrite remap_value; try assumption; try lia.
      assert (Ec : math.clamp value sMin sMax = sMin).
      { unfold math.clamp. destruct (Z.ltb_spec value sMin); [reflexivity|lia]. }
      rewrite Ec, Z.sub_diag, Z.mul_0_l, Z.quot_0_l by lia.
      rewrite Z.add_0_r, to_int16_small by assumption. reflexivity.
    + rewrite remap_value; try assumption; try lia.
      assert (Ec : math.clamp value sMin sMax = sMax).
      { unfold math.clamp. destruct (Z.ltb_spec value sMin); [lia|].
        destruct (Z.gtb_spec value sMax); [reflexivity|lia]. }
      rewrite Ec, (Z.mul_comm (sMax - sMin)), Z.quot_mul by lia.
      replace (tMin + (tMax - tMin)) with tMax by lia.
      rewrite to_int16_small by assumption. reflexivity.
Qed.

Lemma remap_with_a_reversed_source_range_witness :
  math.remap 512 1023 0 0 100 = Done 0 /\ math.remap 1023 1023 0 0 100 = Done 100.
Proof.
  destruct (remap_with_a_reversed_source_range 512 1023 0 0 100) as [_ Hlow];
    try (unfold is_int16; lia).
  destruct (remap_with_a_reversed_source_range 1023 1023 0 0 100) as [_ Hhigh];
    try (unfold is_int16; lia).
  split.
  - apply Hlow; unfold is_int16; simpl; lia.
  - apply Hhigh; unfold is_int16; simpl; lia.
Defined.

(** ** The wired pipeline *)

(** Whenever the wired read returns, it returns what the orchestration of
    [TemperatureSensor] returns on the same stages. *)
Lemma wired_read_refines_interface (FilterState : Type) (NTC_LUT : list ThermistorEntry)
      (fuel : nat) (st : Firmware.Stages FilterState) (b b' : Board)
      (f f' : FilterState) (v : Z) (n m : nat) :
  Firmware.readTemperature_x10 FilterState NTC_LUT fuel st b f = Done (v, b', f') ->
  let sensor :=
    {| sampler_ := Some (sample (Firmware.sampler FilterState st));
       resistanceConverter_ :=
         Some (fun raw => value_or 0 (convertToResistance_x10
                                        (Firmware.resistanceConverter FilterState st) raw));
       temperatureConverter_ :=
         Some (fun r => value_or SENTINEL (convertToTemperature_x10 NTC_LUT fuel r));
       filter_ := Firmware.filter FilterState st;
       unit_ := Celsius |} in
  let result :=
    readTemperature_x10 Board FilterState sensor
      {| sampler_object := b; filter_object := f; sample_calls := n; apply_calls := m |} in
  fst result = v /\
  sampler_object Board FilterState (snd result) = b' /\
  filter_object Board FilterState (snd result) = f'.
Proof.
  unfold Firmware.readTemperature_x10, readTemperature_x10, call_sampler, call_filter.
  cbn [sampler_ resistanceConverter_ temperatureConverter_ filter_ sampler_object
       filter_object sample_calls apply_calls].
  destruct (sample (Firmware.sampler FilterState st) b) as [adc_raw b1].
  destruct (convertToResistance_x10 _ adc_raw) as [r| | |]; cbn [bind value_or];
    try discriminate.
  destruct (r =? 0).
  { intros E. injection E as <- <- <-. repeat split. }
  destruct (convertToTemperature_x10 NTC_LUT fuel r) as [t| | |]; cbn [bind value_or];
    try discriminate.
  destruct (t =? SENTINEL).
  { intros E. injection E as <- <- <-. repeat split. }
  destruct (Firmware.filter FilterState st) as [apply|].
  - cbn [filter_object]. destruct (apply t f) as [y fy].
    intros E. injection E as <- <- <-. repeat split.
  - intros E. injection E as <- <- <-. repeat split.
Qed.

(** X24.  In the wired pipeline a sampled value of 1023 (a saturated
    input) does not give the sentinel: the resistance conversion divides by
    zero and the read does not return.  A sampled value of 0 gives the
    sentinel, and the filter's state is left as it was. *)
Theorem wired_read_at_the_ends_of_the_raw_range :
  forall (FilterState : Type) (NTC_LUT : list ThermistorEntry) (fuel : nat)
         (adc_pin avg disc settle_us pullup_Ohms : Z)
         (filter : option (IFilter FilterState)) (b : Board) (f : FilterState),
    let s := AdcSampler.new adc_pin avg disc settle_us in
    let st := {| Firmware.sampler := s;
                 Firmware.resistanceConverter :=
                   VoltageDividerResistanceConverter.new pullup_Ohms;
                 Firmware.filter := filter |} in
    is_uint8 avg -> is_uint8 disc -> is_uint16 pullup_Ohms ->
    (fst (sample s b) = 1023 ->
     Firmware.readTemperature_x10 FilterState NTC_LUT fuel st b f = DivisionByZero) /\
    (fst (sample s b) = 0 ->
     Firmware.readTemperature_x10 FilterState NTC_LUT fuel st b f
     = Done (SENTINEL, snd (sample s b), f)).
Proof.
  intros FilterState NTC_LUT fuel adc_pin avg disc settle_us pullup_Ohms filter b f s st
         _ _ _.
  unfold Firmware.readTemperature_x10.
  cbn [Firmware.sampler Firmware.resistanceConverter Firmware.filter st].
  destruct (sample s b) as [adc_raw b1].
  cbn [fst snd]. split; intros ->.
  - change 1023 with Adc.MAX_VALUE. now rewrite convertToResistance_x10_full_scale.
  - now rewrite convertToResistance_x10_zero.
Qed.

Lemma wired_read_at_the_ends_of_the_raw_range_witness :
  Firmware.readTemperature_x10 Z sample_lut 4
    {| Firmware.sampler := AdcSampler.new 14 16 4 50;
       Firmware.resistanceConverter := VoltageDividerResistanceConverter.new 12700;
       Firmware.filter := Some hold_filter |}
    (steady_board 1023) 7
  = DivisionByZero /\
  Firmware.readTemperature_x10 Z sample_lut 4
    {| Firmware.sampler := AdcSampler.new 14 16 4 50;
       Firmware.resistanceConverter := VoltageDividerResistanceConverter.new 12700;
       Firmware.filter := Some hold_filter |}
    (steady_board 0) 7
  = Done (SENTINEL, snd (sample (AdcSampler.new 14 16 4 50) (steady_board 0)), 7).
Proof.
  split.
  - apply (wired_read_at_the_ends_of_the_raw_range Z sample_lut 4 14 16 4 50 12700
             (Some hold_filter) (steady_board 1023) 7);
      try (unfold is_uint8; lia); try (unfold is_uint16; lia).
    vm_compute. reflexivity.
  - apply (wired_read_at_the_ends_of_the_raw_range Z sample_lut 4 14 16 4 50 12700
             (Some hold_filter) (steady_board 0) 7);
      try (unfold is_uint8; lia); try (unfold is_uint16; lia).
    vm_compute. reflexivity.
Defined.

Lemma wired_read_success (FilterState : Type) (NTC_LUT : list ThermistorEntry)
      (fuel : nat) (adc_pin avg disc settle_us pullup_Ohms : Z)
      (filter : option (IFilter FilterState)) (b : Board) (f : FilterState)
      (e0 : ThermistorEntry) :
  let st := {| Firmware.sampler := AdcSampler.new adc_pin avg disc settle_us;
               Firmware.resistanceConverter := VoltageDividerResistanceConverter.new pullup_Ohms;
               Firmware.filter := filter |} in
  let adc_raw := fst (sample (AdcSampler.new adc_pin avg disc settle_us) b) in
  let b1 := snd (sample (AdcSampler.new adc_pin avg disc settle_us) b) in
  let R := if pullup_Ohms =? 0 then 12700 else pullup_Ohms in
  let r := adc_raw * R * 10 / (1023 - adc_raw) in
  is_uint16 pullup_Ohms ->
  well_formed_lut NTC_LUT = true ->
  2 <= array_size NTC_LUT <= 32767 ->
  array_size NTC_LUT + 1 <= Z.of_nat fuel ->
  nth_error NTC_LUT 0 = Some e0 ->
  0 < adc_raw < 1023 ->
  (0 < r <= resistance_x10 e0 ->
   exists t,
     convertToTemperature_x10 NTC_LUT fuel r = Done t /\ -400 <= t <= 400 /\
     Firmware.readTemperature_x10 FilterState NTC_LUT fuel st b f
     = Done (match filter with
             | Some apply => (fst (apply t f), b1, snd (apply t f))
             | None => (t, b1, f)
             end)) /\
  (r = 0 ->
   Firmware.readTemperature_x10 FilterState NTC_LUT fuel st b f = Done (SENTINEL, b1, f)) /\
  (resistance_x10 e0 < r ->
   Firmware.readTemperature_x10 FilterState NTC_LUT fuel st b f = OutOfBounds 32767).
Proof.
  intros st adc_raw b1 R r Hp Hwf Hfit Hfuel H0 Hraw.
  assert (Eres : convertToResistance_x10 (VoltageDividerResistanceConverter.new pullup_Ohms)
                   adc_raw = Done r).
  { apply (convertToResistance_x10_interior pullup_Ohms adc_raw Hp).
    change Adc.MAX_VALUE with 1023. exact Hraw. }
  unfold Firmware.readTemperature_x10. cbn [Firmware.sampler Firmware.resistanceConverter
    Firmware.filter st].
  subst adc_raw b1.
  destruct (sample (AdcSampler.new adc_pin avg disc settle_us) b) as [adc_raw b1].
  cbn [fst snd] in *. rewrite Eres. cbn [bind].
  split; [|split].
  - intros Hr.
    destruct (conversion_in_calibration_lemma NTC_LUT fuel r e0 Hwf Hfit Hfuel H0 Hr)
      as [t [Et [Hspan Hns]]].
    exists t. split; [exact Et|]. split; [exact Hspan|].
    destruct (Z.eqb_spec r 0); [lia|]. rewrite Et. cbn [bind].
    destruct (Z.eqb_spec t SENTINEL); [contradiction|].
    destruct filter as [apply|]; [|reflexivity].
    destruct (apply t f); reflexivity.
  - intros ->. reflexivity.
  - intros Hr.
    assert (R0 : 0 < resistance_x10 e0).
    { apply (well_formed_lut_entry NTC_LUT e0 Hwf). eapply nth_error_In; eassumption. }
    destruct (Z.eqb_spec r 0); [lia|].
    destruct (convertToTemperature_x10_above_maximum NTC_LUT r e0
                (well_formed_lut_sorted NTC_LUT Hwf) Hfit H0 Hr ltac:(lia) fuel)
      as [_ Hoob].
    now rewrite (Hoob Hfuel).
Qed.

(** X25.  In the wired pipeline, a sampled value strictly between 0 and
    1023 whose resistance [raw * R * 10 / (1023 - raw)] is non-zero and not
    above the first entry of a well-formed table is read successfully: the
    temperature lies within -400..400, it is what the filter is applied to,
    and the filter's output (or the temperature itself when no filter is
    attached) is returned. *)
Theorem wired_read_within_calibration :
  forall (FilterState : Type) (NTC_LUT : list ThermistorEntry) (fuel : nat)
         (adc_pin avg disc settle_us pullup_Ohms : Z)
         (filter : option (IFilter FilterState)) (b : Board) (f : FilterState)
         (e0 : ThermistorEntry),
    let st := {| Firmware.sampler := AdcSampler.new adc_pin avg disc settle_us;
                 Firmware.resistanceConverter :=
                   VoltageDividerResistanceConverter.new pullup_Ohms;
                 Firmware.filter := filter |} in
    let adc_raw := fst (sample (AdcSampler.new adc_pin avg disc settle_us) b) in
    let b1 := snd (sample (AdcSampler.new adc_pin avg disc settle_us) b) in
    let R := if pullup_Ohms =? 0 then 12700 else pullup_Ohms in
    let r := adc_raw * R * 10 / (1023 - adc_raw) in
    is_uint16 pullup_Ohms ->
    well_formed_lut NTC_LUT = true ->
    2 <= array_size NTC_LUT <= 32767 ->
    array_size NTC_LUT + 1 <= Z.of_nat fuel ->
    nth_error NTC_LUT 0 = Some e0 ->
    0 < adc_raw < 1023 ->
    0 < r <= resistance_x10 e0 ->
    exists t,
      convertToTemperature_x10 NTC_LUT fuel r = Done t /\ -400 <= t <= 400 /\
      Firmware.readTemperature_x10 FilterState NTC_LUT fuel st b f
      = Done (match filter with
              | Some apply => (fst (apply t f), b1, snd (apply t f))
              | None => (t, b1, f)
              end).
Proof.
  intros FilterState NTC_LUT fuel adc_pin avg disc settle_us pullup_Ohms filter b f e0
         st adc_raw b1 R r Hp Hwf Hfit Hfuel H0 Hraw Hr.
  exact (proj1 (wired_read_success FilterState NTC_LUT fuel adc_pin avg disc settle_us
                  pullup_Ohms filter b f e0 Hp Hwf Hfit Hfuel H0 Hraw) Hr).
Qed.

Lemma wired_read_within_calibration_witness :
  exists t,
    convertToTemperature_x10 sample_lut 4 127248 = Done t /\ -400 <= t <= 400 /\
    Firmware.readTemperature_x10 Z sample_lut 4
      {| Firmware.sampler := AdcSampler.new 14 16 4 50;
         Firmware.resistanceConverter := VoltageDividerResistanceConverter.new 12700;
         Firmware.filter := Some hold_filter |}
      (steady_board 512) 7
    = Done (fst (hold_filter t 7),
            snd (sample (AdcSampler.new 14 16 4 50) (steady_board 512)),
            snd (hold_filter t 7)).
Proof.
  apply (wired_read_within_calibration Z sample_lut 4 14 16 4 50 12700
           (Some hold_filter) (steady_board 512) 7
           {| resistance_x10 := 1000000; temperature_x10 := -400 |}).
  - unfold is_uint16. lia.
  - reflexivity.
  - unfold array_size. simpl. lia.
  - unfold array_size. simpl. lia.
  - reflexivity.
  - vm_compute. split; reflexivity.
  - vm_compute. split; [reflexivity | discriminate].
Defined.

(** X26.  In the wired pipeline, a sampled value strictly between 0 and
    1023 whose resistance is above the first entry of the table (a sensor
    colder than the calibrated range) is not answered with the first
    entry's temperature nor with the sentinel: the search reads index 32767,
    outside the table, and the read does not return. *)
Theorem wired_read_above_the_table :
  forall (FilterState : Type) (NTC_LUT : list ThermistorEntry) (fuel : nat)
         (adc_pin avg disc settle_us pullup_Ohms : Z)
         (filter : option (IFilter FilterState)) (b : Board) (f : FilterState)
         (e0 : ThermistorEntry),
    let st := {| Firmware.sampler := AdcSampler.new adc_pin avg disc settle_us;
                 Firmware.resistanceConverter :=
                   VoltageDividerResistanceConverter.new pullup_Ohms;
                 Firmware.filter := filter |} in
    let adc_raw := fst (sample (AdcSampler.new adc_pin avg disc settle_us) b) in
    let R := if pullup_Ohms =? 0 then 12700 else pullup_Ohms in
    let r := adc_raw * R * 10 / (1023 - adc_raw) in
    is_uint16 pullup_Ohms ->
    well_formed_lut NTC_LUT = true ->
    2 <= array_size NTC_LUT <= 32767 ->
    array_size NTC_LUT + 1 <= Z.of_nat fuel ->
    nth_error NTC_LUT 0 = Some e0 ->
    0 < adc_raw < 1023 ->
    resistance_x10 e0 < r ->
    Firmware.readTemperature_x10 FilterState NTC_LUT fuel st b f = OutOfBounds 32767.
Proof.
  intros FilterState NTC_LUT fuel adc_pin avg disc settle_us pullup_Ohms filter b f e0
         st adc_raw R r Hp Hwf Hfit Hfuel H0 Hraw Hr.
  exact (proj2 (proj2 (wired_read_success FilterState NTC_LUT fuel adc_pin avg disc
                         settle_us pullup_Ohms filter b f e0 Hp Hwf Hfit Hfuel H0 Hraw))
           Hr).
Qed.

Lemma wired_read_above_the_table_witness :
  Firmware.readTemperature_x10 Z sample_lut 4
    {| Firmware.sampler := AdcSampler.new 14 16 4 50;
       Firmware.resistanceConverter := VoltageDividerResistanceConverter.new 12700;
       Firmware.filter := Some hold_filter |}
    (steady_board 1000) 7
  = OutOfBounds 32767.
Proof.
  apply (wired_read_above_the_table Z sample_lut 4 14 16 4 50 12700
           (Some hold_filter) (steady_board 1000) 7
           {| resistance_x10 := 1000000; temperature_x10 := -400 |}).
  - unfold is_uint16. lia.
  - reflexivity.
  - unfold array_size. simpl. lia.
  - unfold array_size. simpl. lia.
  - reflexivity.
  - vm_compute. split; reflexivity.
  - vm_compute. reflexivity.
Defined.

(** X27.  In the wired pipeline without a filter, on a well-formed table
    whose temperatures do not decrease along the table and with a divider
    resistor of at least 103 ohms (or the default), a larger sampled value
    never reads as a higher temperature: for sampled values
    [0 < raw <= raw' < 1023] within the calibrated range both reads return
    and the second temperature is not above the first. *)
Theorem wired_read_is_monotone :
  forall (NTC_LUT : list ThermistorEntry) (fuel : nat)
         (adc_pin avg disc settle_us pullup_Ohms : Z) (b b' : Board)
         (e0 : ThermistorEntry),
    let s := AdcSampler.new adc_pin avg disc settle_us in
    let st := {| Firmware.sampler := s;
                 Firmware.resistanceConverter :=
                   VoltageDividerResistanceConverter.new pullup_Ohms;
                 Firmware.filter := @None (IFilter unit) |} in
    let R := if pullup_Ohms =? 0 then 12700 else pullup_Ohms in
    is_uint16 pullup_Ohms -> pullup_Ohms = 0 \/ 103 <= pullup_Ohms ->
    well_formed_lut NTC_LUT = true ->
    warming NTC_LUT = true ->
    2 <= array_size NTC_LUT <= 32767 ->
    array_size NTC_LUT + 1 <= Z.of_nat fuel ->
    nth_error NTC_LUT 0 = Some e0 ->
    0 < fst (sample s b) ->
    fst (sample s b) <= fst (sample s b') ->
    fst (sample s b') < 1023 ->
    fst (sample s b') * R * 10 / (1023 - fst (sample s b')) <= resistance_x10 e0 ->
    exists t t',
      Firmware.readTemperature_x10 unit NTC_LUT fuel st b tt
      = Done (t, snd (sample s b), tt) /\
      Firmware.readTemperature_x10 unit NTC_LUT fuel st b' tt
      = Done (t', snd (sample s b'), tt) /\
      t' <= t.
Proof.
  intros NTC_LUT fuel adc_pin avg disc settle_us pullup_Ohms b b' e0 s st R
         Hp Hbig Hwf Hw Hfit Hfuel H0 Hlo Hle Hhi Hr'.
  assert (HR : 103 <= R).
  { subst R. destruct (Z.eqb_spec pullup_Ohms 0); lia. }
  set (a := fst (sample s b)) in *. set (a' := fst (sample s b')) in *.
  assert (Hrr : 0 < a * R * 10 / (1023 - a) /\
                a * R * 10 / (1023 - a) <= a' * R * 10 / (1023 - a')).
  { destruct (Z.eq_dec a a') as [E|N].
    - rewrite <- E. split; [|lia].
      apply Z.div_str_pos. nia.
    - destruct (interior_quotient_increases R a a' HR Hlo ltac:(lia) Hhi). lia. }
  destruct Hrr as [Hpos Hrle].
  destruct (conversion_is_monotone_on_table NTC_LUT fuel _ _ e0 Hwf Hw Hfit Hfuel H0
              Hpos Hrle Hr') as [t [t' [E [E' Ht]]]].
  destruct (proj1 (wired_read_success unit NTC_LUT fuel adc_pin avg disc settle_us
                     pullup_Ohms None b tt e0 Hp Hwf Hfit Hfuel H0
                     ltac:(fold s; fold a; lia))
              ltac:(fold s; fold a; fold R; lia)) as [u [Eu [_ Ru]]].
  destruct (proj1 (wired_read_success unit NTC_LUT fuel adc_pin avg disc settle_us
                     pullup_Ohms None b' tt e0 Hp Hwf Hfit Hfuel H0
                     ltac:(fold s; fold a'; lia))
              ltac:(fold s; fold a'; fold R; lia)) as [u' [Eu' [_ Ru']]].
  fold s in Eu, Eu', Ru, Ru'. fold a in Eu. fold a' in Eu'. fold R in Eu, Eu'.
  assert (u = t) by congruence. assert (u' = t') by congruence. subst u u'.
  exists t, t'. split; [exact Ru|]. split; [exact Ru'|]. exact Ht.
Qed.

Lemma wired_read_is_monotone_witness :
  exists t t',
    Firmware.readTemperature_x10 unit sample_lut 4
      {| Firmware.sampler := AdcSampler.new 14 16 4 50;
         Firmware.resistanceConverter := VoltageDividerResistanceConverter.new 12700;
         Firmware.filter := None |}
      (steady_board 300) tt
    = Done (t, snd (sample (AdcSampler.new 14 16 4 50) (steady_board 300)), tt) /\
    Firmware.readTemperature_x10 unit sample_lut 4
      {| Firmware.sampler := AdcSampler.new 14 16 4 50;
         Firmware.resistanceConverter := VoltageDividerResistanceConverter.new 12700;
         Firmware.filter := None |}
      (steady_board 512) tt
    = Done (t', snd (sample (AdcSampler.new 14 16 4 50) (steady_board 512)), tt) /\
    t' <= t.
Proof.
  apply (wired_read_is_monotone sample_lut 4 14 16 4 50 12700
           (steady_board 300) (steady_board 512)
           {| resistance_x10 := 1000000; temperature_x10 := -400 |}).
  - unfold is_uint16. lia.
  - right. lia.
  - reflexivity.
  - reflexivity.
  - unfold array_size. simpl. lia.
  - unfold array_size. simpl. lia.
  - reflexivity.
  - vm_compute. reflexivity.
  - vm_compute. discriminate.
  - vm_compute. reflexivity.
  - vm_compute. discriminate.
Defined.
